(** * Todo-App-AI: the tool registry and the chat agent

    A shallow embedding of [backend/app/mcp/tools.py] (the five task tools
    and [execute_tool]) and of [backend/app/agent/todo_agent.py] (the
    fast-path matcher, the context builder and the agent loop), with the
    properties of the orchestration contract proved about them.

    Conventions.
    - A Python [str] is a [string]; one [ascii] is one code point below 256.
      The character classes ([str.strip], [str.lower], [\s], [\d],
      [re.IGNORECASE]) are the ones Python uses on that range.
    - A Python [dict] with string keys is a [gmap string pyval].
    - The [tasks] table is a finite map from the primary key to the row.
    - Python exceptions are the [Raises] outcome of a call; a call that
      returns is [Returns]. A call that passes a library a value of a
      type its signature does not declare is [Unmodelled].
    - The model client and the [json] module are parameters of the agent
      loop; [re], [str] and [datetime] are embedded as far as the code
      uses them. *)

From stdpp Require Import gmap strings list fin_maps pretty sorting.
From Stdlib Require Import Ascii String ZArith Lia.

Open Scope string_scope.

(** ** Python strings *)

Module PyStr.

Definition code (c : ascii) : N := N_of_ascii c.

(** [str.isspace] on one character (Py_UNICODE_ISSPACE below 256):
    TAB..CR, FS..US, SPACE, NEL and NBSP. *)
Definition isspace (c : ascii) : bool :=
  let n := code c in
  ((9 <=? n) && (n <=? 13) || (28 <=? n) && (n <=? 32)
   || (n =? 133) || (n =? 160))%N.

(** Decimal digits ([\d] below 256 is [0-9]). *)
Definition isdigit (c : ascii) : bool :=
  let n := code c in ((48 <=? n) && (n <=? 57))%N.

(** [str.lower] on one character: A-Z, and the Latin-1 capitals
    U+00C0..U+00DE except the multiplication sign U+00D7. *)
Definition lower_char (c : ascii) : ascii :=
  let n := code c in
  if ((65 <=? n) && (n <=? 90)
      || (192 <=? n) && (n <=? 222) && negb (n =? 215))%N
  then ascii_of_N (n + 32) else c.

Fixpoint lower (s : string) : string :=
  match s with
  | "" => ""
  | String c s' => String (lower_char c) (lower s')
  end.

Fixpoint lstrip (s : string) : string :=
  match s with
  | "" => ""
  | String c s' => if isspace c then lstrip s' else s
  end.

Fixpoint rstrip (s : string) : string :=
  match s with
  | "" => ""
  | String c s' =>
      match rstrip s' with
      | "" => if isspace c then "" else String c ""
      | r => String c r
      end
  end.

(** [s.strip()] *)
Definition strip (s : string) : string := rstrip (lstrip s).

(** [s[0]] and [s[-1]] ([None] on the empty string, where Python raises
    IndexError; the callers test the length first). *)
Definition first (s : string) : option ascii :=
  match s with "" => None | String c _ => Some c end.

Fixpoint last (s : string) : option ascii :=
  match s with
  | "" => None
  | String c "" => Some c
  | String _ s' => last s'
  end.

(** [s[:-1]] *)
Fixpoint drop_last (s : string) : string :=
  match s with
  | "" => ""
  | String _ "" => ""
  | String c s' => String c (drop_last s')
  end.

(** [s[1:-1]] *)
Definition inner (s : string) : string :=
  match s with "" => "" | String _ s' => drop_last s' end.

Fixpoint startswith (p s : string) : bool :=
  match p, s with
  | "", _ => true
  | String a p', String b s' => Ascii.eqb a b && startswith p' s'
  | String _ _, "" => false
  end.

(** [sub in s] *)
Fixpoint contains (sub s : string) : bool :=
  startswith sub s ||
  match s with
  | "" => false
  | String _ s' => contains sub s'
  end.

(** [sep.join(parts)] *)
Fixpoint join (sep : string) (parts : list string) : string :=
  match parts with
  | [] => ""
  | [p] => p
  | p :: ps => p +:+ sep +:+ join sep ps
  end.

(** First [n] characters. *)
Fixpoint take (n : nat) (s : string) : string :=
  match n, s with
  | S n', String c s' => String c (take n' s')
  | _, _ => ""
  end.

Definition digit_value (c : ascii) : Z := Z.of_N (code c) - 48.

Fixpoint digits_value (acc : Z) (s : string) : Z :=
  match s with
  | "" => acc
  | String c s' => digits_value (10 * acc + digit_value c) s'
  end.

Fixpoint all_digits (s : string) : bool :=
  match s with
  | "" => true
  | String c s' => isdigit c && all_digits s'
  end.

(** [sys.int_info.default_max_str_digits]: the longest run of digits
    [int] converts, in an interpreter started without another limit. *)
Definition INT_MAX_STR_DIGITS : nat := 4300.

(** What [int(s)] does with a text. *)
Inductive int_result :=
| IntValue (z : Z)
| ExceedsLimit (digits : nat)        (* ValueError: Exceeds the limit (4300 digits) *)
| OtherText.                         (* not a run of ASCII digits *)

(** [int(s)] on a non-empty run of ASCII digits, which is all the
    matcher ever passes: its value, leading zeros counted among the
    digits, unless there are more digits than the limit allows. *)
Definition int_of (s : string) : int_result :=
  if negb (String.eqb s "") && all_digits s then
    if (String.length s <=? INT_MAX_STR_DIGITS)%nat then IntValue (digits_value 0 s)
    else ExceedsLimit (String.length s)
  else OtherText.

(** ["\n"] *)
Definition nl : string := String (ascii_of_N 10) "".

End PyStr.

(** ** The fragment of [re] the matcher uses

    A backtracking matcher in continuation-passing style: alternatives are
    tried left to right, [?] and [+] are greedy, and the first complete
    match wins, as in Python's engine. *)

Module Re.

Inductive cls := Space | Digit | AnyButNewline.

Inductive regex :=
| Lit (s : string)              (* literal text *)
| Plus (c : cls)                (* [\s+], [\d+], [.+] *)
| Cat (r1 r2 : regex)
| Alt (r1 r2 : regex)           (* [r1|r2] *)
| Opt (r : regex)               (* [(?:r)?] *)
| Grp (n : nat) (r : regex)     (* capturing group number [n] *)
| Bol                           (* [^] *)
| Eol.                          (* [$] *)

Definition captures := list (nat * string).

Definition in_cls (c : cls) (a : ascii) : bool :=
  match c with
  | Space => PyStr.isspace a
  | Digit => PyStr.isdigit a
  | AnyButNewline => negb (PyStr.code a =? 10)%N
  end.

(** One literal character against one input character. Under
    [re.IGNORECASE] the two are compared after lowering; the patterns
    hold ASCII letters only. *)
Definition chr_eq (ic : bool) (p a : ascii) : bool :=
  if ic then Ascii.eqb (PyStr.lower_char p) (PyStr.lower_char a)
  else Ascii.eqb p a.

(** Match the literal [p] at the head of [s]; the rest of [s] on success. *)
Fixpoint lit (ic : bool) (p s : string) : option string :=
  match p, s with
  | "", _ => Some s
  | String a p', String b s' => if chr_eq ic a b then lit ic p' s' else None
  | String _ _, "" => None
  end.

Section Engine.
Context {R : Type}.

(** A continuation gets the position reached, the input left and the
    groups captured so far. *)
Definition cont := nat -> string -> captures -> option R.

(** Greedy [c+]: take as many characters as match, then give back one
    at a time until the continuation succeeds. *)
Fixpoint plus (c : cls) (pos : nat) (s : string) (caps : captures)
         (k : cont) : option R :=
  match s with
  | "" => None
  | String a s' =>
      if in_cls c a then
        match plus c (S pos) s' caps k with
        | Some r => Some r
        | None => k (S pos) s' caps
        end
      else None
  end.

Fixpoint run (ic : bool) (r : regex) (pos : nat) (s : string)
         (caps : captures) (k : cont) : option R :=
  match r with
  | Lit p =>
      match lit ic p s with
      | Some s' => k (pos + String.length p) s' caps
      | None => None
      end
  | Plus c => plus c pos s caps k
  | Cat r1 r2 =>
      run ic r1 pos s caps (fun pos' s' caps' => run ic r2 pos' s' caps' k)
  | Alt r1 r2 =>
      match run ic r1 pos s caps k with
      | Some x => Some x
      | None => run ic r2 pos s caps k
      end
  | Opt r1 =>
      match run ic r1 pos s caps k with
      | Some x => Some x
      | None => k pos s caps
      end
  | Grp n r1 =>
      run ic r1 pos s caps
          (fun pos' s' caps' => k pos' s' ((n, PyStr.take (pos' - pos) s) :: caps'))
  | Bol => if Nat.eqb pos 0 then k pos s caps else None
  | Eol =>
      if String.eqb s "" || String.eqb s PyStr.nl then k pos s caps else None
  end.
End Engine.

(** [re.match(r, s)]: a match starting at position 0. *)
Definition match_ (ic : bool) (r : regex) (s : string) : option captures :=
  run ic r 0 s [] (fun _ _ caps => Some caps).

(** [re.search(r, s)]: the leftmost start position that matches. *)
Fixpoint search_from (ic : bool) (r : regex) (pos : nat) (s : string)
  : option captures :=
  match run ic r pos s [] (fun _ _ caps => Some caps) with
  | Some caps => Some caps
  | None =>
      match s with
      | "" => None
      | String _ s' => search_from ic r (S pos) s'
      end
  end.

Definition search (ic : bool) (r : regex) (s : string) : option captures :=
  search_from ic r 0 s.

(** [m.group(n)]; [None] when the group took no part in the match. *)
Fixpoint group (n : nat) (caps : captures) : option string :=
  match caps with
  | [] => None
  | (m, s) :: caps' => if Nat.eqb n m then Some s else group n caps'
  end.

(** [r rs...] in sequence, and [r|rs...]. *)
Fixpoint seq (r : regex) (rs : list regex) : regex :=
  match rs with
  | [] => r
  | r' :: rs' => Cat r (seq r' rs')
  end.

Fixpoint alts (r : regex) (rs : list regex) : regex :=
  match rs with
  | [] => r
  | r' :: rs' => Alt r (alts r' rs')
  end.

End Re.

(** ** Python values, exceptions and outcomes *)

Module Py.

#[warnings="-register-all"]
Inductive pyval :=
| VNone
| VBool (b : bool)
| VInt (z : Z)
| VFloat (bits : N)                  (* a binary64, by its bit pattern *)
| VStr (s : string)
| VList (l : list pyval)
| VDict (d : gmap string pyval).

Inductive type_error :=
| NotAMapping                        (* argument after ** must be a mapping *)
| MultipleValues                     (* got multiple values for keyword argument *)
| UnexpectedKeyword                  (* got an unexpected keyword argument *)
| MissingArguments (names : list string) (* missing required positional arguments *)
| NotANumber.                        (* int() argument must be a string or a number *)

Inductive value_error :=
| TooManyDigits (digits : nat).      (* Exceeds the limit (4300 digits) for integer string conversion *)

Inductive exception :=
| TypeError (why : type_error)
| ValueError (why : value_error)
| AttributeError
| APIError (msg : string).           (* raised by the model client *)

(** What a call does. [Unmodelled] is a call that hands a library (the
    database driver, [str()], [int()]) a value outside the types the
    signatures and columns declare (a list as a title, a float as a
    key): what happens then is decided by that library, not by this
    code, and is not embedded here. *)
Inductive outcome (A : Type) :=
| Returns (a : A)
| Raises (e : exception)
| Unmodelled.
Arguments Returns {A} a.
Arguments Raises {A} e.
Arguments Unmodelled {A}.

Definition bind {A B} (o : outcome A) (f : A -> outcome B) : outcome B :=
  match o with
  | Returns a => f a
  | Raises e => Raises e
  | Unmodelled => Unmodelled
  end.

(** [v == s] for a string literal [s]. *)
Definition eq_str (v : pyval) (s : string) : bool :=
  match v with VStr s' => String.eqb s' s | _ => false end.

(** [bool(v)] *)
Definition truthy (v : pyval) : bool :=
  match v with
  | VNone => false
  | VBool b => b
  | VInt z => negb (z =? 0)%Z
  | VFloat bits => negb ((bits =? 0) || (bits =? 2 ^ 63))%N
  | VStr s => negb (String.eqb s "")
  | VList l => match l with [] => false | _ => true end
  | VDict d => negb (bool_decide (d = ∅))
  end.

(** [str(v)], as an f-string field renders it. *)
Definition str (v : pyval) : outcome string :=
  match v with
  | VNone => Returns "None"
  | VBool true => Returns "True"
  | VBool false => Returns "False"
  | VInt z => Returns (pretty z)
  | VStr s => Returns s
  | VFloat _ | VList _ | VDict _ => Unmodelled
  end.

(** [d.get(k)] and [d.get(k, default)]; [get] is a method of [dict]
    only. *)
Definition get (d : pyval) (k : string) (dflt : pyval) : outcome pyval :=
  match d with
  | VDict m => Returns (default dflt (m !! k))
  | _ => Raises AttributeError
  end.

End Py.

Import Py.

Global Instance outcome_ret : MRet outcome := @Returns.
Global Instance outcome_bind : MBind outcome := fun A B f o => Py.bind o f.

(** ** The task store ([models/task.py] and the SQL the tools issue) *)

(** A naive [datetime], by its fields; compared field by field. *)
Record datetime := {
  year : N; month : N; day : N;
  hour : N; minute : N; second : N; microsecond : N
}.

Definition lex (c1 c2 : comparison) : comparison :=
  match c1 with Eq => c2 | _ => c1 end.

Definition dt_compare (a b : datetime) : comparison :=
  lex (year a ?= year b)%N
 (lex (month a ?= month b)%N
 (lex (day a ?= day b)%N
 (lex (hour a ?= hour b)%N
 (lex (minute a ?= minute b)%N
 (lex (second a ?= second b)%N
      (microsecond a ?= microsecond b)%N))))).

(** [a <= b] on datetimes. *)
Definition dt_leb (a b : datetime) : bool :=
  match dt_compare a b with Gt => false | _ => true end.

(** [str(n).zfill(w)] *)
Definition zfill (w : nat) (n : N) : string :=
  let s := pretty n in
  String.concat "" (replicate (w - String.length s) "0") +:+ s.

(** [d.isoformat()]: the microseconds are left out when they are zero. *)
Definition isoformat (d : datetime) : string :=
  zfill 4 (year d) +:+ "-" +:+ zfill 2 (month d) +:+ "-" +:+ zfill 2 (day d)
  +:+ "T" +:+ zfill 2 (hour d) +:+ ":" +:+ zfill 2 (minute d) +:+ ":"
  +:+ zfill 2 (second d)
  +:+ (if (microsecond d =? 0)%N then "" else "." +:+ zfill 6 (microsecond d)).

(** A row of the [tasks] table. The primary key [id] is the key under
    which the row sits in the table. *)
Record Task := {
  user_id : string;
  title : string;
  description : option string;
  completed : bool;
  created_at : datetime;
  updated_at : datetime
}.

(** The database session the tools work in, with the wall clock
    [datetime.utcnow] reads: [clock n] is the n-th reading taken. *)
Record Session := {
  tasks : gmap Z Task;
  clock : nat -> datetime;
  ticks : nat
}.

Definition with_tasks (s : Session) (m : gmap Z Task) : Session :=
  {| tasks := m; clock := clock s; ticks := ticks s |}.

(** [datetime.utcnow()] *)
Definition utcnow (s : Session) : datetime * Session :=
  (clock s (ticks s),
   {| tasks := tasks s; clock := clock s; ticks := S (ticks s) |}).

(** The key the database gives a new row: one past the largest key in
    the table (1 in an empty table). *)
Definition fresh_id (m : gmap Z Task) : Z :=
  foldr Z.max 0%Z (fst <$> map_to_list m) + 1.

(** [select(Task).where(Task.id == task_id, Task.user_id == user_id)]
    then [.first()]. *)
Definition select_task (s : Session) (uid : string) (task_id : Z) : option Task :=
  match tasks s !! task_id with
  | Some t => if String.eqb (user_id t) uid then Some t else None
  | None => None
  end.

(** ** The tools ([mcp/tools.py]) *)

(** A dict display [{k1: v1, ...}]. *)
Definition dict (items : list (string * pyval)) : pyval :=
  VDict (list_to_map items).

Definition opt_str (o : option string) : pyval :=
  match o with Some x => VStr x | None => VNone end.

Definition not_found (task_id : Z) : pyval :=
  dict [("task_id", VInt task_id); ("status", VStr "error");
        ("error", VStr "Task not found")].

Definition add_task (s : Session) (uid : string) (title_ : string)
           (description_ : option string) : pyval * Session :=
  (* Task(...) runs the two default factories, created_at first *)
  let '(created, s1) := utcnow s in
  let '(updated, s2) := utcnow s1 in
  let task := {| user_id := uid; title := title_; description := description_;
                 completed := false;
                 created_at := created; updated_at := updated |} in
  (* session.add; session.commit; session.refresh *)
  let id := fresh_id (tasks s2) in
  let s3 := with_tasks s2 (<[id := task]> (tasks s2)) in
  (dict [("task_id", VInt id); ("status", VStr "created");
         ("title", VStr (title task))], s3).

(** The WHERE clause of [list_tasks]: the owner's rows, narrowed by
    [status] when it is "pending" or "completed". *)
Definition listed (uid : string) (status : pyval) (row : Z * Task) : bool :=
  String.eqb (user_id row.2) uid &&
  (if eq_str status "pending" then negb (completed row.2)
   else if eq_str status "completed" then completed row.2
   else true).

(** [ORDER BY created_at DESC]: [a] may come before [b]. *)
Definition newer_first : relation (Z * Task) :=
  fun a b => dt_leb (created_at b.2) (created_at a.2) = true.

Global Instance newer_first_dec : RelDecision newer_first.
Proof. intros a b. unfold newer_first. apply _. Defined.

Definition task_summary (row : Z * Task) : pyval :=
  dict [("id", VInt row.1);
        ("title", VStr (title row.2));
        ("description", opt_str (description row.2));
        ("completed", VBool (completed row.2));
        ("created_at", VStr (isoformat (created_at row.2)))].

(** The rows the query of [list_tasks] yields, in the order it yields
    them. Rows created at the same instant come in an order SQL leaves
    open; here the sort is stable over the table's own order. *)
Definition query_tasks (s : Session) (uid : string) (status : pyval)
  : list (Z * Task) :=
  merge_sort newer_first (List.filter (listed uid status) (map_to_list (tasks s))).

Definition list_tasks (s : Session) (uid : string) (status : pyval)
  : pyval * Session :=
  (VList (task_summary <$> query_tasks s uid status), s).

Definition complete_task (s : Session) (uid : string) (task_id : Z)
  : pyval * Session :=
  match select_task s uid task_id with
  | None => (not_found task_id, s)
  | Some task =>
      let '(now, s1) := utcnow s in
      let task' := {| user_id := user_id task; title := title task;
                      description := description task;
                      completed := true;
                      created_at := created_at task; updated_at := now |} in
      let s2 := with_tasks s1 (<[task_id := task']> (tasks s1)) in
      (dict [("task_id", VInt task_id); ("status", VStr "completed");
             ("title", VStr (title task'))], s2)
  end.

Definition delete_task (s : Session) (uid : string) (task_id : Z)
  : pyval * Session :=
  match select_task s uid task_id with
  | None => (not_found task_id, s)
  | Some task =>
      let title_ := title task in
      let s1 := with_tasks s (delete task_id (tasks s)) in
      (dict [("task_id", VInt task_id); ("status", VStr "deleted");
             ("title", VStr title_)], s1)
  end.

Definition update_task (s : Session) (uid : string) (task_id : Z)
           (title_ : option string) (description_ : option string)
  : pyval * Session :=
  match select_task s uid task_id with
  | None => (not_found task_id, s)
  | Some task =>
      let new_title :=
        match title_ with Some x => x | None => title task end in
      let new_description :=
        match description_ with Some x => Some x | None => description task end in
      let '(now, s1) := utcnow s in
      let task' := {| user_id := user_id task; title := new_title;
                      description := new_description;
                      completed := completed task;
                      created_at := created_at task; updated_at := now |} in
      let s2 := with_tasks s1 (<[task_id := task']> (tasks s1)) in
      (dict [("task_id", VInt task_id); ("status", VStr "updated");
             ("title", VStr (title task'))], s2)
  end.

(** *** Keyword binding at the call [tools[tool_name](session=..., user_id=..., **arguments)] *)

(** The parameters of each tool after [session] and [user_id], with
    whether each is required. *)
Definition signature (tool_name : string) : option (list (string * bool)) :=
  if String.eqb tool_name "add_task" then
    Some [("title", true); ("description", false)]
  else if String.eqb tool_name "list_tasks" then
    Some [("status", false)]
  else if String.eqb tool_name "complete_task" then
    Some [("task_id", true)]
  else if String.eqb tool_name "delete_task" then
    Some [("task_id", true)]
  else if String.eqb tool_name "update_task" then
    Some [("task_id", true); ("title", false); ("description", false)]
  else None.

Definition has_key (m : gmap string pyval) (k : string) : bool :=
  match m !! k with Some _ => true | None => false end.

Definition known_param (params : list (string * bool)) (k : string) : bool :=
  existsb (fun p => String.eqb p.1 k) params.

(** What Python checks before the body runs: [**arguments] must be a
    mapping; it may not repeat a keyword written out at the call; every
    keyword must name a parameter; every required parameter must be
    given. The result is the mapping, bound. *)
Definition bind_arguments (params : list (string * bool)) (arguments : pyval)
  : outcome (gmap string pyval) :=
  match arguments with
  | VDict m =>
      if has_key m "session" || has_key m "user_id" then
        Raises (TypeError MultipleValues)
      else if negb (forallb (fun kv => known_param params kv.1) (map_to_list m)) then
        Raises (TypeError UnexpectedKeyword)
      else
        match List.filter (fun p => p.2 && negb (has_key m p.1)) params with
        | [] => Returns m
        | missing => Raises (TypeError (MissingArguments (fst <$> missing)))
        end
  | _ => Raises (TypeError NotAMapping)
  end.

(** A bound value at a parameter annotated [str], [int] or
    [Optional[str]]. Any other value would reach the database as it is. *)
Definition as_str (v : option pyval) : outcome string :=
  match v with Some (VStr x) => Returns x | _ => Unmodelled end.

Definition as_int (v : option pyval) : outcome Z :=
  match v with Some (VInt z) => Returns z | _ => Unmodelled end.

Definition as_opt_str (v : option pyval) : outcome (option string) :=
  match v with
  | None | Some VNone => Returns None
  | Some (VStr x) => Returns (Some x)
  | _ => Unmodelled
  end.

Definition unknown_tool (tool_name : string) : pyval :=
  dict [("error", VStr ("Unknown tool: " +:+ tool_name))].

(** [execute_tool(session, user_id, tool_name, arguments)]. A call that
    does not return leaves the session as it was. *)
Definition execute_tool (s : Session) (uid : string) (tool_name : string)
           (arguments : pyval) : outcome pyval * Session :=
  match signature tool_name with
  | None => (Returns (unknown_tool tool_name), s)
  | Some params =>
      match bind_arguments params arguments with
      | Raises e => (Raises e, s)
      | Unmodelled => (Unmodelled, s)
      | Returns m =>
          let run (call : outcome (pyval * Session)) :=
            match call with
            | Returns (r, s') => (Returns r, s')
            | Raises e => (Raises e, s)
            | Unmodelled => (Unmodelled, s)
            end in
          if String.eqb tool_name "add_task" then
            run (title_ ← as_str (m !! "title");
                 description_ ← as_opt_str (m !! "description");
                 mret (add_task s uid title_ description_))
          else if String.eqb tool_name "list_tasks" then
            run (mret (list_tasks s uid (default (VStr "all") (m !! "status"))))
          else if String.eqb tool_name "complete_task" then
            run (task_id ← as_int (m !! "task_id");
                 mret (complete_task s uid task_id))
          else if String.eqb tool_name "delete_task" then
            run (task_id ← as_int (m !! "task_id");
                 mret (delete_task s uid task_id))
          else
            run (task_id ← as_int (m !! "task_id");
                 title_ ← as_opt_str (m !! "title");
                 description_ ← as_opt_str (m !! "description");
                 mret (update_task s uid task_id title_ description_))
      end
  end.

(** ** The agent ([agent/todo_agent.py]) *)

(** A row of the [messages] table ([models/message.py]). *)
Record Message := {
  msg_id : option Z;
  msg_user_id : string;
  conversation_id : Z;
  role : string;
  content : string;
  msg_created_at : datetime
}.

(** One invocation the model asks for: [tc.id], [tc.function.name] and
    [tc.function.arguments], the latter as the text the model wrote. *)
Record ToolCallRequest := {
  tc_id : string;
  tc_name : string;
  tc_arguments : string
}.

(** A message of the running list sent to the model: a dict with [role]
    and [content], and [tool_calls] or [tool_call_id] on the turns that
    carry them. *)
Record ChatMessage := {
  cm_role : string;
  cm_content : option string;
  cm_tool_calls : option (list ToolCallRequest);
  cm_tool_call_id : option string
}.

(** [response.choices[0].message] *)
Record AssistantMessage := {
  am_content : option string;
  am_tool_calls : option (list ToolCallRequest)
}.

(** One entry of the audit trail: [{"name", "arguments", "result"}]. *)
Record ToolCall := {
  name : string;
  arguments : pyval;
  result : pyval
}.

(** The state one orchestration run threads: the database session, and
    two logs kept for the proofs only: every tool execution that
    returned, and every request sent to the model, both in the order they
    happened. *)
Record Run := {
  session : Session;
  executed : list ToolCall;
  asked : list (list ChatMessage)
}.

Definition start (s : Session) : Run :=
  {| session := s; executed := []; asked := [] |}.

Definition MAX_CONTEXT_MESSAGES : nat := 12.
Definition MAX_TOOL_ITERATIONS : nat := 4.

Definition SYSTEM_PROMPT : string :=
  "You manage todo tasks with tools." +:+ PyStr.nl +:+
  "Use tools for add/list/complete/delete/update actions." +:+ PyStr.nl +:+
  "Be concise and friendly." +:+ PyStr.nl +:+
  "If the user is ambiguous, ask a clarifying question." +:+ PyStr.nl +:+
  "If a task is not found, say so clearly.".

Definition plain (role_ content_ : string) : ChatMessage :=
  {| cm_role := role_; cm_content := Some content_;
     cm_tool_calls := None; cm_tool_call_id := None |}.

(** [messages[-MAX_CONTEXT_MESSAGES:]] behind the system prompt. *)
Definition _recent_openai_messages (messages : list Message) : list ChatMessage :=
  let recent := drop (List.length messages - MAX_CONTEXT_MESSAGES) messages in
  plain "system" SYSTEM_PROMPT :: ((fun msg => plain (role msg) (content msg)) <$> recent).

Definition squote : ascii := ascii_of_N 39.
Definition dquote : ascii := ascii_of_N 34.

(** [len(value) >= 2 and value[0] == value[-1]], and [value[0]] one of the
    two quote characters, single or double. *)
Definition wrapped (value : string) : bool :=
  (2 <=? String.length value)%nat &&
  match PyStr.first value, PyStr.last value with
  | Some a, Some b => Ascii.eqb a b && (Ascii.eqb a squote || Ascii.eqb a dquote)
  | _, _ => false
  end.

Definition _strip_wrapping_quotes (value : string) : string :=
  let value := PyStr.strip value in
  if wrapped value then PyStr.strip (PyStr.inner value) else value.

(** [execute_tool] as the agent calls it: on the run's session, with the
    execution logged when it returns. *)
Definition call_tool (uid tool_name : string) (arguments_ : pyval) (st : Run)
  : outcome pyval * Run :=
  let '(o, s') := execute_tool (session st) uid tool_name arguments_ in
  match o with
  | Returns r =>
      (Returns r,
       {| session := s';
          executed := (executed st ++ [{| name := tool_name; arguments := arguments_; result := r |}])%list;
          asked := asked st |})
  | _ => (o, {| session := s'; executed := executed st; asked := asked st |})
  end.

(** *** The canned sentences of [run_tool] *)

(** A value used where the code needs a [str]. *)
Definition text_of (v : pyval) : outcome string :=
  match v with VStr x => Returns x | _ => Unmodelled end.

(** One line of a listing:
    [f"{'Done' if item.get('completed') else 'Todo'} #{item.get('id')}: {item.get('title')}"] *)
Definition task_line (item : pyval) : outcome string :=
  done ← Py.get item "completed" VNone;
  id_ ← Py.get item "id" VNone;
  id_text ← Py.str id_;
  title_ ← Py.get item "title" VNone;
  title_text ← Py.str title_;
  mret ((if truthy done then "Done" else "Todo") +:+ " #" +:+ id_text +:+ ": " +:+ title_text).

Fixpoint for_each {A B} (f : A -> outcome B) (l : list A) : outcome (list B) :=
  match l with
  | [] => mret []
  | x :: l' => y ← f x; ys ← for_each f l'; mret (y :: ys)
  end.

Definition render_list (result_ : pyval) : outcome string :=
  let items := match result_ with VList l => l | _ => [] end in
  match items with
  | [] => mret "You don't have any matching tasks yet."
  | _ =>
      lines ← for_each task_line (take 10 items);
      let lines :=
        if (10 <? List.length items)%nat
        then (lines ++ ["...and " +:+ pretty (List.length items - 10) +:+ " more."])%list
        else lines in
      mret ("Here are your tasks:" +:+ PyStr.nl +:+ PyStr.join PyStr.nl lines)
  end.

(** The sentence for complete, delete and update: the confirmation when
    [status] is the expected one, else the tool's [error]. *)
Definition render_change (verb status : string) (result_ : pyval) : outcome string :=
  st ← Py.get result_ "status" VNone;
  if eq_str st status then
    id_ ← Py.get result_ "task_id" VNone;
    id_text ← Py.str id_;
    title_ ← Py.get result_ "title" VNone;
    title_text ← Py.str title_;
    mret (verb +:+ " task #" +:+ id_text +:+ ": " +:+ title_text +:+ ".")
  else
    err ← Py.get result_ "error" (VStr "Task not found.");
    text_of err.

Definition render (tool_name : string) (arguments_ result_ : pyval) : outcome string :=
  if String.eqb tool_name "add_task" then
    fallback ← Py.get arguments_ "title" (VStr "Untitled");
    title_ ← Py.get result_ "title" fallback;
    title_text ← Py.str title_;
    mret ("Added task: " +:+ title_text +:+ ".")
  else if String.eqb tool_name "list_tasks" then render_list result_
  else if String.eqb tool_name "complete_task" then
    render_change "Completed" "completed" result_
  else if String.eqb tool_name "delete_task" then
    render_change "Deleted" "deleted" result_
  else if String.eqb tool_name "update_task" then
    render_change "Updated" "updated" result_
  else mret "Done.".

(** [run_tool], the closure of [_fast_path_command] over [user_id] and
    [session]. *)
Definition run_tool (uid tool_name : string) (arguments_ : pyval)
           (response_text : option string) (st : Run)
  : outcome (string * list ToolCall) * Run :=
  match call_tool uid tool_name arguments_ st with
  | (Returns result_, st') =>
      let entry := {| name := tool_name; arguments := arguments_; result := result_ |} in
      match response_text with
      | Some text => (Returns (text, [entry]), st')
      | None =>
          (text ← render tool_name arguments_ result_; mret (text, [entry]), st')
      end
  | (Raises e, st') => (Raises e, st')
  | (Unmodelled, st') => (Unmodelled, st')
  end.

(** *** The patterns of the fast path *)

Module Patterns.
Import Re.

(** [^(?:add|create)\s+(?:a\s+)?task(?:\s+to)?\s+(.+)$] *)
Definition add_task : regex :=
  seq Bol [alts (Lit "add") [Lit "create"]; Plus Space;
           Opt (Cat (Lit "a") (Plus Space)); Lit "task";
           Opt (Cat (Plus Space) (Lit "to")); Plus Space;
           Grp 1 (Plus AnyButNewline); Eol].

(** [^remember\s+to\s+(.+)$] *)
Definition remember : regex :=
  seq Bol [Lit "remember"; Plus Space; Lit "to"; Plus Space;
           Grp 1 (Plus AnyButNewline); Eol].

(** [(?:complete|finish|mark)\s+task\s+(\d+)(?:\s+as\s+(?:done|complete))?] *)
Definition complete_task : regex :=
  seq (alts (Lit "complete") [Lit "finish"; Lit "mark"])
      [Plus Space; Lit "task"; Plus Space; Grp 1 (Plus Digit);
       Opt (seq (Plus Space) [Lit "as"; Plus Space;
                              alts (Lit "done") [Lit "complete"]])].

(** [(?:delete|remove)\s+task\s+(\d+)] *)
Definition delete_task : regex :=
  seq (alts (Lit "delete") [Lit "remove"])
      [Plus Space; Lit "task"; Plus Space; Grp 1 (Plus Digit)].

(** [(?:change|update|rename)\s+task\s+(\d+)\s+(?:to|as)\s+(.+)$] *)
Definition update_task : regex :=
  seq (alts (Lit "change") [Lit "update"; Lit "rename"])
      [Plus Space; Lit "task"; Plus Space; Grp 1 (Plus Digit); Plus Space;
       alts (Lit "to") [Lit "as"]; Plus Space;
       Grp 2 (Plus AnyButNewline); Eol].
End Patterns.

(** [m.group(n)] as a string; on a group that took no part Python hands
    on [None], and the string method called on it raises. *)
Definition group_text (n : nat) (caps : Re.captures) : outcome string :=
  match Re.group n caps with
  | Some x => Returns x
  | None => Raises AttributeError
  end.

(** [int(m.group(n))] *)
Definition group_int (n : nat) (caps : Re.captures) : outcome Z :=
  match Re.group n caps with
  | Some x =>
      match PyStr.int_of x with
      | PyStr.IntValue z => Returns z
      | PyStr.ExceedsLimit digits => Raises (ValueError (TooManyDigits digits))
      | PyStr.OtherText => Unmodelled
      end
  | None => Raises (TypeError NotANumber)
  end.

(** [any(p in s for p in phrases)] *)
Definition any_in (phrases : list string) (s : string) : bool :=
  existsb (fun p => PyStr.contains p s) phrases.

Definition latest_user_message (messages : list Message) : option Message :=
  List.find (fun m => String.eqb (role m) "user") (rev messages).

Definition some_of (r : outcome (string * list ToolCall) * Run)
  : outcome (option (string * list ToolCall)) * Run :=
  (x ← r.1; mret (Some x), r.2).

(** [_fast_path_command]: [Returns None] is the Python [None], the
    signal that no command shape matched. *)
Definition _fast_path_command (uid : string) (messages : list Message) (st : Run)
  : outcome (option (string * list ToolCall)) * Run :=
  match latest_user_message messages with
  | None => (Returns None, st)
  | Some latest_user =>
      let text := PyStr.strip (content latest_user) in
      if String.eqb text "" then (Returns None, st) else
      let lower := PyStr.strip (PyStr.lower text) in
      (* the steps after the add/create step *)
      let after_add :=
        if any_in ["what's pending"; "what is pending"; "pending tasks"] lower then
          some_of (run_tool uid "list_tasks" (dict [("status", VStr "pending")]) None st)
        else if any_in ["completed tasks"; "done tasks"; "finished tasks"] lower then
          some_of (run_tool uid "list_tasks" (dict [("status", VStr "completed")]) None st)
        else if (PyStr.contains "task" lower || PyStr.contains "todo" lower)
                && any_in ["list"; "show"; "what"; "display"] lower
                || existsb (String.eqb lower) ["tasks"; "todos"; "show tasks"; "list tasks"]
        then
          let status :=
            if PyStr.contains "pending" lower then "pending"
            else if any_in ["completed"; "done"; "finished"] lower then "completed"
            else "all" in
          some_of (run_tool uid "list_tasks" (dict [("status", VStr status)]) None st)
        else
          match Re.search false Patterns.complete_task lower with
          | Some m =>
              match group_int 1 m with
              | Returns task_id =>
                  some_of (run_tool uid "complete_task" (dict [("task_id", VInt task_id)]) None st)
              | Raises e => (Raises e, st)
              | Unmodelled => (Unmodelled, st)
              end
          | None =>
          match Re.search false Patterns.delete_task lower with
          | Some m =>
              match group_int 1 m with
              | Returns task_id =>
                  some_of (run_tool uid "delete_task" (dict [("task_id", VInt task_id)]) None st)
              | Raises e => (Raises e, st)
              | Unmodelled => (Unmodelled, st)
              end
          | None =>
          match Re.search true Patterns.update_task text with
          | Some m =>
              match (task_id ← group_int 1 m;
                     raw ← group_text 2 m;
                     mret (task_id, _strip_wrapping_quotes raw)) with
              | Returns (task_id, title_) =>
                  if String.eqb title_ "" then (Returns None, st)
                  else some_of (run_tool uid "update_task"
                                  (dict [("task_id", VInt task_id); ("title", VStr title_)])
                                  None st)
              | Raises e => (Raises e, st)
              | Unmodelled => (Unmodelled, st)
              end
          | None => (Returns None, st)
          end end end in
      let add_match :=
        match Re.match_ true Patterns.add_task text with
        | Some m => Some m
        | None => Re.match_ true Patterns.remember text
        end in
      match add_match with
      | Some m =>
          match group_text 1 m with
          | Returns raw =>
              let title_ := _strip_wrapping_quotes raw in
              if String.eqb title_ "" then after_add
              else some_of (run_tool uid "add_task" (dict [("title", VStr title_)]) None st)
          | Raises e => (Raises e, st)
          | Unmodelled => (Unmodelled, st)
          end
      | None => after_add
      end
  end.

(** *** The agent loop *)

Definition NOT_SURE : string := "I'm not sure how to help with that.".
Definition COMPLETED_ACK : string :=
  "I've completed the requested operations. Is there anything else you'd like me to do?".

Section Agent.

(** The libraries the loop calls.
    - [llm messages] is [client.chat.completions.create(model=...,
      messages=messages, tools=TOOL_DEFINITIONS, tool_choice="auto",
      max_tokens=220).choices[0].message]; a transport or provider
      failure is [Raises]. The running list grows with every round, so
      no two requests of one run are equal and a function of the request
      stands for any sequence of answers.
    - [json_loads text] is [json.loads(text)], [None] when it raises
      [JSONDecodeError].
    - [json_dumps v] is [json.dumps(v)]. *)
Variable llm : list ChatMessage -> outcome AssistantMessage.
Variable json_loads : string -> option pyval.
Variable json_dumps : pyval -> string.

Definition ask (messages : list ChatMessage) (st : Run)
  : outcome AssistantMessage * Run :=
  (llm messages,
   {| session := session st; executed := executed st;
      asked := (asked st ++ [messages])%list |}).

(** [try: json.loads(...) except json.JSONDecodeError: {}] *)
Definition parse_arguments (text : string) : pyval :=
  match json_loads text with
  | Some v => v
  | None => dict []
  end.

Definition tool_message (tool_call : ToolCallRequest) (result_ : pyval) : ChatMessage :=
  {| cm_role := "tool"; cm_content := Some (json_dumps result_);
     cm_tool_calls := None; cm_tool_call_id := Some (tc_id tool_call) |}.

(** The inner loop [for tool_call in assistant_message.tool_calls]. *)
Fixpoint execute_tool_calls (uid : string) (tool_calls : list ToolCallRequest)
         (openai_messages : list ChatMessage) (tool_calls_made : list ToolCall)
         (st : Run) : outcome (list ChatMessage * list ToolCall) * Run :=
  match tool_calls with
  | [] => (Returns (openai_messages, tool_calls_made), st)
  | tool_call :: rest =>
      let tool_name := tc_name tool_call in
      let arguments_ := parse_arguments (tc_arguments tool_call) in
      match call_tool uid tool_name arguments_ st with
      | (Returns result_, st') =>
          execute_tool_calls uid rest
            (openai_messages ++ [tool_message tool_call result_])%list
            (tool_calls_made ++
               [{| name := tool_name; arguments := arguments_; result := result_ |}])%list
            st'
      | (Raises e, st') => (Raises e, st')
      | (Unmodelled, st') => (Unmodelled, st')
      end
  end.

(** [for _ in range(rounds)] and the return after it. *)
Fixpoint agent_loop (rounds : nat) (uid : string)
         (openai_messages : list ChatMessage) (tool_calls_made : list ToolCall)
         (st : Run) : outcome (string * list ToolCall) * Run :=
  match rounds with
  | O => (Returns (COMPLETED_ACK, tool_calls_made), st)
  | S rounds' =>
      match ask openai_messages st with
      | (Returns assistant_message, st1) =>
          match am_tool_calls assistant_message with
          | None | Some [] =>
              let text :=
                match am_content assistant_message with
                | None | Some "" => NOT_SURE
                | Some text => text
                end in
              (Returns (text, tool_calls_made), st1)
          | Some tool_calls =>
              let openai_messages :=
                (openai_messages ++
                   [{| cm_role := "assistant";
                       cm_content := am_content assistant_message;
                       cm_tool_calls := Some tool_calls;
                       cm_tool_call_id := None |}])%list in
              match execute_tool_calls uid tool_calls openai_messages
                      tool_calls_made st1 with
              | (Returns (openai_messages, tool_calls_made), st2) =>
                  agent_loop rounds' uid openai_messages tool_calls_made st2
              | (Raises e, st2) => (Raises e, st2)
              | (Unmodelled, st2) => (Unmodelled, st2)
              end
          end
      | (Raises e, st1) => (Raises e, st1)
      | (Unmodelled, st1) => (Unmodelled, st1)
      end
  end.

Definition run_agent (uid : string) (messages : list Message) (st : Run)
  : outcome (string * list ToolCall) * Run :=
  match _fast_path_command uid messages st with
  | (Returns (Some fast_path), st') => (Returns fast_path, st')
  | (Returns None, st') =>
      agent_loop MAX_TOOL_ITERATIONS uid (_recent_openai_messages messages) [] st'
  | (Raises e, st') => (Raises e, st')
  | (Unmodelled, st') => (Unmodelled, st')
  end.

End Agent.

(** ** The tool catalog sent to the model ([TOOL_DEFINITIONS]) *)

(** One entry of a tool's ["properties"]: the parameter's name, its JSON
    type, its ["enum"] when it has one, and its description. *)
Record ParameterSchema := {
  p_name : string;
  p_type : string;
  p_enum : option (list string);
  p_description : string
}.

(** One entry of [TOOL_DEFINITIONS]: the ["function"] object of a tool. *)
Record ToolDefinition := {
  td_name : string;
  td_description : string;
  td_properties : list ParameterSchema;
  td_required : list string
}.

Definition TOOL_DEFINITIONS : list ToolDefinition :=
  [ {| td_name := "add_task";
       td_description := "Create a new task. Use this when the user wants to add, create, or remember something as a task.";
       td_properties :=
         [ {| p_name := "title"; p_type := "string"; p_enum := None;
              p_description := "The title of the task" |};
           {| p_name := "description"; p_type := "string"; p_enum := None;
              p_description := "Optional detailed description of the task" |} ];
       td_required := ["title"] |};
    {| td_name := "list_tasks";
       td_description := "Retrieve tasks from the list. Use this when the user wants to see, show, or list their tasks.";
       td_properties :=
         [ {| p_name := "status"; p_type := "string";
              p_enum := Some ["all"; "pending"; "completed"];
              p_description := "Filter tasks by status. 'all' shows all tasks, 'pending' shows incomplete tasks, 'completed' shows finished tasks." |} ];
       td_required := [] |};
    {| td_name := "complete_task";
       td_description := "Mark a task as complete. Use this when the user says they finished, completed, or are done with a task.";
       td_properties :=
         [ {| p_name := "task_id"; p_type := "integer"; p_enum := None;
              p_description := "The ID of the task to mark as complete" |} ];
       td_required := ["task_id"] |};
    {| td_name := "delete_task";
       td_description := "Remove a task from the list. Use this when the user wants to delete, remove, or cancel a task.";
       td_properties :=
         [ {| p_name := "task_id"; p_type := "integer"; p_enum := None;
              p_description := "The ID of the task to delete" |} ];
       td_required := ["task_id"] |};
    {| td_name := "update_task";
       td_description := "Modify a task's title or description. Use this when the user wants to change, update, rename, or edit a task.";
       td_properties :=
         [ {| p_name := "task_id"; p_type := "integer"; p_enum := None;
              p_description := "The ID of the task to update" |};
           {| p_name := "title"; p_type := "string"; p_enum := None;
              p_description := "New title for the task" |};
           {| p_name := "description"; p_type := "string"; p_enum := None;
              p_description := "New description for the task" |} ];
       td_required := ["task_id"] |} ].

(** ** The chat endpoint ([api/chat.py]) *)

(** A row of the [conversations] table ([models/conversation.py]); the
    primary key is the key under which the row sits in the table. *)
Record Conversation := {
  conv_user_id : string;
  conv_created_at : datetime;
  conv_updated_at : datetime
}.

(** The database the endpoint's session works on: the tasks with the
    clock, as the tools see them, and the two tables of the dialogue. *)
Record Database := {
  store : Session;
  conversations : gmap Z Conversation;
  chat_messages : gmap Z Message
}.

(** The key the database gives a new row of a table: one past the
    largest key in it, as for tasks. *)
Definition next_key {A} (m : gmap Z A) : Z :=
  foldr Z.max 0%Z (fst <$> map_to_list m) + 1.

(** [ChatRequest] and [ChatResponse]. *)
Record ChatRequest := {
  req_conversation_id : option Z;
  req_message : string
}.

Record ChatResponse := {
  resp_conversation_id : Z;
  resp_response : string;
  resp_tool_calls : list ToolCall
}.

(** How a call of the endpoint ends: with its response; with an
    [HTTPException]; with the exception the agent raised; or with the
    validation error of [ChatResponse], whose [ToolCall] model wants
    [arguments] to be a dict. *)
Inductive chat_outcome :=
| Responds (r : ChatResponse)
| HTTPException (status_code : Z) (detail : string)
| Fails (e : exception)
| ValidationError
| ChatUnmodelled.

Definition with_store (db : Database) (s : Session) : Database :=
  {| store := s; conversations := conversations db;
     chat_messages := chat_messages db |}.

(** [datetime.utcnow()] in the endpoint: the same clock. *)
Definition db_utcnow (db : Database) : datetime * Database :=
  let '(t, s) := utcnow (store db) in (t, with_store db s).

(** [Message(...)], [session.add], [session.commit]. *)
Definition store_message (db : Database) (uid : string) (cid : Z)
           (role_ content_ : string) : Database :=
  let '(created, db1) := db_utcnow db in
  let id := next_key (chat_messages db1) in
  {| store := store db1; conversations := conversations db1;
     chat_messages :=
       <[id := {| msg_id := Some id; msg_user_id := uid; conversation_id := cid;
                  role := role_; content := content_;
                  msg_created_at := created |}]> (chat_messages db1) |}.

(** [ORDER BY created_at]: [a] may come before [b]. *)
Definition older_first : relation (Z * Message) :=
  fun a b => dt_leb (msg_created_at a.2) (msg_created_at b.2) = true.

Global Instance older_first_dec : RelDecision older_first.
Proof. intros a b. unfold older_first. apply _. Defined.

(** [select(Message).where(Message.conversation_id == cid)
    .order_by(Message.created_at)] and [.all()]. *)
Definition conversation_history (db : Database) (cid : Z) : list Message :=
  snd <$> merge_sort older_first
            (List.filter (fun row : Z * Message => Z.eqb (conversation_id row.2) cid)
                         (map_to_list (chat_messages db))).

(** [Conversation(user_id=user_id)], [session.add], [session.commit],
    [session.refresh]: the two default factories read the clock. *)
Definition new_conversation (db : Database) (uid : string) : Z * Database :=
  let '(created, db1) := db_utcnow db in
  let '(updated, db2) := db_utcnow db1 in
  let id := next_key (conversations db2) in
  (id,
   {| store := store db2;
      conversations :=
        <[id := {| conv_user_id := uid; conv_created_at := created;
                   conv_updated_at := updated |}]> (conversations db2);
      chat_messages := chat_messages db2 |}).

(** The conversation the request names, with its update time set (the
    change reaches the table with the next commit, that of the user's
    message), or a new one; [None] is the 404. A conversation id of 0 is
    falsy, like a missing one. *)
Definition open_conversation (db : Database) (uid : string) (request : ChatRequest)
  : option (Z * Database) :=
  match req_conversation_id request with
  | Some cid =>
      if negb (cid =? 0)%Z then
        match conversations db !! cid with
        | Some conversation =>
            if String.eqb (conv_user_id conversation) uid then
              let '(now, db1) := db_utcnow db in
              Some (cid,
                    {| store := store db1;
                       conversations :=
                         <[cid := {| conv_user_id := conv_user_id conversation;
                                     conv_created_at := conv_created_at conversation;
                                     conv_updated_at := now |}]> (conversations db1);
                       chat_messages := chat_messages db1 |})
            else None
        | None => None
        end
      else Some (new_conversation db uid)
  | None => Some (new_conversation db uid)
  end.

(** What the [ToolCall] model accepts of an entry: [arguments] must be a
    dict. *)
Definition valid_tool_call (e : ToolCall) : bool :=
  match arguments e with VDict _ => true | _ => false end.

Section Chat.

Variable llm : list ChatMessage -> outcome AssistantMessage.
Variable json_loads : string -> option pyval.
Variable json_dumps : pyval -> string.

(** [chat(user_id, request, session, auth_user_id)], with the
    authenticated identity as [get_current_user_id] hands it over. *)
Definition chat (uid : string) (request : ChatRequest) (db : Database)
           (auth_user_id : string) : chat_outcome * Database :=
  if negb (String.eqb uid auth_user_id) then
    (HTTPException 403 "Not authorized to access this user's chat", db)
  else
    match open_conversation db uid request with
    | None => (HTTPException 404 "Conversation not found", db)
    | Some (cid, db1) =>
        let db2 := store_message db1 uid cid "user" (req_message request) in
        let messages := conversation_history db2 cid in
        match run_agent llm json_loads json_dumps uid messages (start (store db2)) with
        | (Returns (agent_response, tool_calls), st) =>
            let db3 := store_message (with_store db2 (session st)) uid cid
                         "assistant" agent_response in
            if forallb valid_tool_call tool_calls then
              (Responds {| resp_conversation_id := cid;
                           resp_response := agent_response;
                           resp_tool_calls := tool_calls |}, db3)
            else (ValidationError, db3)
        | (Raises e, st) => (Fails e, with_store db2 (session st))
        | (Unmodelled, st) => (ChatUnmodelled, with_store db2 (session st))
        end
    end.

End Chat.

(** ** Sample data *)

Module Sample.

Definition noon (us : N) : datetime :=
  {| year := 2024; month := 5; day := 17;
     hour := 12; minute := 0; second := 0; microsecond := us |}.

(** A clock that advances one microsecond per reading. *)
Definition clock0 (n : nat) : datetime := noon (N.of_nat n).

Definition empty : Session := {| tasks := ∅; clock := clock0; ticks := 0 |}.

Definition user_msg (text : string) : Message :=
  {| msg_id := Some 1%Z; msg_user_id := "alice"; conversation_id := 1;
     role := "user"; content := text; msg_created_at := noon 0 |}.

(** alice adds two tasks, bob one; alice completes her first. *)
Definition three : Session :=
  let s1 := (add_task empty "alice" "buy milk" None).2 in
  let s2 := (add_task s1 "bob" "call mum" (Some "before noon")).2 in
  let s3 := (add_task s2 "alice" "pay rent" None).2 in
  (complete_task s3 "alice" 1).2.

(** alice with [n] tasks, "task 1" the oldest. *)
Fixpoint busy (n : nat) : Session :=
  match n with
  | O => empty
  | S n' => (add_task (busy n') "alice" ("task " +:+ pretty n) None).2
  end.

(** A model that asks for [list_tasks] whatever it is sent, and one that
    asks for [add_task] with arguments cut short. *)
Definition lists_call : ToolCallRequest :=
  {| tc_id := "call_1"; tc_name := "list_tasks"; tc_arguments := "{}" |}.

Definition cut_short_call : ToolCallRequest :=
  {| tc_id := "call_2"; tc_name := "add_task"; tc_arguments := "{" |}.

Definition keeps_listing (_ : list ChatMessage) : outcome AssistantMessage :=
  Returns {| am_content := None; am_tool_calls := Some [lists_call] |}.

Definition cuts_short (_ : list ChatMessage) : outcome AssistantMessage :=
  Returns {| am_content := None; am_tool_calls := Some [cut_short_call] |}.

(** [json.loads] and [json.dumps] on the documents the samples exchange:
    the empty object parses, the cut-short text does not; the empty list
    prints as two brackets. *)
Definition json_loads (text : string) : option pyval :=
  if String.eqb text "{}" then Some (dict []) else None.

Definition json_dumps (v : pyval) : string :=
  match v with VList [] => "[]" | _ => "null" end.


(** A database with alice's and bob's tasks and no dialogue yet. *)
Definition db0 : Database :=
  {| store := three; conversations := ∅; chat_messages := ∅ |}.

(** A model that answers in plain text, and one whose client fails. *)
Definition says_hello (_ : list ChatMessage) : outcome AssistantMessage :=
  Returns {| am_content := Some "Hello!"; am_tool_calls := None |}.

Definition is_down (_ : list ChatMessage) : outcome AssistantMessage :=
  Raises (APIError "connection refused").


(** The database once alice has opened conversation 1 and said hello. *)
Definition talked : Database :=
  store_message (new_conversation db0 "alice").2 "alice" 1 "user" "hello".
End Sample.

(** ** The vocabulary of the properties *)

Open Scope list_scope.

(** A string that does not begin with whitespace. *)
Definition tight_left (s : string) : Prop :=
  match s with
  | "" => True
  | String c _ => PyStr.isspace c = false
  end.

(** The three values of the status filter. *)
Inductive status_filter := All | Pending | Completed.

Definition status_name (f : status_filter) : string :=
  match f with All => "all" | Pending => "pending" | Completed => "completed" end.

(** What each filter keeps: pending is not completed, completed is
    completed, all is every task. *)
Definition keeps (f : status_filter) (t : Task) : bool :=
  match f with
  | All => true
  | Pending => negb (completed t)
  | Completed => completed t
  end.

(** A comparison that does not say greater. *)
Definition le_cmp (c : comparison) : Prop := c <> Gt.

(** The line the listing shows for a row. *)
Definition row_line (row : Z * Task) : string :=
  (if completed row.2 then "Done" else "Todo")
  +:+ " #" +:+ pretty row.1 +:+ ": " +:+ title row.2.

(** A result and session that come from one of the five tools, run on
    session [s] for owner [uid]. *)
Inductive runs_as (s : Session) (uid : string) : pyval * Session -> Prop :=
| runs_add title_ description_ :
    runs_as s uid (add_task s uid title_ description_)
| runs_list status :
    runs_as s uid (list_tasks s uid status)
| runs_complete task_id :
    runs_as s uid (complete_task s uid task_id)
| runs_delete task_id :
    runs_as s uid (delete_task s uid task_id)
| runs_update task_id title_ description_ :
    runs_as s uid (update_task s uid task_id title_ description_).

(** The rows of owners other than [uid] are the same in both sessions. *)
Definition others_untouched (uid : string) (s s' : Session) : Prop :=
  forall k t, user_id t <> uid -> tasks s' !! k = Some t <-> tasks s !! k = Some t.

(** [replays uid s0 calls s1]: executing the calls one after the other
    through [execute_tool], from session [s0], returns the result each
    entry records and ends in session [s1]. *)
Inductive replays (uid : string) : Session -> list ToolCall -> Session -> Prop :=
| replays_nil s : replays uid s [] s
| replays_cons s0 s1 s2 call calls :
    execute_tool s0 uid (name call) (arguments call) = (Returns (result call), s1) ->
    replays uid s1 calls s2 ->
    replays uid s0 (call :: calls) s2.

(** The log of executions of a run replays from [s0] to its session. *)
Definition faithful (uid : string) (s0 : Session) (st : Run) : Prop :=
  replays uid s0 (executed st) (session st).

(** What every exit of the fast path satisfies: no request went to the
    model; declining leaves the run as it was; a match executed one tool
    and returns the one entry for it; the log stays faithful. *)
Definition fast_path_exit (uid : string) (st : Run)
           (r : outcome (option (string * list ToolCall)) * Run) : Prop :=
  asked r.2 = asked st /\
  (forall s0 x, r.1 = Returns x -> faithful uid s0 st -> faithful uid s0 r.2) /\
  (r.1 = Returns None -> r.2 = st) /\
  (forall text audit, r.1 = Returns (Some (text, audit)) ->
     exists e, audit = [e] /\ executed r.2 = executed st ++ [e]).

(** The model answers the request [messages] with tool invocations. *)
Definition requests_tools (llm : list ChatMessage -> outcome AssistantMessage)
           (messages : list ChatMessage) : Prop :=
  exists assistant_message tool_call rest,
    llm messages = Returns assistant_message /\
    am_tool_calls assistant_message = Some (tool_call :: rest).

(** The text of a fast-path outcome, without the audit trail. *)
Definition reply (o : outcome (option (string * list ToolCall)))
  : outcome (option string) :=
  match o with
  | Returns (Some (text, _)) => Returns (Some text)
  | Returns None => Returns None
  | Raises e => Raises e
  | Unmodelled => Unmodelled
  end.

(** A value of the JSON type a parameter schema names, and one of its
    ["enum"] when it has one. *)
Definition has_schema_type (p : ParameterSchema) (v : pyval) : Prop :=
  (p_type p = "string" /\
   exists x, v = VStr x /\
             match p_enum p with Some allowed => x ∈ allowed | None => True end) \/
  (p_type p = "integer" /\ exists z, v = VInt z).

(** An argument object that follows a tool's schema: every key is a
    declared property holding a value of its type, and every required
    property is there. *)
Definition conforms (td : ToolDefinition) (m : gmap string pyval) : Prop :=
  (forall k v, m !! k = Some v ->
     exists p, p ∈ td_properties td /\ p_name p = k /\ has_schema_type p v) /\
  (forall k, k ∈ td_required td -> is_Some (m !! k)).

(** The row [add_task] stores. *)
Definition new_task (s : Session) (uid title_ : string)
           (description_ : option string) : Task :=
  {| user_id := uid; title := title_; description := description_;
     completed := false;
     created_at := clock s (ticks s); updated_at := clock s (S (ticks s)) |}.

(** [a] was created strictly before [b]. *)
Definition created_before (a b : Task) : Prop :=
  dt_compare (created_at a) (created_at b) = Lt.

Global Instance datetime_eq_dec : EqDecision datetime.
Proof. solve_decision. Defined.

Global Instance Task_eq_dec : EqDecision Task.
Proof. solve_decision. Defined.

(** Every character of [w] is of class [c]. *)
Fixpoint all_in (c : Re.cls) (w : string) : bool :=
  match w with
  | "" => true
  | String a w' => Re.in_cls c a && all_in c w'
  end.

(** [re_matches ic r w caps caps']: the text [w] is, as a whole, an
    instance of the pattern [r], and matching it takes the captured
    groups from [caps] to [caps'] (the anchors hold no text; where they
    stand is the matcher's business). *)
Fixpoint re_matches (ic : bool) (r : Re.regex) (w : string)
         (caps caps' : Re.captures) : Prop :=
  match r with
  | Re.Lit p => Re.lit ic p w = Some "" /\ caps' = caps
  | Re.Plus c => w <> "" /\ all_in c w = true /\ caps' = caps
  | Re.Cat r1 r2 =>
      exists w1 w2 mid,
        w = w1 +:+ w2 /\ re_matches ic r1 w1 caps mid /\ re_matches ic r2 w2 mid caps'
  | Re.Alt r1 r2 => re_matches ic r1 w caps caps' \/ re_matches ic r2 w caps caps'
  | Re.Opt r1 => re_matches ic r1 w caps caps' \/ (w = "" /\ caps' = caps)
  | Re.Grp n r1 => exists mid, re_matches ic r1 w caps mid /\ caps' = (n, w) :: mid
  | Re.Bol | Re.Eol => w = "" /\ caps' = caps
  end.

(** An audit entry. *)
Definition entry (tool_name : string) (arguments_ result_ : pyval) : ToolCall :=
  {| name := tool_name; arguments := arguments_; result := result_ |}.

(** The sentence for a task the caller owns, else the tool's own
    "Task not found". *)
Definition owned_or_not_found (s : Session) (uid : string) (z : Z)
           (confirm : Task -> string) : string :=
  match select_task s uid z with
  | Some t => confirm t
  | None => "Task not found"
  end.


(** An audit entry that is a call of the catalog: its name is a tool of
    [TOOL_DEFINITIONS], its arguments follow that tool's schema, and its
    result is what the tool of that name returned, run for [uid] on
    session [s], which left session [s']. *)
Definition catalog_call (uid : string) (s : Session) (e : ToolCall) (s' : Session)
  : Prop :=
  exists td m,
    td ∈ TOOL_DEFINITIONS /\ td_name td = name e /\
    arguments e = VDict m /\ conforms td m /\
    runs_as s uid (result e, s').

(** A title among the arguments is a non-empty string. *)
Definition title_not_empty (e : ToolCall) : Prop :=
  forall m v, arguments e = VDict m -> m !! "title" = Some v ->
              exists t, v = VStr t /\ t <> "".

(** The ValueError of [int] on a run of more digits than the limit
    allows, the run being no longer than [bound] characters. *)
Definition past_digit_limit (bound : nat) (e : exception) : Prop :=
  exists digits,
    e = ValueError (TooManyDigits digits) /\
    PyStr.INT_MAX_STR_DIGITS < digits <= bound.

(** How the fast path ends: it returns, or it raises the ValueError of
    a number past the digit limit, written in the latest user message,
    with the run as it was. *)
Definition fast_path_end (latest : option Message) (st : Run)
           (r : outcome (option (string * list ToolCall)) * Run) : Prop :=
  (exists x, r.1 = Returns x) \/
  (exists e latest_user,
     r.1 = Raises e /\ r.2 = st /\ latest = Some latest_user /\
     past_digit_limit (String.length (content latest_user)) e).

(** What a match of the fast path hands back. *)
Definition fast_path_match (uid : string) (st : Run)
           (r : outcome (option (string * list ToolCall)) * Run) : Prop :=
  forall text audit, r.1 = Returns (Some (text, audit)) ->
    exists e, audit = [e] /\
              catalog_call uid (session st) e (session r.2) /\
              title_not_empty e.


(** The dialogue rows of owners other than [uid] are the same in both
    databases. *)
Definition dialogue_of_others_untouched (uid : string) (db db' : Database) : Prop :=
  (forall k m, msg_user_id m <> uid ->
     chat_messages db' !! k = Some m <-> chat_messages db !! k = Some m) /\
  (forall k c, conv_user_id c <> uid ->
     conversations db' !! k = Some c <-> conversations db !! k = Some c).

(** Every message belongs to a conversation that exists (the foreign
    key of the [messages] table). *)
Definition references_ok (db : Database) : Prop :=
  forall k m, chat_messages db !! k = Some m ->
              is_Some (conversations db !! conversation_id m).

(** The message the endpoint stores for a request. *)
Definition stored_message (db : Database) (uid : string) (cid : Z)
           (role_ content_ : string) : Message :=
  {| msg_id := Some (next_key (chat_messages db)); msg_user_id := uid;
     conversation_id := cid; role := role_; content := content_;
     msg_created_at := clock (store db) (ticks (store db)) |}.


(** The endpoint's answer to a run of the agent in conversation [cid]. *)
Definition answers (cid : Z) (o : outcome (string * list ToolCall)) : chat_outcome :=
  match o with
  | Returns (text, calls) =>
      if forallb valid_tool_call calls then
        Responds {| resp_conversation_id := cid; resp_response := text;
                    resp_tool_calls := calls |}
      else ValidationError
  | Raises e => Fails e
  | Unmodelled => ChatUnmodelled
  end.

(** The columns of a message the endpoint sets itself. *)
Definition columns (m : Message) : string * Z * string * string :=
  (msg_user_id m, conversation_id m, role m, content m).

(** [a] was stored strictly before [b]. *)
Definition sent_before (a b : Message) : Prop :=
  dt_compare (msg_created_at a) (msg_created_at b) = Lt.

(** The request that follows [request] when the model answered it with
    [assistant_message], asking for [tool_calls], and these returned
    [results]: the request, the assistant's message, and one tool
    message per invocation. *)
Definition next_request (json_dumps : pyval -> string) (request : list ChatMessage)
           (assistant_message : AssistantMessage) (tool_calls : list ToolCallRequest)
           (results : list pyval) : list ChatMessage :=
  request
  ++ {| cm_role := "assistant"; cm_content := am_content assistant_message;
        cm_tool_calls := Some tool_calls; cm_tool_call_id := None |}
  :: zip_with (tool_message json_dumps) tool_calls results.

(** Request [b] continues request [a]: the model answered [a] with
    invocations, each of which returned a result, and [b] is [a] with
    that round appended. *)
Definition continues (llm : list ChatMessage -> outcome AssistantMessage)
           (json_dumps : pyval -> string) (a b : list ChatMessage) : Prop :=
  exists assistant_message tool_calls results,
    llm a = Returns assistant_message /\
    am_tool_calls assistant_message = Some tool_calls /\
    tool_calls <> [] /\
    List.length results = List.length tool_calls /\
    b = next_request json_dumps a assistant_message tool_calls results.

(** Every element of the list is related to the one after it. *)
Definition chained {A} (R : relation A) (l : list A) : Prop :=
  forall i a b, l !! i = Some a -> l !! S i = Some b -> R a b.
(** * Properties *)

(** ** Whitespace and quote stripping *)

Section Stripping.
Import PyStr.

Lemma lstrip_tight s : tight_left (lstrip s).
Proof.
  induction s as [|c s IH]; simpl; [exact I|].
  destruct (isspace c) eqn:E; [exact IH | exact E].
Qed.

Lemma tight_lstrip s : tight_left s -> lstrip s = s.
Proof. destruct s as [|c s]; simpl; [reflexivity|]. intros ->. reflexivity. Qed.

Lemma rstrip_tight s : tight_left s -> tight_left (rstrip s).
Proof.
  destruct s as [|c s]; simpl; [trivial|]. intros E.
  destruct (rstrip s); rewrite ?E; exact E.
Qed.

Lemma rstrip_idem s : rstrip (rstrip s) = rstrip s.
Proof.
  induction s as [|c s IH]; simpl; [reflexivity|].
  destruct (rstrip s) as [|d r] eqn:E.
  - destruct (isspace c) eqn:Ec; simpl; [reflexivity | now rewrite Ec].
  - change (rstrip (String c (String d r)))
      with (match rstrip (String d r) with
            | "" => if isspace c then "" else String c ""
            | r' => String c r'
            end).
    now rewrite IH.
Qed.

Lemma strip_idem s : strip (strip s) = strip s.
Proof.
  unfold strip.
  rewrite (tight_lstrip (rstrip (lstrip s))).
  - apply rstrip_idem.
  - apply rstrip_tight, lstrip_tight.
Qed.

Lemma strip_quotes_stripped v :
  strip (_strip_wrapping_quotes v) = _strip_wrapping_quotes v.
Proof.
  unfold _strip_wrapping_quotes.
  destruct (wrapped (strip v)); apply strip_idem.
Qed.

Lemma strip_quotes_id v :
  strip v = v -> wrapped v = false -> _strip_wrapping_quotes v = v.
Proof.
  intros Hs Hw. unfold _strip_wrapping_quotes. now rewrite Hs, Hw.
Qed.

End Stripping.

(** C8, as the code has it. Stripping leaves unchanged every string that
    has no surrounding whitespace and is not wrapped in a pair of equal
    quote characters; stripping twice equals stripping once whenever the
    once-stripped string is not itself wrapped in quotes (one layer is
    removed per call); and both the single-quoted and the double-quoted
    [buy milk] resolve to [buy milk]. *)
Theorem strip_wrapping_quotes_one_layer :
  (forall v, PyStr.strip v = v -> wrapped v = false ->
             _strip_wrapping_quotes v = v) /\
  (forall v, wrapped (_strip_wrapping_quotes v) = false ->
             _strip_wrapping_quotes (_strip_wrapping_quotes v)
             = _strip_wrapping_quotes v) /\
  _strip_wrapping_quotes "'buy milk'" = "buy milk" /\
  _strip_wrapping_quotes (String dquote "buy milk" +:+ String dquote "") = "buy milk".
Proof.
  split; [exact strip_quotes_id|]. split; [|split; reflexivity].
  intros v Hw. apply strip_quotes_id; [apply strip_quotes_stripped | exact Hw].
Qed.

Lemma strip_wrapping_quotes_one_layer_witness :
  _strip_wrapping_quotes "buy milk" = "buy milk" /\
  _strip_wrapping_quotes (_strip_wrapping_quotes " 'buy milk' ")
  = _strip_wrapping_quotes " 'buy milk' ".
Proof.
  destruct strip_wrapping_quotes_one_layer as (H1 & H2 & _).
  split; [apply H1; reflexivity | apply H2; reflexivity].
Defined.

(** C8, as stated, fails: a title wrapped in two layers of quotes loses
    one layer per call, so stripping twice differs from stripping once;
    and a string free of quotes but padded with whitespace is not
    returned unchanged. *)
Lemma strip_wrapping_quotes_not_idempotent :
  ~ (forall v, _strip_wrapping_quotes (_strip_wrapping_quotes v)
               = _strip_wrapping_quotes v) /\
  (wrapped " a " = false /\ _strip_wrapping_quotes " a " <> " a ").
Proof.
  split; [|split; [reflexivity | discriminate]].
  intros H. specialize (H "''a''"). discriminate H.
Qed.

(** ** The task store *)

Section Store.
Implicit Types (s : Session) (m : gmap Z Task) (t : Task).

Lemma le_foldr_max (l : list Z) (k : Z) : k ∈ l -> (k <= foldr Z.max 0 l)%Z.
Proof.
  induction l as [|x l IH]; intros Hk.
  - inversion Hk.
  - apply elem_of_cons in Hk as [->|Hk]; simpl; [lia|].
    specialize (IH Hk). lia.
Qed.

Lemma fresh_id_above m k t : m !! k = Some t -> (k < fresh_id m)%Z.
Proof.
  intros Hk. unfold fresh_id.
  assert (k ∈ (fst <$> map_to_list m)) as Hin.
  { apply list_elem_of_fmap. exists (k, t). split; [reflexivity|].
    now apply elem_of_map_to_list. }
  apply le_foldr_max in Hin. lia.
Qed.

Lemma fresh_id_fresh m : m !! fresh_id m = None.
Proof.
  destruct (m !! fresh_id m) as [t|] eqn:E; [|reflexivity].
  apply fresh_id_above in E. lia.
Qed.

Lemma select_task_Some s uid task_id t :
  select_task s uid task_id = Some t <->
  tasks s !! task_id = Some t /\ user_id t = uid.
Proof.
  unfold select_task. destruct (tasks s !! task_id) as [t'|]; [|split; [discriminate|intros [? _]; discriminate]].
  destruct (String.eqb_spec (user_id t') uid) as [E|E]; split.
  - intros [= ->]. now split.
  - intros [[= ->] _]. reflexivity.
  - discriminate.
  - intros [[= ->] ?]. contradiction.
Qed.

Lemma select_task_foreign s uid task_id t :
  tasks s !! task_id = Some t -> user_id t <> uid ->
  select_task s uid task_id = None.
Proof.
  intros Ht Hu. unfold select_task. rewrite Ht.
  destruct (String.eqb_spec (user_id t) uid); [contradiction | reflexivity].
Qed.

Lemma select_task_absent s uid task_id :
  tasks s !! task_id = None -> select_task s uid task_id = None.
Proof. intros Ht. unfold select_task. now rewrite Ht. Qed.

End Store.

(** C2, as the code has it. [add_task] makes no check of the title: with
    an empty title it returns, without raising, a result of status
    "created" under a key that was free, and the table holds one row more,
    the new one, with the empty title. The same holds when the call comes
    through [execute_tool]. *)
Theorem add_task_empty_title_creates (s : Session) (uid : string)
        (description_ : option string) :
  let id := fresh_id (tasks s) in
  let r := add_task s uid "" description_ in
  r.1 = dict [("task_id", VInt id); ("status", VStr "created"); ("title", VStr "")] /\
  tasks s !! id = None /\
  (exists t, tasks r.2 = <[id := t]> (tasks s) /\ title t = "" /\ user_id t = uid) /\
  size (tasks r.2) = S (size (tasks s)) /\
  execute_tool s uid "add_task" (dict [("title", VStr ""); ("description", opt_str description_)])
  = (Returns r.1, r.2).
Proof.
  cbv zeta. split; [reflexivity|]. split; [apply fresh_id_fresh|].
  split; [eexists; split; [reflexivity | split; reflexivity]|].
  split.
  - simpl. apply map_size_insert_None, fresh_id_fresh.
  - destruct description_; reflexivity.
Qed.

(** C2, as stated, fails: on the empty table, [add_task] with an empty
    title leaves a table that is no longer empty. *)
Lemma add_task_empty_title_changes_store :
  tasks (add_task Sample.empty "alice" "" None).2 <> tasks Sample.empty.
Proof.
  intros H. apply (f_equal (fun m => m !! 1%Z)) in H. discriminate H.
Qed.

(** C3. A task id that exists but belongs to another owner gets, from
    [complete_task], [delete_task] and [update_task], the not-found
    result [{task_id, status="error", error="Task not found"}], the very
    result an id that exists for no owner gets, and the session, the
    other owner's row included, is left as it was. *)
Theorem foreign_task_not_found (s s0 : Session) (uid : string) (task_id : Z)
        (t : Task) (title_ description_ : option string) :
  tasks s !! task_id = Some t ->
  user_id t <> uid ->
  tasks s0 !! task_id = None ->
  (complete_task s uid task_id = (not_found task_id, s) /\
   delete_task s uid task_id = (not_found task_id, s) /\
   update_task s uid task_id title_ description_ = (not_found task_id, s)) /\
  (complete_task s0 uid task_id = (not_found task_id, s0) /\
   delete_task s0 uid task_id = (not_found task_id, s0) /\
   update_task s0 uid task_id title_ description_ = (not_found task_id, s0)) /\
  not_found task_id
  = VDict (<["task_id" := VInt task_id]>
           (<["status" := VStr "error"]>
           (<["error" := VStr "Task not found"]> ∅))).
Proof.
  intros Ht Hu H0.
  pose proof (select_task_foreign s uid task_id t Ht Hu) as E.
  pose proof (select_task_absent s0 uid task_id H0) as E0.
  unfold complete_task, delete_task, update_task. rewrite E, E0.
  repeat split; reflexivity.
Qed.

Lemma foreign_task_not_found_witness :
  complete_task Sample.three "alice" 2 = (not_found 2, Sample.three) /\
  delete_task Sample.three "alice" 2 = (not_found 2, Sample.three) /\
  update_task Sample.three "alice" 2 (Some "x") None = (not_found 2, Sample.three).
Proof.
  refine (proj1 (foreign_task_not_found Sample.three Sample.empty "alice" 2
                   {| user_id := "bob"; title := "call mum";
                      description := Some "before noon"; completed := false;
                      created_at := Sample.noon 2; updated_at := Sample.noon 3 |}
                   (Some "x") None _ _ _)).
  - vm_compute. reflexivity.
  - simpl. discriminate.
  - reflexivity.
Defined.

(** C9. On a task the caller owns, [update_task] returns
    [{task_id, status="updated", title}] with the title now stored, and
    the stored row keeps every field the call left out: the title when
    [title] is omitted, the description when [description] is omitted,
    and always the completion flag, the owner and the creation time. No
    other row changes. *)
Theorem update_task_frame (s : Session) (uid : string) (task_id : Z) (t : Task)
        (title_ description_ : option string) :
  tasks s !! task_id = Some t ->
  user_id t = uid ->
  let r := update_task s uid task_id title_ description_ in
  exists t',
    tasks r.2 !! task_id = Some t' /\
    r.1 = dict [("task_id", VInt task_id); ("status", VStr "updated");
                ("title", VStr (title t'))] /\
    title t' = default (title t) title_ /\
    description t' = match description_ with Some d => Some d | None => description t end /\
    (title_ = None -> title t' = title t) /\
    (description_ = None -> description t' = description t) /\
    completed t' = completed t /\
    user_id t' = user_id t /\
    created_at t' = created_at t /\
    (forall k, k <> task_id -> tasks r.2 !! k = tasks s !! k).
Proof.
  intros Ht Hu r.
  assert (select_task s uid task_id = Some t) as E
      by (apply select_task_Some; now split).
  subst r. unfold update_task. rewrite E. cbn [utcnow with_tasks fst snd tasks].
  eexists. split; [apply lookup_insert_eq|].
  split; [reflexivity|]. cbn [title description completed user_id created_at].
  split; [now destruct title_|]. split; [reflexivity|].
  split; [now intros ->|]. split; [now intros ->|].
  repeat (split; [reflexivity|]).
  intros k Hk. now apply lookup_insert_ne.
Qed.

Lemma update_task_frame_witness :
  exists t',
    tasks (update_task Sample.three "alice" 3 None (Some "by friday")).2 !! 3%Z = Some t' /\
    title t' = "pay rent" /\ description t' = Some "by friday" /\ completed t' = false.
Proof.
  destruct (update_task_frame Sample.three "alice" 3
              {| user_id := "alice"; title := "pay rent"; description := None;
                 completed := false;
                 created_at := Sample.noon 4; updated_at := Sample.noon 5 |}
              None (Some "by friday"))
    as (t' & H1 & _ & H2 & H3 & _ & _ & H4 & _).
  - vm_compute. reflexivity.
  - reflexivity.
  - exists t'. repeat split; assumption.
Defined.

(** ** Listing *)

Section Ordering.

Lemma lex_antisym (x y : N) (c c' : comparison) :
  c' = CompOpp c -> lex (y ?= x)%N c' = CompOpp (lex (x ?= y)%N c).
Proof.
  intros ->. rewrite (N.compare_antisym x y).
  now destruct (x ?= y)%N.
Qed.

Lemma dt_compare_antisym a b : dt_compare b a = CompOpp (dt_compare a b).
Proof.
  unfold dt_compare. repeat apply lex_antisym. apply N.compare_antisym.
Qed.

Lemma lex_trans (x y z : N) (cxy cyz cxz : comparison) :
  (le_cmp cxy -> le_cmp cyz -> le_cmp cxz) ->
  le_cmp (lex (x ?= y)%N cxy) -> le_cmp (lex (y ?= z)%N cyz) ->
  le_cmp (lex (x ?= z)%N cxz).
Proof.
  unfold le_cmp. intros H.
  destruct (N.compare_spec x y), (N.compare_spec y z), (N.compare_spec x z);
    simpl; intros; subst; try congruence; try lia; auto.
Qed.

Lemma N_compare_trans (x y z : N) :
  le_cmp (x ?= y)%N -> le_cmp (y ?= z)%N -> le_cmp (x ?= z)%N.
Proof.
  unfold le_cmp.
  destruct (N.compare_spec x y), (N.compare_spec y z), (N.compare_spec x z);
    intros; subst; try congruence; lia.
Qed.

Lemma dt_compare_trans a b c :
  le_cmp (dt_compare a b) -> le_cmp (dt_compare b c) -> le_cmp (dt_compare a c).
Proof.
  unfold dt_compare. repeat apply lex_trans. apply N_compare_trans.
Qed.

Lemma dt_leb_le_cmp a b : dt_leb a b = true <-> le_cmp (dt_compare a b).
Proof.
  unfold dt_leb, le_cmp. destruct (dt_compare a b); split; congruence.
Qed.

Global Instance newer_first_total : Total newer_first.
Proof.
  intros a b. unfold newer_first.
  destruct (dt_leb (created_at b.2) (created_at a.2)) eqn:E; [now left|right].
  unfold dt_leb in *. rewrite dt_compare_antisym.
  now destruct (dt_compare (created_at b.2) (created_at a.2)).
Qed.

Global Instance newer_first_trans : Transitive newer_first.
Proof.
  intros a b c. unfold newer_first. rewrite !dt_leb_le_cmp.
  intros H1 H2. eapply dt_compare_trans; eassumption.
Qed.

End Ordering.

Lemma listed_keeps uid f row :
  listed uid (VStr (status_name f)) row = true <->
  user_id row.2 = uid /\ keeps f row.2 = true.
Proof.
  unfold listed. rewrite andb_true_iff.
  destruct (String.eqb_spec (user_id row.2) uid); destruct f; simpl;
    intuition congruence.
Qed.

(** C6. For each status filter, [list_tasks] returns one item for each
    of the owner's tasks the filter keeps, each task once and no other
    task, ordered so that no task comes before one created later. An
    item holds the task's id, its title, its description ([None] when it
    has none), its completion flag and its creation time in ISO format,
    under the keys id, title, description, completed and created_at.
    The session is untouched. *)
Theorem list_tasks_exact_and_ordered (s : Session) (uid : string) (f : status_filter) :
  exists rows : list (Z * Task),
    list_tasks s uid (VStr (status_name f))
    = (VList ((fun row : Z * Task =>
                 dict [("id", VInt row.1);
                       ("title", VStr (title row.2));
                       ("description",
                        match description row.2 with
                        | Some text => VStr text
                        | None => VNone
                        end);
                       ("completed", VBool (completed row.2));
                       ("created_at", VStr (isoformat (created_at row.2)))])
                <$> rows), s) /\
    NoDup rows /\
    (forall id t, (id, t) ∈ rows <->
                  tasks s !! id = Some t /\ user_id t = uid /\ keeps f t = true) /\
    StronglySorted newer_first rows.
Proof.
  exists (query_tasks s uid (VStr (status_name f))).
  split; [reflexivity|]. unfold query_tasks.
  set (sel := List.filter _ _).
  assert (NoDup sel) as Hnd.
  { apply NoDup_ListNoDup, List.NoDup_filter, NoDup_ListNoDup, NoDup_map_to_list. }
  split; [|split].
  - now rewrite merge_sort_Permutation.
  - intros id t. rewrite merge_sort_Permutation. subst sel.
    rewrite list_elem_of_In, filter_In, <- list_elem_of_In, elem_of_map_to_list.
    rewrite (listed_keeps uid f (id, t)). reflexivity.
  - apply StronglySorted_merge_sort; apply _.
Qed.

(** The listing of alice's tasks in the sample session, item by item:
    the task added last comes first, and a creation time on the full
    second is written without a fraction. *)
Example list_tasks_of_alice :
  list_tasks Sample.three "alice" (VStr "all")
  = (VList [dict [("id", VInt 3); ("title", VStr "pay rent");
                  ("description", VNone); ("completed", VBool false);
                  ("created_at", VStr "2024-05-17T12:00:00.000004")];
            dict [("id", VInt 1); ("title", VStr "buy milk");
                  ("description", VNone); ("completed", VBool true);
                  ("created_at", VStr "2024-05-17T12:00:00")]],
     Sample.three).
Proof. vm_compute. reflexivity. Qed.

(** ** The sentences of the fast path *)

Lemma execute_list_tasks s uid status :
  execute_tool s uid "list_tasks" (dict [("status", status)])
  = (Returns (list_tasks s uid status).1, s).
Proof. reflexivity. Qed.

Lemma task_line_summary row : task_line (task_summary row) = Returns (row_line row).
Proof.
  destruct row as [id t]. unfold task_line, task_summary, row_line, dict, Py.get.
  simpl list_to_map. simplify_map_eq. simpl.
  destruct (completed t); reflexivity.
Qed.

Lemma for_each_task_line rows :
  for_each task_line (task_summary <$> rows) = Returns (row_line <$> rows).
Proof.
  induction rows as [|row rows IH]; [reflexivity|].
  rewrite !fmap_cons. cbn [for_each]. rewrite task_line_summary.
  unfold mbind at 1, outcome_bind at 1. cbn [Py.bind]. rewrite IH. reflexivity.
Qed.

Lemma render_list_empty : render_list (VList []) = Returns "You don't have any matching tasks yet.".
Proof. reflexivity. Qed.

Lemma render_list_nonempty rows :
  rows <> [] ->
  render_list (VList (task_summary <$> rows))
  = Returns ("Here are your tasks:" +:+ PyStr.nl +:+
             PyStr.join PyStr.nl
               ((row_line <$> take 10 rows) ++
                (if (10 <? List.length rows)%nat
                 then ["...and " +:+ pretty (List.length rows - 10) +:+ " more."] else []))).
Proof.
  intros Hne. unfold render_list.
  destruct (task_summary <$> rows) as [|x xs] eqn:E.
  { apply fmap_nil_inv in E. contradiction. }
  rewrite <- E. clear E x xs.
  rewrite <- fmap_take, for_each_task_line, length_fmap.
  unfold mbind, outcome_bind, mret, outcome_ret. cbn [Py.bind]. f_equal.
  destruct (10 <? List.length rows)%nat; [reflexivity|].
  now rewrite app_nil_r.
Qed.

(** C7. When the fast path executes [list_tasks], the audit trail is the
    one call, and the text is: the no-matching-tasks sentence when the
    result is empty; with more than 10 rows, the header, the lines of
    exactly the first 10 rows and then the line "...and N more." with
    N the count less 10; with 1 to 10 rows, the header and the lines of
    all rows, with no truncation line. *)
Theorem fast_path_listing_text (uid : string) (status : pyval) (st : Run) :
  let rows := query_tasks (session st) uid status in
  let n := List.length rows in
  exists text r,
    (run_tool uid "list_tasks" (dict [("status", status)]) None st).1
    = Returns (text, [{| name := "list_tasks";
                         arguments := dict [("status", status)];
                         result := r |}]) /\
    r = VList (task_summary <$> rows) /\
    (n = 0 -> text = "You don't have any matching tasks yet.") /\
    (10 < n ->
     text = "Here are your tasks:" +:+ PyStr.nl +:+
            PyStr.join PyStr.nl
              ((row_line <$> take 10 rows) ++ ["...and " +:+ pretty (n - 10) +:+ " more."])) /\
    (0 < n <= 10 -> text = "Here are your tasks:" +:+ PyStr.nl +:+ PyStr.join PyStr.nl (row_line <$> rows)).
Proof.
  intros rows n.
  unfold run_tool, call_tool. rewrite execute_list_tasks.
  cbn [list_tasks fst snd]. fold rows.
  change (render "list_tasks" (dict [("status", status)]) (VList (task_summary <$> rows)))
    with (render_list (VList (task_summary <$> rows))).
  destruct (decide (rows = [])) as [E|E].
  - subst n. rewrite E. rewrite fmap_nil, render_list_empty.
    eexists _, _. split; [reflexivity|]. split; [reflexivity|].
    simpl. repeat split; intros; try reflexivity; lia.
  - rewrite (render_list_nonempty rows E). fold n.
    eexists _, _. split; [reflexivity|]. split; [reflexivity|].
    split; [|split].
    + intros Hn. destruct rows; [contradiction | discriminate].
    + intros Hn. apply Nat.ltb_lt in Hn. now rewrite Hn.
    + intros [_ Hn]. rewrite take_ge by exact Hn.
      apply Nat.ltb_ge in Hn. now rewrite Hn, app_nil_r.
Qed.

(** ** Dispatch *)

Lemma signature_cases tool_name params :
  signature tool_name = Some params ->
  tool_name = "add_task" \/ tool_name = "list_tasks" \/ tool_name = "complete_task"
  \/ tool_name = "delete_task" \/ tool_name = "update_task".
Proof.
  unfold signature.
  destruct (String.eqb_spec tool_name "add_task") as [->|_]; [tauto|].
  destruct (String.eqb_spec tool_name "list_tasks") as [->|_]; [tauto|].
  destruct (String.eqb_spec tool_name "complete_task") as [->|_]; [tauto|].
  destruct (String.eqb_spec tool_name "delete_task") as [->|_]; [tauto|].
  destruct (String.eqb_spec tool_name "update_task") as [->|_]; [tauto|].
  discriminate.
Qed.

Lemma bind_arguments_duplicate params (m : gmap string pyval) :
  is_Some (m !! "user_id") \/ is_Some (m !! "session") ->
  bind_arguments params (VDict m) = Raises (TypeError MultipleValues).
Proof.
  intros H. unfold bind_arguments, has_key.
  destruct H as [[v ->]|[v ->]]; [|reflexivity].
  now destruct (m !! "session").
Qed.

Lemma execute_tool_runs_as s uid tool_name arguments_ r s' :
  is_Some (signature tool_name) ->
  execute_tool s uid tool_name arguments_ = (Returns r, s') ->
  runs_as s uid (r, s').
Proof.
  intros [params Hsig]. unfold execute_tool. rewrite Hsig.
  destruct (bind_arguments params arguments_) as [m|?|]; [|discriminate..].
  apply signature_cases in Hsig.
  destruct Hsig as [-> | [-> | [-> | [-> | ->]]]]; cbn [String.eqb Ascii.eqb Bool.eqb];
    unfold mbind, outcome_bind, mret, outcome_ret.
  - destruct (as_str (m !! "title")) as [x|?|]; cbn [Py.bind]; [|discriminate..].
    destruct (as_opt_str (m !! "description")) as [d|?|]; cbn [Py.bind]; [|discriminate..].
    destruct (add_task s uid x d) as [r0 s0] eqn:E.
    intros [= <- <-]. rewrite <- E. constructor.
  - destruct (list_tasks s uid (default (VStr "all") (m !! "status"))) as [r0 s0] eqn:E.
    intros [= <- <-]. rewrite <- E. constructor.
  - destruct (as_int (m !! "task_id")) as [k|?|]; cbn [Py.bind]; [|discriminate..].
    destruct (complete_task s uid k) as [r0 s0] eqn:E.
    intros [= <- <-]. rewrite <- E. constructor.
  - destruct (as_int (m !! "task_id")) as [k|?|]; cbn [Py.bind]; [|discriminate..].
    destruct (delete_task s uid k) as [r0 s0] eqn:E.
    intros [= <- <-]. rewrite <- E. constructor.
  - destruct (as_int (m !! "task_id")) as [k|?|]; cbn [Py.bind]; [|discriminate..].
    destruct (as_opt_str (m !! "title")) as [x|?|]; cbn [Py.bind]; [|discriminate..].
    destruct (as_opt_str (m !! "description")) as [d|?|]; cbn [Py.bind]; [|discriminate..].
    destruct (update_task s uid k x d) as [r0 s0] eqn:E.
    intros [= <- <-]. rewrite <- E. constructor.
Qed.

Lemma others_untouched_insert uid s s1 k0 (t0 : Task) :
  user_id t0 = uid ->
  (forall t, tasks s !! k0 = Some t -> user_id t = uid) ->
  others_untouched uid s (with_tasks s1 (<[k0 := t0]> (tasks s))).
Proof.
  intros H0 Hold k t Hne. cbn. destruct (decide (k = k0)) as [->|Hk].
  - rewrite lookup_insert_eq. split.
    + intros [= <-]. contradiction.
    + intros Ht. apply Hold in Ht. contradiction.
  - now rewrite lookup_insert_ne by congruence.
Qed.

Lemma runs_as_others_untouched s uid r s' :
  runs_as s uid (r, s') -> others_untouched uid s s'.
Proof.
  intros H. remember (r, s') as p eqn:E.
  destruct H as [x d|st|k|k|k x d].
  - injection E as _ E'; subst s'. apply others_untouched_insert; [reflexivity|].
    intros t Ht. now rewrite fresh_id_fresh in Ht.
  - injection E as _ E'; subst s'. intros k t _. reflexivity.
  - unfold complete_task in E.
    destruct (select_task s uid k) as [t0|] eqn:Es.
    + injection E as _ E'; subst s'. apply select_task_Some in Es as [Ht0 Hu].
      apply others_untouched_insert; [exact Hu|].
      intros t Ht. congruence.
    + injection E as _ E'; subst s'. intros k' t _. reflexivity.
  - unfold delete_task in E.
    destruct (select_task s uid k) as [t0|] eqn:Es.
    + injection E as _ E'; subst s'. apply select_task_Some in Es as [Ht0 Hu].
      intros k' t Hne. cbn. destruct (decide (k' = k)) as [->|Hk].
      * rewrite lookup_delete_eq, Ht0. split; [discriminate|].
        intros [= <-]. contradiction.
      * now rewrite lookup_delete_ne by congruence.
    + injection E as _ E'; subst s'. intros k' t _. reflexivity.
  - unfold update_task in E.
    destruct (select_task s uid k) as [t0|] eqn:Es.
    + injection E as _ E'; subst s'. apply select_task_Some in Es as [Ht0 Hu].
      apply others_untouched_insert; [exact Hu|].
      intros t Ht. congruence.
    + injection E as _ E'; subst s'. intros k' t _. reflexivity.
Qed.

(** On the empty mapping, the four tools with a required parameter
    raise; [list_tasks] and an unknown name return. *)
Lemma execute_tool_empty_arguments (s : Session) (uid : string) :
  execute_tool s uid "add_task" (dict [])
  = (Raises (TypeError (MissingArguments ["title"])), s) /\
  execute_tool s uid "complete_task" (dict [])
  = (Raises (TypeError (MissingArguments ["task_id"])), s) /\
  execute_tool s uid "delete_task" (dict [])
  = (Raises (TypeError (MissingArguments ["task_id"])), s) /\
  execute_tool s uid "update_task" (dict [])
  = (Raises (TypeError (MissingArguments ["task_id"])), s) /\
  execute_tool s uid "list_tasks" (dict [])
  = (Returns (list_tasks s uid (VStr "all")).1, s) /\
  execute_tool s uid "summarise" (dict [])
  = (Returns (dict [("error", VStr "Unknown tool: summarise")]), s).
Proof. repeat split; reflexivity. Qed.

(** C10. For a known tool name, an argument mapping that carries the key
    "user_id" or the key "session" makes [execute_tool] raise the
    TypeError of a keyword given twice, with the session as it was; and
    whatever the arguments, an execution that returns is one of the five
    tools run for the owner the orchestrator passed, and leaves the rows
    of every other owner as they were. *)
Theorem execute_tool_owner_not_overridable (s : Session) (uid tool_name : string)
        (m : gmap string pyval) :
  is_Some (signature tool_name) ->
  (is_Some (m !! "user_id") \/ is_Some (m !! "session") ->
   execute_tool s uid tool_name (VDict m) = (Raises (TypeError MultipleValues), s)) /\
  (forall arguments_ r s',
     execute_tool s uid tool_name arguments_ = (Returns r, s') ->
     runs_as s uid (r, s') /\ others_untouched uid s s').
Proof.
  intros Hsig. split.
  - intros Hk. destruct Hsig as [params Hsig]. unfold execute_tool.
    now rewrite Hsig, bind_arguments_duplicate.
  - intros arguments_ r s' E.
    pose proof (execute_tool_runs_as _ _ _ _ _ _ Hsig E) as Hr.
    split; [exact Hr | exact (runs_as_others_untouched _ _ _ _ Hr)].
Qed.

Lemma execute_tool_owner_not_overridable_witness :
  execute_tool Sample.three "alice" "list_tasks"
    (dict [("status", VStr "all"); ("user_id", VStr "bob")])
  = (Raises (TypeError MultipleValues), Sample.three).
Proof.
  refine (proj1 (execute_tool_owner_not_overridable Sample.three "alice" "list_tasks"
                   (list_to_map [("status", VStr "all"); ("user_id", VStr "bob")]) _) _).
  - eexists. reflexivity.
  - left. eexists. vm_compute. reflexivity.
Defined.

(** ** The orchestration run *)

Lemma call_tool_log uid tool_name arguments_ st :
  let r := call_tool uid tool_name arguments_ st in
  asked r.2 = asked st /\
  (forall v, r.1 = Returns v ->
     executed r.2 = executed st ++
                    [{| name := tool_name; arguments := arguments_; result := v |}]).
Proof.
  unfold call_tool.
  destruct (execute_tool (session st) uid tool_name arguments_) as [[v|e|] s'];
    cbn; split; try reflexivity; try discriminate.
  now intros v' [= <-].
Qed.

Lemma replays_snoc uid s0 s1 s2 calls call :
  replays uid s0 calls s1 ->
  execute_tool s1 uid (name call) (arguments call) = (Returns (result call), s2) ->
  replays uid s0 (calls ++ [call]) s2.
Proof.
  induction 1 as [s|s0 s1 s1' c cs Hc _ IH]; intros E; cbn.
  - econstructor; [exact E | constructor].
  - econstructor; [exact Hc | exact (IH E)].
Qed.

Lemma call_tool_faithful uid s0 tool_name arguments_ st v :
  faithful uid s0 st ->
  (call_tool uid tool_name arguments_ st).1 = Returns v ->
  faithful uid s0 (call_tool uid tool_name arguments_ st).2.
Proof.
  unfold faithful, call_tool. intros H.
  destruct (execute_tool (session st) uid tool_name arguments_) as [[v'|e|] s'] eqn:E;
    cbn; try discriminate.
  intros _. eapply replays_snoc; [exact H | exact E].
Qed.

Lemma fast_path_exit_none uid st : fast_path_exit uid st (Returns None, st).
Proof. repeat split; intros; (assumption || discriminate). Qed.

Lemma fast_path_exit_raises uid st e : fast_path_exit uid st (Raises e, st).
Proof. repeat split; intros; discriminate. Qed.

Lemma fast_path_exit_unmodelled uid st : fast_path_exit uid st (Unmodelled, st).
Proof. repeat split; intros; discriminate. Qed.

Lemma fast_path_exit_run_tool uid tool_name arguments_ st :
  fast_path_exit uid st (some_of (run_tool uid tool_name arguments_ None st)).
Proof.
  unfold some_of, run_tool.
  pose proof (call_tool_log uid tool_name arguments_ st) as [Ha He].
  pose proof (fun s0 v => call_tool_faithful uid s0 tool_name arguments_ st v) as Hf.
  destruct (call_tool uid tool_name arguments_ st) as [[v|e|] st']; cbn in *;
    split; try exact Ha; split; try discriminate.
  - intros s0 x _ H. now apply (Hf s0 v).
  - split; [destruct (render tool_name arguments_ v); discriminate|].
    intros text audit.
    destruct (render tool_name arguments_ v) as [x| |]; cbn; try discriminate.
    intros [= <- <-]. eexists. split; [reflexivity|]. now apply He.
  - split; discriminate.
  - split; discriminate.
Qed.

Lemma fast_path_exits uid messages st :
  fast_path_exit uid st (_fast_path_command uid messages st).
Proof.
  unfold _fast_path_command.
  repeat case_match;
    auto using fast_path_exit_none, fast_path_exit_raises,
               fast_path_exit_unmodelled, fast_path_exit_run_tool.
Qed.

Section AgentLoop.

Variable llm : list ChatMessage -> outcome AssistantMessage.
Variable json_loads : string -> option pyval.
Variable json_dumps : pyval -> string.

Local Abbreviation execute_tool_calls := (execute_tool_calls json_loads json_dumps).
Local Abbreviation agent_loop := (agent_loop llm json_loads json_dumps).
Local Abbreviation run_agent := (run_agent llm json_loads json_dumps).

Lemma execute_tool_calls_log uid tool_calls :
  forall messages made st,
    let r := execute_tool_calls uid tool_calls messages made st in
    asked r.2 = asked st /\
    (forall messages' made', r.1 = Returns (messages', made') ->
       (exists new, made' = made ++ new /\ executed r.2 = executed st ++ new) /\
       (forall s0, faithful uid s0 st -> faithful uid s0 r.2)).
Proof.
  induction tool_calls as [|tc rest IH]; intros messages made st; cbn.
  - split; [reflexivity|]. intros ? ? [= <- <-]. split; [|trivial]. exists [].
    now rewrite !app_nil_r.
  - pose proof (call_tool_log uid (tc_name tc)
                  (parse_arguments json_loads (tc_arguments tc)) st) as [Ha He].
    pose proof (fun s0 v => call_tool_faithful uid s0 (tc_name tc)
                  (parse_arguments json_loads (tc_arguments tc)) st v) as Hf.
    destruct (call_tool uid (tc_name tc) _ st) as [[v|e|] st1]; cbn in *;
      [|split; [exact Ha | discriminate]..].
    edestruct IH as [Ha' He']. split; [rewrite Ha'; exact Ha|].
    intros messages' made' E. apply He' in E as [(new & -> & E) Hf'].
    split.
    + eexists (_ :: new). rewrite E, (He v eq_refl), <- !app_assoc. now split.
    + intros s0 H. apply Hf', (Hf s0 v); [exact H | reflexivity].
Qed.

Lemma agent_loop_log uid rounds :
  forall messages made st,
    let r := agent_loop rounds uid messages made st in
    exists requests,
      asked r.2 = asked st ++ requests /\
      List.length requests <= rounds /\
      (forall text audit, r.1 = Returns (text, audit) ->
         (exists new, audit = made ++ new /\ executed r.2 = executed st ++ new) /\
         (forall s0, faithful uid s0 st -> faithful uid s0 r.2) /\
         (Forall (requests_tools llm) requests ->
            List.length requests = rounds /\ text = COMPLETED_ACK)).
Proof.
  induction rounds as [|rounds IH]; intros messages made st; cbn.
  - exists []. rewrite !app_nil_r. split; [reflexivity|]. split; [cbn; lia|].
    intros text audit [= <- <-]. split; [|now split].
    exists []. now rewrite !app_nil_r.
  - destruct (llm messages) as [am|e|] eqn:El;
      [|exists [messages]; split; [reflexivity|]; split; [cbn; lia | discriminate]..].
    destruct (am_tool_calls am) as [[|tc tcs]|] eqn:Et.
    1,3: exists [messages]; split; [reflexivity|]; split; [cbn; lia|];
         intros text audit [= <- <-]; split;
         [exists []; now rewrite !app_nil_r|]; split; [trivial|];
         intros Hall; apply Forall_cons_1 in Hall as [(am' & ? & ? & E1 & E2) _];
         congruence.
    match goal with
    | |- context [execute_tool_calls uid ?tcs ?ms ?md ?st1] =>
        pose proof (execute_tool_calls_log uid tcs ms md st1) as [Ha He];
        destruct (execute_tool_calls uid tcs ms md st1) as [[[ms' md']|e|] st2]
    end; cbn in Ha, He;
      [|exists [messages]; split; [exact Ha|]; split; [cbn; lia | discriminate]..].
    destruct (He _ _ eq_refl) as [(new & -> & Ee) Hf].
    destruct (IH ms' (made ++ new) st2) as (requests & Hr & Hlen & Hret).
    exists (messages :: requests). split; [|split].
    + rewrite Hr, Ha. cbn. now rewrite <- app_assoc.
    + cbn. lia.
    + intros text audit E. apply Hret in E as ((new' & -> & Ee') & Hf' & Hall).
      split; [|split].
      * exists (new ++ new'). now rewrite Ee', Ee, !app_assoc.
      * intros s0 H. apply Hf', Hf. exact H.
      * intros H. apply Forall_cons_1 in H as [_ H].
        destruct (Hall H) as [E1 E2]. split; [cbn; lia | exact E2].
Qed.

(** C4. Whatever the history and whatever the model answers, one run
    sends the model at most 4 requests; and a run that returns after 4
    requests that were all answered with tool invocations returns the
    completion acknowledgment together with the audit trail of every tool
    executed. *)
Theorem at_most_four_rounds (uid : string) (messages : list Message) (s : Session) :
  let r := run_agent uid messages (start s) in
  List.length (asked r.2) <= 4 /\
  (forall text audit,
     r.1 = Returns (text, audit) ->
     List.length (asked r.2) = 4 ->
     Forall (requests_tools llm) (asked r.2) ->
     text = COMPLETED_ACK /\ audit = executed r.2).
Proof.
  unfold run_agent.
  pose proof (fast_path_exits uid messages (start s)) as (Ha & _ & Hn & Hs).
  destruct (_fast_path_command uid messages (start s)) as [[[fast|]|e|] st'];
    cbn [fst snd] in Ha, Hn, Hs |- *;
    try (rewrite Ha; split; [cbn; lia | intros; discriminate]).
  rewrite (Hn eq_refl).
  destruct (agent_loop_log uid MAX_TOOL_ITERATIONS
              (_recent_openai_messages messages) [] (start s))
    as (requests & Hr & Hlen & Hret).
  change (asked (start s) ++ requests) with requests in Hr.
  rewrite Hr. split; [exact Hlen|].
  intros text audit E _ Hall.
  destruct (Hret _ _ E) as ((new & -> & Ee) & _ & Hack).
  split; [apply (Hack Hall) | now rewrite Ee].
Qed.

(** C5. The audit trail a run returns, on the fast path or from the
    agent loop, is the list of the tool executions of that run, one entry
    [{name, arguments, result}] each, in the order they ran: executing
    the entries in that order from the session the run started in returns
    the recorded results and ends in the session the run ended in. When
    the fast path matched, the trail is exactly one entry. *)
Theorem audit_trail_is_execution_order (uid : string) (messages : list Message)
        (s : Session) (text : string) (audit : list ToolCall) :
  let r := run_agent uid messages (start s) in
  r.1 = Returns (text, audit) ->
  audit = executed r.2 /\
  replays uid s audit (session r.2) /\
  (forall st', _fast_path_command uid messages (start s)
               = (Returns (Some (text, audit)), st') ->
               List.length audit = 1).
Proof.
  unfold run_agent.
  pose proof (fast_path_exits uid messages (start s)) as (Ha & Hf & Hn & Hs).
  assert (faithful uid s (start s)) as H0 by constructor.
  destruct (_fast_path_command uid messages (start s)) as [[[[text' audit']|]|e|] st'];
    cbn [fst snd] in Ha, Hf, Hn, Hs |- *; try discriminate.
  - intros [= <- <-]. destruct (Hs _ _ eq_refl) as (e & -> & Ee).
    pose proof (Hf s _ eq_refl H0) as Hr. unfold faithful in Hr.
    rewrite Ee in Hr. split; [now rewrite Ee|]. split; [exact Hr | reflexivity].
  - rewrite (Hn eq_refl).
    destruct (agent_loop_log uid MAX_TOOL_ITERATIONS
                (_recent_openai_messages messages) [] (start s))
      as (requests & _ & _ & Hret).
    intros E. destruct (Hret _ _ E) as ((new & -> & Ee) & Hr & _).
    specialize (Hr s H0). unfold faithful in Hr. rewrite Ee in Hr.
    split; [now rewrite Ee|]. split; [exact Hr | discriminate].
Qed.

(** C1 on the code. The arguments of an invocation that fail to parse
    are replaced by the empty mapping; for the four tools with a required
    parameter the call then raises the TypeError of a missing argument,
    which leaves the loop and ends the run. *)
Theorem malformed_arguments_abort_the_run (uid : string) (rounds : nat)
        (messages : list ChatMessage) (made : list ToolCall) (st : Run)
        (assistant_message : AssistantMessage)
        (tool_call : ToolCallRequest) (rest : list ToolCallRequest) :
  llm messages = Returns assistant_message ->
  am_tool_calls assistant_message = Some (tool_call :: rest) ->
  json_loads (tc_arguments tool_call) = None ->
  tc_name tool_call ∈ ["add_task"; "complete_task"; "delete_task"; "update_task"] ->
  parse_arguments json_loads (tc_arguments tool_call) = dict [] /\
  exists names,
    (agent_loop (S rounds) uid messages made st).1
    = Raises (TypeError (MissingArguments names)).
Proof.
  intros El Et Ej Hn. unfold parse_arguments. rewrite Ej. split; [reflexivity|].
  cbn. rewrite El, Et. cbn. unfold parse_arguments. rewrite Ej.
  repeat (apply elem_of_cons in Hn as [->|Hn]; [eexists; reflexivity|]).
  inversion Hn.
Qed.

End AgentLoop.

(** ** The run on sample inputs *)

Lemma at_most_four_rounds_witness :
  let r := run_agent Sample.keeps_listing Sample.json_loads Sample.json_dumps
             "alice" [Sample.user_msg "hello"] (start Sample.empty) in
  List.length (asked r.2) <= 4 /\
  r.1 = Returns (COMPLETED_ACK, executed r.2).
Proof.
  intros r.
  destruct (at_most_four_rounds Sample.keeps_listing Sample.json_loads
              Sample.json_dumps "alice" [Sample.user_msg "hello"] Sample.empty)
    as [Hle Hack].
  split; [exact Hle|].
  assert (exists text audit, r.1 = Returns (text, audit)) as (text & audit & E)
      by (eexists _, _; vm_compute; reflexivity).
  destruct (Hack text audit E) as [-> ->].
  - vm_compute. reflexivity.
  - vm_compute. repeat constructor;
      (eexists _, _, _; split; reflexivity).
  - exact E.
Defined.

Lemma audit_trail_is_execution_order_witness :
  let r := run_agent Sample.keeps_listing Sample.json_loads Sample.json_dumps
             "alice" [Sample.user_msg "complete task 3"] (start Sample.three) in
  exists text audit,
    r.1 = Returns (text, audit) /\ audit = executed r.2 /\
    replays "alice" Sample.three audit (session r.2) /\ List.length audit = 1.
Proof.
  intros r.
  assert (exists text audit st',
             _fast_path_command "alice" [Sample.user_msg "complete task 3"]
               (start Sample.three) = (Returns (Some (text, audit)), st'))
    as (text & audit & st' & Ef)
      by (eexists _, _, _; vm_compute; reflexivity).
  assert (r.1 = Returns (text, audit)) as E
      by (subst r; unfold run_agent; rewrite Ef; reflexivity).
  destruct (audit_trail_is_execution_order Sample.keeps_listing Sample.json_loads
              Sample.json_dumps "alice" [Sample.user_msg "complete task 3"]
              Sample.three text audit E) as (H1 & H2 & H3).
  exists text, audit. repeat split; [exact E | exact H1 | exact H2 | exact (H3 st' Ef)].
Defined.

Lemma malformed_arguments_abort_the_run_witness :
  exists names,
    (run_agent Sample.cuts_short Sample.json_loads Sample.json_dumps
       "alice" [Sample.user_msg "hello"] (start Sample.empty)).1
    = Raises (TypeError (MissingArguments names)).
Proof.
  destruct (malformed_arguments_abort_the_run Sample.cuts_short Sample.json_loads
              Sample.json_dumps "alice" 3
              (_recent_openai_messages [Sample.user_msg "hello"]) []
              (start Sample.empty)
              {| am_content := None; am_tool_calls := Some [Sample.cut_short_call] |}
              Sample.cut_short_call [])
    as [_ [names E]].
  - reflexivity.
  - reflexivity.
  - reflexivity.
  - left.
  - exists names. exact E.
Defined.

Lemma fast_path_listing_text_witness :
  exists text audit,
    (run_tool "alice" "list_tasks" (dict [("status", VStr "all")]) None
       (start (Sample.busy 12))).1
    = Returns (text, audit) /\
    text = "Here are your tasks:" +:+ PyStr.nl +:+
           PyStr.join PyStr.nl
             ["Todo #12: task 12"; "Todo #11: task 11"; "Todo #10: task 10";
              "Todo #9: task 9"; "Todo #8: task 8"; "Todo #7: task 7";
              "Todo #6: task 6"; "Todo #5: task 5"; "Todo #4: task 4";
              "Todo #3: task 3"; "...and 2 more."].
Proof.
  destruct (fast_path_listing_text "alice" (VStr "all") (start (Sample.busy 12)))
    as (text & r & E & _ & _ & Hmore & _).
  eexists text, _. split.
  - exact E.
  - rewrite Hmore; [vm_compute; reflexivity|].
    vm_compute. lia.
Defined.

(** The spec's sample phrasing: "add task buy milk" runs [add_task] with
    the title "buy milk", once, and answers "Added task: buy milk.". *)
Example fast_path_add_buy_milk :
  (_fast_path_command "alice" [Sample.user_msg "add task buy milk"]
     (start Sample.empty)).1
  = Returns (Some ("Added task: buy milk.",
                   [{| name := "add_task";
                       arguments := dict [("title", VStr "buy milk")];
                       result := dict [("task_id", VInt 1); ("status", VStr "created");
                                       ("title", VStr "buy milk")] |}])).
Proof. vm_compute. reflexivity. Qed.

Example fast_path_show_tasks :
  reply (_fast_path_command "alice" [Sample.user_msg "Show my tasks"]
           (start Sample.three)).1
  = Returns (Some ("Here are your tasks:" +:+ PyStr.nl +:+ "Todo #3: pay rent"
                   +:+ PyStr.nl +:+ "Done #1: buy milk")).
Proof. vm_compute. reflexivity. Qed.

Example fast_path_rename_quoted :
  reply (_fast_path_command "alice" [Sample.user_msg "Rename task 3 to 'pay the rent'"]
           (start Sample.three)).1
  = Returns (Some "Updated task #3: pay the rent.").
Proof. vm_compute. reflexivity. Qed.

Example fast_path_foreign_task :
  reply (_fast_path_command "alice" [Sample.user_msg "delete task 2"]
           (start Sample.three)).1
  = Returns (Some "Task not found").
Proof. vm_compute. reflexivity. Qed.

Example fast_path_declines :
  (_fast_path_command "alice" [Sample.user_msg "how are you?"] (start Sample.three)).1
  = Returns None.
Proof. vm_compute. reflexivity. Qed.

(** * Further properties of the tools and the agent *)

(** ** The tools *)

Section Tools.
Implicit Types (s : Session) (t : Task) (uid : string).

Lemma query_tasks_elem s uid status id t :
  (id, t) ∈ query_tasks s uid status <->
  tasks s !! id = Some t /\ listed uid status (id, t) = true.
Proof.
  unfold query_tasks. rewrite merge_sort_Permutation.
  now rewrite list_elem_of_In, filter_In, <- list_elem_of_In, elem_of_map_to_list.
Qed.

Lemma query_tasks_NoDup s uid status : NoDup (query_tasks s uid status).
Proof.
  unfold query_tasks. rewrite merge_sort_Permutation.
  apply NoDup_ListNoDup, List.NoDup_filter, NoDup_ListNoDup, NoDup_map_to_list.
Qed.

Lemma query_tasks_sorted s uid status :
  StronglySorted newer_first (query_tasks s uid status).
Proof. apply StronglySorted_merge_sort; apply _. Qed.

Lemma add_task_lookup s uid title_ description_ k :
  tasks (add_task s uid title_ description_).2 !! k
  = if decide (k = fresh_id (tasks s))
    then Some (new_task s uid title_ description_)
    else tasks s !! k.
Proof.
  cbn. destruct (decide (k = fresh_id (tasks s))) as [->|Hk].
  - apply lookup_insert_eq.
  - now apply lookup_insert_ne.
Qed.

End Tools.

(** X1. [add_task] never overwrites: the key it stores under was free,
    the row stored is the new task, not completed, stamped with the two
    clock readings, every row the table held is still there unchanged,
    and the result reports that key with status "created". *)
Theorem add_task_adds_one_row (s : Session) (uid title_ : string)
        (description_ : option string) :
  let id := fresh_id (tasks s) in
  let r := add_task s uid title_ description_ in
  tasks s !! id = None /\
  tasks r.2 !! id = Some (new_task s uid title_ description_) /\
  (forall k t, tasks s !! k = Some t -> tasks r.2 !! k = Some t) /\
  (forall k, k <> id -> tasks r.2 !! k = tasks s !! k) /\
  size (tasks r.2) = S (size (tasks s)) /\
  r.1 = dict [("task_id", VInt id); ("status", VStr "created");
              ("title", VStr title_)].
Proof.
  intros id r. pose proof (fresh_id_fresh (tasks s)) as Hf. fold id in Hf.
  split; [exact Hf|]. split; [|split; [|split; [|split]]].
  - subst r. rewrite add_task_lookup. now rewrite decide_True.
  - intros k t Hk. subst r. rewrite add_task_lookup.
    destruct (decide (k = fresh_id (tasks s))) as [->|_]; [|exact Hk].
    fold id in Hk. congruence.
  - intros k Hk. subst r. rewrite add_task_lookup. now rewrite decide_False.
  - subst r. cbn. now apply map_size_insert_None.
  - reflexivity.
Qed.

Lemma query_tasks_NoDup_keys (s : Session) (uid : string) (status : pyval) :
  NoDup (query_tasks s uid status).*1.
Proof.
  apply NoDup_fmap_fst; [|apply query_tasks_NoDup].
  intros id t1 t2 H1 H2.
  apply query_tasks_elem in H1 as [H1 _]. apply query_tasks_elem in H2 as [H2 _].
  congruence.
Qed.

Lemma list_tasks_rows (s : Session) (uid : string) (status : pyval) :
  list_tasks s uid status = (VList (task_summary <$> query_tasks s uid status), s).
Proof. reflexivity. Qed.

(** X2. Adding then listing. After [add_task], the owner's "all" and
    "pending" listings hold the new task, under its key once; the
    "completed" listing does not hold it; every task listed before is
    still listed; and the listings of every other owner hold the same
    rows as before. *)
Theorem add_task_then_list_tasks (s : Session) (uid title_ : string)
        (description_ : option string) :
  let id := fresh_id (tasks s) in
  let s' := (add_task s uid title_ description_).2 in
  let row := (id, new_task s uid title_ description_) in
  (forall status, status = "all" \/ status = "pending" ->
     exists rows,
       list_tasks s' uid (VStr status) = (VList (task_summary <$> rows), s') /\
       row ∈ rows /\ NoDup rows.*1) /\
  (forall t, (id, t) ∉ query_tasks s' uid (VStr "completed")) /\
  (forall status old, old ∈ query_tasks s uid status ->
                      old ∈ query_tasks s' uid status) /\
  (forall other status r, other <> uid ->
     r ∈ query_tasks s' other status <-> r ∈ query_tasks s other status).
Proof.
  intros id s' row.
  assert (forall k, tasks s' !! k
                    = if decide (k = id) then Some row.2 else tasks s !! k) as Hl
      by (intros k; apply add_task_lookup).
  pose proof (fresh_id_fresh (tasks s)) as Hf. fold id in Hf.
  split; [|split; [|split]].
  - intros status Hs. exists (query_tasks s' uid (VStr status)).
    split; [reflexivity|]. split; [|apply query_tasks_NoDup_keys].
    apply query_tasks_elem. rewrite Hl, decide_True by reflexivity.
    split; [reflexivity|]. unfold listed. cbn.
    rewrite String.eqb_refl. now destruct Hs as [->| ->].
  - intros t Ht. apply query_tasks_elem in Ht as [Ht Hc].
    rewrite Hl, decide_True in Ht by reflexivity. injection Ht as <-.
    unfold listed in Hc. cbn in Hc. now rewrite andb_false_r in Hc.
  - intros status [k t] Ho. apply query_tasks_elem in Ho as [Ho Hc].
    apply query_tasks_elem. split; [|exact Hc].
    rewrite Hl. destruct (decide (k = id)) as [->|_]; [congruence | exact Ho].
  - intros other status [k t] Hne. rewrite !query_tasks_elem, Hl.
    destruct (decide (k = id)) as [->|_]; [|reflexivity].
    rewrite Hf. split; [|intros [? _]; discriminate].
    intros [[= <-] Hc]. unfold listed in Hc. cbn in Hc.
    destruct (String.eqb_spec uid other); [congruence | discriminate].
Qed.

Lemma head_of_sorted (rows : list (Z * Task)) (x : Z * Task) :
  StronglySorted newer_first rows -> x ∈ rows ->
  (forall y, y ∈ rows -> y <> x -> created_before y.2 x.2) ->
  head rows = Some x.
Proof.
  intros Hs Hx Hlt. destruct rows as [|h tl]; [inversion Hx|]. cbn.
  destruct (decide (h = x)) as [->|Hne]; [reflexivity|]. exfalso.
  apply elem_of_cons in Hx as [->|Hx]; [congruence|].
  apply StronglySorted_inv in Hs as [_ Hall].
  rewrite Forall_forall in Hall. specialize (Hall x Hx).
  specialize (Hlt h (list_elem_of_here _ _) Hne).
  unfold newer_first, dt_leb in Hall. unfold created_before in Hlt.
  rewrite dt_compare_antisym, Hlt in Hall. discriminate.
Qed.

(** X3. The newest task comes first. When every task the owner already
    has was created strictly before the clock reading [add_task] takes,
    the task just added is the first row of the owner's "all" and
    "pending" listings. *)
Theorem add_task_listed_first (s : Session) (uid title_ : string)
        (description_ : option string) (status : string) :
  (forall k t, tasks s !! k = Some t -> user_id t = uid ->
               created_before t (new_task s uid title_ description_)) ->
  status = "all" \/ status = "pending" ->
  let s' := (add_task s uid title_ description_).2 in
  head (query_tasks s' uid (VStr status))
  = Some (fresh_id (tasks s), new_task s uid title_ description_).
Proof.
  intros Hold Hs s'. apply head_of_sorted; [apply query_tasks_sorted| |].
  - apply query_tasks_elem. subst s'. rewrite add_task_lookup, decide_True by reflexivity.
    split; [reflexivity|]. unfold listed. cbn. rewrite String.eqb_refl.
    now destruct Hs as [->| ->].
  - intros [k t] Hy Hne. apply query_tasks_elem in Hy as [Hy Hc].
    subst s'. rewrite add_task_lookup in Hy.
    destruct (decide (k = fresh_id (tasks s))) as [->|_].
    + injection Hy as <-. congruence.
    + apply (Hold k t Hy). unfold listed in Hc. cbn in Hc.
      apply andb_true_iff in Hc as [Hu _]. now apply String.eqb_eq.
Qed.

Lemma add_task_listed_first_witness :
  head (query_tasks (add_task Sample.three "alice" "water plants" None).2
          "alice" (VStr "pending"))
  = Some (4%Z, new_task Sample.three "alice" "water plants" None).
Proof.
  refine (add_task_listed_first Sample.three "alice" "water plants" None "pending" _ _).
  - intros k t Hk Hu.
    assert (k ∈ (map_to_list (tasks Sample.three)).*1) as Hin.
    { apply list_elem_of_fmap. exists (k, t). split; [reflexivity|].
      now apply elem_of_map_to_list. }
    vm_compute in Hin.
    repeat (apply elem_of_cons in Hin as [->|Hin];
            [vm_compute in Hk; injection Hk as <-;
             first [reflexivity | discriminate Hu]|]).
    inversion Hin.
  - now right.
Defined.

(** X4. Completing then listing. On a task the caller owns,
    [complete_task] returns [{task_id, status="completed", title}], sets
    the completion flag and nothing else but the update time, and leaves
    every other row alone; from then on the task is in the owner's
    "completed" listing and not in the "pending" one; completing it
    again returns the same result. *)
Theorem complete_task_then_list_tasks (s : Session) (uid : string) (task_id : Z)
        (t : Task) :
  tasks s !! task_id = Some t ->
  user_id t = uid ->
  let r := complete_task s uid task_id in
  let t' := {| user_id := user_id t; title := title t;
               description := description t; completed := true;
               created_at := created_at t; updated_at := clock s (ticks s) |} in
  r.1 = dict [("task_id", VInt task_id); ("status", VStr "completed");
              ("title", VStr (title t))] /\
  tasks r.2 !! task_id = Some t' /\
  (forall k, k <> task_id -> tasks r.2 !! k = tasks s !! k) /\
  (task_id, t') ∈ query_tasks r.2 uid (VStr "completed") /\
  (forall t'', (task_id, t'') ∉ query_tasks r.2 uid (VStr "pending")) /\
  (complete_task r.2 uid task_id).1 = r.1.
Proof.
  intros Ht Hu r t'.
  assert (select_task s uid task_id = Some t) as E
      by (apply select_task_Some; now split).
  assert (r = (dict [("task_id", VInt task_id); ("status", VStr "completed");
                     ("title", VStr (title t))],
               with_tasks (utcnow s).2 (<[task_id := t']> (tasks s)))) as ->
      by (subst r; unfold complete_task; now rewrite E).
  cbn [fst snd with_tasks tasks].
  split; [reflexivity|]. split; [apply lookup_insert_eq|].
  split; [intros k Hk; now apply lookup_insert_ne|].
  split; [|split].
  - apply query_tasks_elem. cbn. rewrite lookup_insert_eq. split; [reflexivity|].
    unfold listed. cbn. rewrite Hu, String.eqb_refl. reflexivity.
  - intros t'' H. apply query_tasks_elem in H as [H Hc]. cbn in H.
    rewrite lookup_insert_eq in H. injection H as <-.
    unfold listed in Hc. cbn in Hc. now rewrite andb_false_r in Hc.
  - unfold complete_task at 1.
    assert (select_task (with_tasks (utcnow s).2 (<[task_id := t']> (tasks s)))
              uid task_id = Some t') as ->.
    { apply select_task_Some. cbn. now rewrite lookup_insert_eq. }
    reflexivity.
Qed.

Lemma complete_task_then_list_tasks_witness :
  (complete_task Sample.three "alice" 3).1
  = dict [("task_id", VInt 3); ("status", VStr "completed");
          ("title", VStr "pay rent")] /\
  forall t, (3%Z, t) ∉ query_tasks (complete_task Sample.three "alice" 3).2
                         "alice" (VStr "pending").
Proof.
  destruct (complete_task_then_list_tasks Sample.three "alice" 3
              {| user_id := "alice"; title := "pay rent"; description := None;
                 completed := false;
                 created_at := Sample.noon 4; updated_at := Sample.noon 5 |})
    as (H1 & _ & _ & _ & H2 & _).
  - vm_compute. reflexivity.
  - reflexivity.
  - split; [exact H1 | exact H2].
Defined.

(** X5. Deleting. On a task the caller owns, [delete_task] returns
    [{task_id, status="deleted", title}] with the title the task had,
    removes that row and no other, and from then on the id is unknown:
    it is in no listing, and completing, deleting or updating it
    reports not-found and changes nothing. *)
Theorem delete_task_then_not_found (s : Session) (uid : string) (task_id : Z)
        (t : Task) :
  tasks s !! task_id = Some t ->
  user_id t = uid ->
  let r := delete_task s uid task_id in
  r.1 = dict [("task_id", VInt task_id); ("status", VStr "deleted");
              ("title", VStr (title t))] /\
  tasks r.2 !! task_id = None /\
  (forall k, k <> task_id -> tasks r.2 !! k = tasks s !! k) /\
  S (size (tasks r.2)) = size (tasks s) /\
  (forall who status t', (task_id, t') ∉ query_tasks r.2 who status) /\
  (forall who title_ description_,
     complete_task r.2 who task_id = (not_found task_id, r.2) /\
     delete_task r.2 who task_id = (not_found task_id, r.2) /\
     update_task r.2 who task_id title_ description_ = (not_found task_id, r.2)).
Proof.
  intros Ht Hu r.
  assert (select_task s uid task_id = Some t) as E
      by (apply select_task_Some; now split).
  assert (r = (dict [("task_id", VInt task_id); ("status", VStr "deleted");
                     ("title", VStr (title t))],
               with_tasks s (delete task_id (tasks s)))) as ->
      by (subst r; unfold delete_task; now rewrite E).
  cbn [fst snd with_tasks tasks].
  assert (tasks (with_tasks s (delete task_id (tasks s))) !! task_id = None) as Hgone
      by (cbn; apply lookup_delete_eq).
  split; [reflexivity|]. split; [exact Hgone|].
  split; [intros k Hk; cbn; now apply lookup_delete_ne|].
  split.
  { cbn. rewrite map_size_delete, Ht.
    pose proof (map_size_ne_0_lookup_2 (tasks s) task_id (mk_is_Some _ _ Ht)).
    simpl. lia. }
  split.
  - intros who status t' H. apply query_tasks_elem in H as [H _]. congruence.
  - intros who title_ description_.
    pose proof (select_task_absent _ who task_id Hgone) as Ea.
    unfold complete_task, delete_task, update_task. now rewrite Ea.
Qed.

Lemma delete_task_then_not_found_witness :
  (delete_task Sample.three "alice" 1).1
  = dict [("task_id", VInt 1); ("status", VStr "deleted"); ("title", VStr "buy milk")] /\
  complete_task (delete_task Sample.three "alice" 1).2 "alice" 1
  = (not_found 1, (delete_task Sample.three "alice" 1).2).
Proof.
  destruct (delete_task_then_not_found Sample.three "alice" 1
              {| user_id := "alice"; title := "buy milk"; description := None;
                 completed := true;
                 created_at := Sample.noon 0; updated_at := Sample.noon 6 |})
    as (H1 & _ & _ & _ & _ & H2).
  - vm_compute. reflexivity.
  - reflexivity.
  - split; [exact H1 | exact (proj1 (H2 "alice" None None))].
Defined.

(** ** Dispatch on arguments that follow the catalog *)

Section Binding.

Lemma filter_nil_forall {A} (f : A -> bool) (l : list A) :
  (forall x, x ∈ l -> f x = false) -> List.filter f l = [].
Proof.
  induction l as [|x l IH]; intros H; [reflexivity|]. cbn.
  rewrite (H x) by apply list_elem_of_here.
  apply IH. intros y Hy. apply H. now apply list_elem_of_further.
Qed.

Lemma bind_arguments_returns (params : list (string * bool)) (m : gmap string pyval) :
  known_param params "session" = false ->
  known_param params "user_id" = false ->
  (forall k v, m !! k = Some v -> known_param params k = true) ->
  (forall p, p ∈ params -> p.2 = true -> is_Some (m !! p.1)) ->
  bind_arguments params (VDict m) = Returns m.
Proof.
  intros Hs Hu Hknown Hreq. unfold bind_arguments, has_key.
  destruct (m !! "session") as [v|] eqn:Es.
  { apply Hknown in Es. congruence. }
  destruct (m !! "user_id") as [v|] eqn:Eu.
  { apply Hknown in Eu. congruence. }
  cbn [orb].
  assert (forallb (fun kv : string * pyval => known_param params kv.1) (map_to_list m)
          = true) as ->.
  { apply forallb_forall. intros [k v] Hin.
    apply list_elem_of_In, elem_of_map_to_list in Hin. exact (Hknown k v Hin). }
  cbn [negb].
  rewrite filter_nil_forall; [reflexivity|].
  intros p Hp. destruct p.2 eqn:Ep; [|reflexivity].
  destruct (Hreq p Hp Ep) as [v ->]. reflexivity.
Qed.

Lemma conforms_string td (m : gmap string pyval) k v :
  conforms td m -> m !! k = Some v ->
  (forall p, p ∈ td_properties td -> p_name p = k -> p_type p = "string") ->
  exists x, v = VStr x.
Proof.
  intros [Hc _] Hk Hty. destruct (Hc k v Hk) as (p & Hp & Hn & Ht).
  specialize (Hty p Hp Hn).
  destruct Ht as [[_ (x & -> & _)]|[Hi _]]; [eauto | congruence].
Qed.

Lemma conforms_integer td (m : gmap string pyval) k v :
  conforms td m -> m !! k = Some v ->
  (forall p, p ∈ td_properties td -> p_name p = k -> p_type p = "integer") ->
  exists z, v = VInt z.
Proof.
  intros [Hc _] Hk Hty. destruct (Hc k v Hk) as (p & Hp & Hn & Ht).
  specialize (Hty p Hp Hn).
  destruct Ht as [[Hs _]|[_ (z & ->)]]; [congruence | eauto].
Qed.

Lemma conforms_known td (m : gmap string pyval) params k v :
  conforms td m -> m !! k = Some v ->
  (forall p, p ∈ td_properties td -> known_param params (p_name p) = true) ->
  known_param params k = true.
Proof.
  intros [Hc _] Hk Hall. destruct (Hc k v Hk) as (p & Hp & <- & _). now apply Hall.
Qed.

End Binding.

(** Goals about the members of a list written out. *)
Ltac each_member H :=
  repeat (apply elem_of_cons in H as [->|H]); [..|inversion H].

Ltac by_members :=
  let p := fresh "p" in let Hp := fresh "Hp" in
  intros p Hp; each_member Hp; cbn; intros; first [reflexivity | discriminate | eauto].



(** ** [execute_tool] when it does not return *)

Lemma bind_arguments_raises params arguments_ e :
  bind_arguments params arguments_ = Raises e -> exists why, e = TypeError why.
Proof.
  unfold bind_arguments. destruct arguments_; try (intros [= <-]; eauto).
  repeat case_match; intros [= <-]; eauto.
Qed.

Lemma bind_arguments_modelled params arguments_ :
  bind_arguments params arguments_ <> Unmodelled.
Proof. unfold bind_arguments. repeat case_match; discriminate. Qed.

Lemma execute_tool_not_returned s uid tool_name arguments_ :
  let r := execute_tool s uid tool_name arguments_ in
  (forall v, r.1 <> Returns v) -> r.2 = s.
Proof.
  unfold execute_tool.
  destruct (signature tool_name) as [params|]; [|intros H; exfalso; exact (H _ eq_refl)].
  destruct (bind_arguments params arguments_) as [m|e|]; try reflexivity.
  unfold mbind, outcome_bind, mret, outcome_ret.
  repeat case_match; cbn; try reflexivity; intros Hn; exfalso; exact (Hn _ eq_refl).
Qed.

Lemma execute_tool_raises s uid tool_name arguments_ e :
  (execute_tool s uid tool_name arguments_).1 = Raises e ->
  (exists why, e = TypeError why) /\ is_Some (signature tool_name) /\
  (execute_tool s uid tool_name arguments_).2 = s.
Proof.
  intros He. split; [|split].
  - unfold execute_tool in He.
    destruct (signature tool_name) as [params|]; [|discriminate].
    destruct (bind_arguments params arguments_) as [m|e'|] eqn:Eb;
      [|injection He as ->; eapply bind_arguments_raises; exact Eb | discriminate].
    unfold mbind, outcome_bind, mret, outcome_ret, as_str, as_int, as_opt_str in He.
    repeat case_match; cbn in He; discriminate.
  - unfold execute_tool in He.
    destruct (signature tool_name); [now eexists | discriminate].
  - apply execute_tool_not_returned. rewrite He. discriminate.
Qed.

(** X7. The only exception [execute_tool] raises is the TypeError of the
    call's keyword binding, and only for one of the five tools; a call
    that raises has not touched the session, and a name outside the
    registry never raises: it returns the unknown-tool result. *)
Theorem execute_tool_raises_only_TypeError (s : Session) (uid tool_name : string)
        (arguments_ : pyval) :
  let r := execute_tool s uid tool_name arguments_ in
  (forall e, r.1 = Raises e ->
     (exists why, e = TypeError why) /\ is_Some (signature tool_name) /\ r.2 = s) /\
  (signature tool_name = None ->
     r = (Returns (dict [("error", VStr ("Unknown tool: " +:+ tool_name))]), s)).
Proof.
  intros r. split.
  - intros e He. now apply execute_tool_raises.
  - intros Hsig. subst r. unfold execute_tool. now rewrite Hsig.
Qed.

Lemma execute_tool_raises_only_TypeError_witness :
  exists why,
    (execute_tool Sample.three "alice" "complete_task" (dict [("id", VInt 3)])).1
    = Raises (TypeError why).
Proof.
  destruct (proj1 (execute_tool_raises_only_TypeError Sample.three "alice"
                     "complete_task" (dict [("id", VInt 3)]))
              (TypeError UnexpectedKeyword) eq_refl) as [[why E] _].
  exists why. rewrite <- E. reflexivity.
Defined.

(** ** The context sent to the model *)

(** X8. The context is a window. [_recent_openai_messages] puts the system
    prompt first and then the last 12 messages of the history (all of
    them when there are 12 or fewer), in their order, each as its role
    and content; what is older is dropped. *)
Theorem recent_messages_window (messages : list Message) :
  exists older recent,
    messages = older ++ recent /\
    List.length recent = Nat.min (List.length messages) 12 /\
    _recent_openai_messages messages
    = plain "system" SYSTEM_PROMPT
      :: ((fun msg => plain (role msg) (content msg)) <$> recent) /\
    List.length (_recent_openai_messages messages)
    = S (Nat.min (List.length messages) 12) /\
    (List.length messages <= 12 -> older = []).
Proof.
  exists (take (List.length messages - 12) messages),
         (drop (List.length messages - 12) messages).
  split; [now rewrite take_drop|].
  assert (List.length (drop (List.length messages - 12) messages)
          = Nat.min (List.length messages) 12) as Hlen
      by (rewrite length_drop; lia).
  split; [exact Hlen|]. split; [reflexivity|]. split.
  - unfold _recent_openai_messages, MAX_CONTEXT_MESSAGES. cbn [List.length].
    now rewrite length_fmap, Hlen.
  - intros Hle. replace (List.length messages - 12) with 0 by lia. reflexivity.
Qed.

(** ** What a run does to the session *)

Section RunInvariant.

Variable llm : list ChatMessage -> outcome AssistantMessage.
Variable json_loads : string -> option pyval.
Variable json_dumps : pyval -> string.
Variable uid : string.

(** A property of sessions that every [execute_tool] call made for
    [uid] keeps. *)
Variable P : Session -> Prop.
Hypothesis P_execute_tool :
  forall s tool_name arguments_,
    P s -> P (execute_tool s uid tool_name arguments_).2.

Lemma call_tool_keeps tool_name arguments_ st :
  P (session st) -> P (session (call_tool uid tool_name arguments_ st).2).
Proof.
  intros H. unfold call_tool.
  pose proof (P_execute_tool (session st) tool_name arguments_ H) as H'.
  destruct (execute_tool (session st) uid tool_name arguments_) as [[v|e|] s'];
    exact H'.
Qed.

Lemma run_tool_keeps tool_name arguments_ st :
  P (session st) ->
  P (session (some_of (run_tool uid tool_name arguments_ None st)).2).
Proof.
  intros H. unfold some_of, run_tool.
  pose proof (call_tool_keeps tool_name arguments_ st H) as H'.
  destruct (call_tool uid tool_name arguments_ st) as [[v|e|] st']; exact H'.
Qed.

Lemma fast_path_keeps messages st :
  P (session st) -> P (session (_fast_path_command uid messages st).2).
Proof.
  intros H. unfold _fast_path_command.
  repeat case_match; auto using run_tool_keeps.
Qed.

Lemma execute_tool_calls_keeps tool_calls :
  forall messages made st,
    P (session st) ->
    P (session (execute_tool_calls json_loads json_dumps uid tool_calls
                  messages made st).2).
Proof.
  induction tool_calls as [|tc rest IH]; intros messages made st H; cbn; [exact H|].
  pose proof (call_tool_keeps (tc_name tc)
                (parse_arguments json_loads (tc_arguments tc)) st H) as H'.
  destruct (call_tool uid (tc_name tc) _ st) as [[v|e|] st1]; cbn in *;
    [now apply IH | exact H' | exact H'].
Qed.

Lemma agent_loop_keeps rounds :
  forall messages made st,
    P (session st) ->
    P (session (agent_loop llm json_loads json_dumps rounds uid messages made st).2).
Proof.
  induction rounds as [|rounds IH]; intros messages made st H; cbn; [exact H|].
  destruct (llm messages) as [am|e|]; [|exact H..].
  destruct (am_tool_calls am) as [[|tc tcs]|]; [exact H| |exact H].
  match goal with
  | |- context [execute_tool_calls _ _ uid ?tcs ?ms ?md ?st1] =>
      pose proof (execute_tool_calls_keeps tcs ms md st1 H) as H';
      destruct (execute_tool_calls json_loads json_dumps uid tcs ms md st1)
        as [[[ms' md']|e|] st2]
  end; cbn in H'; [now apply IH | exact H' | exact H'].
Qed.

Lemma run_agent_keeps messages st :
  P (session st) ->
  P (session (run_agent llm json_loads json_dumps uid messages st).2).
Proof.
  intros H. unfold run_agent.
  pose proof (fast_path_keeps messages st H) as H'.
  destruct (_fast_path_command uid messages st) as [[[fast|]|e|] st'];
    cbn [snd] in H' |- *; try exact H'.
  now apply agent_loop_keeps.
Qed.

End RunInvariant.

Lemma others_untouched_refl uid s : others_untouched uid s s.
Proof. intros k t _. reflexivity. Qed.

Lemma others_untouched_trans uid s1 s2 s3 :
  others_untouched uid s1 s2 -> others_untouched uid s2 s3 ->
  others_untouched uid s1 s3.
Proof. intros H12 H23 k t Hne. now rewrite (H23 k t Hne), (H12 k t Hne). Qed.

Lemma execute_tool_others_untouched uid s tool_name arguments_ :
  others_untouched uid s (execute_tool s uid tool_name arguments_).2.
Proof.
  destruct (execute_tool s uid tool_name arguments_) as [[v|e|] s'] eqn:E; cbn.
  - destruct (signature tool_name) as [params|] eqn:Es.
    + eapply runs_as_others_untouched, execute_tool_runs_as; [|exact E].
      rewrite Es. now eexists.
    + unfold execute_tool in E. rewrite Es in E. injection E as _ <-.
      apply others_untouched_refl.
  - pose proof (execute_tool_not_returned s uid tool_name arguments_) as H.
    rewrite E in H. cbn in H. rewrite H by discriminate. apply others_untouched_refl.
  - pose proof (execute_tool_not_returned s uid tool_name arguments_) as H.
    rewrite E in H. cbn in H. rewrite H by discriminate. apply others_untouched_refl.
Qed.

(** X9. A run never touches another owner's tasks. Whatever the history,
    whatever the model answers and however the run ends (an answer, the
    ceiling, an exception), the tasks of every owner other than the
    caller are the same after the run as before: none created, changed
    or deleted. *)
Theorem run_agent_others_untouched
        (llm : list ChatMessage -> outcome AssistantMessage)
        (json_loads : string -> option pyval) (json_dumps : pyval -> string)
        (uid : string) (messages : list Message) (s : Session) :
  others_untouched uid s
    (session (run_agent llm json_loads json_dumps uid messages (start s)).2).
Proof.
  apply (run_agent_keeps llm json_loads json_dumps uid (others_untouched uid s)).
  - intros s1 tool_name arguments_ H.
    eapply others_untouched_trans; [exact H | apply execute_tool_others_untouched].
  - apply others_untouched_refl.
Qed.

(** ** The matcher *)

Section Matcher.

Lemma string_app_cons (x : ascii) (a b : string) :
  String x a +:+ b = String x (a +:+ b).
Proof. reflexivity. Qed.

Lemma string_app_assoc (a b c : string) : (a +:+ b) +:+ c = a +:+ (b +:+ c).
Proof.
  induction a as [|x a IH]; [reflexivity|].
  now rewrite !string_app_cons, IH.
Qed.

Lemma string_length_app (a b : string) :
  String.length (a +:+ b) = String.length a + String.length b.
Proof.
  induction a as [|x a IH]; [reflexivity|].
  rewrite string_app_cons. cbn [String.length]. now rewrite IH.
Qed.

Lemma take_app_length (w s : string) : PyStr.take (String.length w) (w +:+ s) = w.
Proof.
  induction w as [|x w IH]; [now destruct s|].
  rewrite string_app_cons. cbn [String.length PyStr.take]. now rewrite IH.
Qed.

Lemma lit_split ic p : forall s s',
  Re.lit ic p s = Some s' ->
  exists w, s = w +:+ s' /\ Re.lit ic p w = Some "" /\
            String.length w = String.length p.
Proof.
  induction p as [|a p IH]; intros s s'; cbn.
  - intros [= <-]. exists "". now repeat split.
  - destruct s as [|b s]; [discriminate|].
    destruct (Re.chr_eq ic a b) eqn:E; [|discriminate].
    intros H. apply IH in H as (w & -> & Hw & Hl).
    exists (String b w). rewrite string_app_cons. cbn [Re.lit String.length].
    rewrite E, Hl. now repeat split.
Qed.

Context {R : Type}.

Lemma plus_sound c : forall s pos caps (k : @Re.cont R) x,
  Re.plus c pos s caps k = Some x ->
  exists w s', s = w +:+ s' /\ w <> "" /\ all_in c w = true /\
               k (pos + String.length w) s' caps = Some x.
Proof.
  induction s as [|a s IH]; intros pos caps k x; cbn; [discriminate|].
  destruct (Re.in_cls c a) eqn:Ea; [|discriminate].
  destruct (Re.plus c (S pos) s caps k) as [y|] eqn:Ep.
  - intros [= ->]. apply IH in Ep as (w & s' & -> & _ & Hw & Hk).
    exists (String a w), s'. rewrite string_app_cons. cbn [all_in String.length].
    rewrite Ea, Hw. repeat split; [discriminate|]. now rewrite <- Nat.add_succ_comm.
  - intros Hk. exists (String a ""), s. cbn [all_in String.length]. rewrite Ea.
    repeat split; [discriminate|]. now rewrite Nat.add_1_r.
Qed.

(** The matcher is sound: when it reports a match, the input splits
    into the text matched and the rest, the text matched is an instance
    of the pattern, each group holds the text its sub-pattern matched,
    and the continuation succeeded on the rest. *)
Lemma run_sound ic r : forall pos s caps (k : @Re.cont R) x,
  Re.run ic r pos s caps k = Some x ->
  exists w s' caps',
    s = w +:+ s' /\ re_matches ic r w caps caps' /\
    k (pos + String.length w) s' caps' = Some x.
Proof.
  induction r as [p|c|r1 IH1 r2 IH2|r1 IH1 r2 IH2|r1 IH1|n r1 IH1| |];
    intros pos s caps k x; cbn [Re.run re_matches].
  - destruct (Re.lit ic p s) as [s'|] eqn:E; [|discriminate].
    intros Hk. apply lit_split in E as (w & -> & Hw & Hl).
    exists w, s', caps. rewrite Hl. now repeat split.
  - intros H. apply plus_sound in H as (w & s' & -> & Hne & Hw & Hk).
    exists w, s', caps. now repeat split.
  - intros H. apply IH1 in H as (w1 & s1 & mid & -> & H1 & H).
    apply IH2 in H as (w2 & s2 & caps' & -> & H2 & H).
    exists (w1 +:+ w2), s2, caps'. split; [now rewrite string_app_assoc|].
    split; [now exists w1, w2, mid|].
    now rewrite string_length_app, Nat.add_assoc.
  - destruct (Re.run ic r1 pos s caps k) as [y|] eqn:E.
    + intros [= ->]. apply IH1 in E as (w & s' & caps' & -> & Hm & Hk).
      exists w, s', caps'. now repeat split; [left|].
    + intros H. apply IH2 in H as (w & s' & caps' & -> & Hm & Hk).
      exists w, s', caps'. now repeat split; [right|].
  - destruct (Re.run ic r1 pos s caps k) as [y|] eqn:E.
    + intros [= ->]. apply IH1 in E as (w & s' & caps' & -> & Hm & Hk).
      exists w, s', caps'. now repeat split; [left|].
    + intros H. exists "", s, caps. rewrite Nat.add_0_r.
      now repeat split; [right|].
  - intros H. apply IH1 in H as (w & s' & mid & -> & Hm & Hk).
    replace (pos + String.length w - pos) with (String.length w) in Hk by lia.
    rewrite take_app_length in Hk.
    exists w, s', ((n, w) :: mid). now repeat split; [exists mid|].
  - destruct (Nat.eqb pos 0); [|discriminate]. intros H.
    exists "", s, caps. rewrite Nat.add_0_r. now repeat split.
  - destruct (_ || _); [|discriminate]. intros H.
    exists "", s, caps. rewrite Nat.add_0_r. now repeat split.
Qed.

End Matcher.

Lemma match_sound ic r s m :
  Re.match_ ic r s = Some m -> exists w, re_matches ic r w [] m.
Proof.
  unfold Re.match_. intros H.
  apply run_sound in H as (w & s' & caps' & _ & Hm & [= <-]). now exists w.
Qed.

Lemma search_sound_length ic r s m :
  Re.search ic r s = Some m ->
  exists w, re_matches ic r w [] m /\ String.length w <= String.length s.
Proof.
  unfold Re.search. generalize 0 as pos.
  induction s as [|a s IH]; intros pos; cbn [Re.search_from].
  - destruct (Re.run ic r pos "" [] _) as [y|] eqn:E; [|discriminate].
    intros [= ->]. apply run_sound in E as (w & s' & caps' & Hs & Hm & [= <-]).
    exists w. split; [exact Hm|]. rewrite Hs, string_length_app. lia.
  - destruct (Re.run ic r pos (String a s) [] _) as [y|] eqn:E.
    + intros [= ->]. apply run_sound in E as (w & s' & caps' & Hs & Hm & [= <-]).
      exists w. split; [exact Hm|]. rewrite Hs, string_length_app. lia.
    + intros H. apply IH in H as (w & Hm & Hl). exists w.
      split; [exact Hm|]. cbn [String.length]. lia.
Qed.

Lemma search_sound ic r s m :
  Re.search ic r s = Some m -> exists w, re_matches ic r w [] m.
Proof. intros H. apply search_sound_length in H as (w & Hm & _). now exists w. Qed.

Ltac break_match_hyps :=
  repeat match goal with
         | H : exists _, _ |- _ => destruct H
         | H : _ /\ _ |- _ => destruct H
         | H : _ \/ _ |- _ => destruct H
         end; subst.

Lemma all_in_digits w :
  w <> "" -> all_in Re.Digit w = true ->
  PyStr.int_of w
  = if (String.length w <=? PyStr.INT_MAX_STR_DIGITS)%nat
    then PyStr.IntValue (PyStr.digits_value 0 w)
    else PyStr.ExceedsLimit (String.length w).
Proof.
  intros Hne Hd. unfold PyStr.int_of.
  assert (PyStr.all_digits w = true) as ->.
  { clear Hne. induction w as [|a w IH]; [reflexivity|]. cbn in *.
    apply andb_true_iff in Hd as [-> Hd]. now apply IH. }
  destruct w; [congruence | reflexivity].
Qed.

(** [int] of a digit group of a match in a text of [bound] characters. *)
Lemma int_of_digit_group (bound : nat) (n : nat) (w : string) (rest : Re.captures) :
  w <> "" -> all_in Re.Digit w = true -> String.length w <= bound ->
  (exists z, group_int n ((n, w) :: rest) = Returns z) \/
  (exists e, group_int n ((n, w) :: rest) = Raises e /\ past_digit_limit bound e).
Proof.
  intros Hne Hd Hl. unfold group_int. cbn [Re.group]. rewrite Nat.eqb_refl.
  rewrite (all_in_digits w Hne Hd).
  destruct (Nat.leb_spec (String.length w) PyStr.INT_MAX_STR_DIGITS) as [Hle|Hgt].
  - left. now eexists.
  - right. eexists. split; [reflexivity|]. exists (String.length w).
    split; [reflexivity | lia].
Qed.

Lemma add_task_pattern_group s m :
  Re.match_ true Patterns.add_task s = Some m ->
  exists x, group_text 1 m = Returns x.
Proof.
  intros H. apply match_sound in H as [w H].
  cbn [Patterns.add_task Re.seq Re.alts re_matches] in H.
  break_match_hyps; cbn; eauto.
Qed.

Lemma remember_pattern_group s m :
  Re.match_ true Patterns.remember s = Some m ->
  exists x, group_text 1 m = Returns x.
Proof.
  intros H. apply match_sound in H as [w H].
  cbn [Patterns.remember Re.seq Re.alts re_matches] in H.
  break_match_hyps; cbn; eauto.
Qed.

Ltac digit_group_bound :=
  match goal with
  | Hl : String.length _ <= _ |- _ =>
      rewrite ?string_length_app in Hl; lia
  end.

Lemma complete_task_pattern_group s m :
  Re.search false Patterns.complete_task s = Some m ->
  (exists z, group_int 1 m = Returns z) \/
  (exists e, group_int 1 m = Raises e /\ past_digit_limit (String.length s) e).
Proof.
  intros H. apply search_sound_length in H as [w [H Hl]].
  cbn [Patterns.complete_task Re.seq Re.alts re_matches] in H.
  break_match_hyps;
    (apply int_of_digit_group; [assumption | assumption | digit_group_bound]).
Qed.

Lemma delete_task_pattern_group s m :
  Re.search false Patterns.delete_task s = Some m ->
  (exists z, group_int 1 m = Returns z) \/
  (exists e, group_int 1 m = Raises e /\ past_digit_limit (String.length s) e).
Proof.
  intros H. apply search_sound_length in H as [w [H Hl]].
  cbn [Patterns.delete_task Re.seq Re.alts re_matches] in H.
  break_match_hyps;
    (apply int_of_digit_group; [assumption | assumption | digit_group_bound]).
Qed.

Lemma update_task_pattern_groups s m :
  Re.search true Patterns.update_task s = Some m ->
  (exists x, group_text 2 m = Returns x) /\
  ((exists z, group_int 1 m = Returns z) \/
   (exists e, group_int 1 m = Raises e /\ past_digit_limit (String.length s) e)).
Proof.
  intros H. apply search_sound_length in H as [w [H Hl]].
  cbn [Patterns.update_task Re.seq Re.alts re_matches] in H.
  break_match_hyps;
    (split; [unfold group_text; cbn [Re.group Nat.eqb]; eauto|]);
    match goal with
    | |- context [group_int 1 ((2, ?x) :: ?rest)] =>
        replace (group_int 1 ((2, x) :: rest)) with (group_int 1 rest)
          by reflexivity
    end;
    (apply int_of_digit_group; [assumption | assumption | digit_group_bound]).
Qed.

(** ** The fast path, call by call *)

Section FastPathCalls.
Implicit Types (s : Session) (st : Run) (uid : string).

Lemma execute_add_task s uid title_ :
  execute_tool s uid "add_task" (dict [("title", VStr title_)])
  = (Returns (add_task s uid title_ None).1, (add_task s uid title_ None).2).
Proof. reflexivity. Qed.

Lemma execute_complete_task s uid z :
  execute_tool s uid "complete_task" (dict [("task_id", VInt z)])
  = (Returns (complete_task s uid z).1, (complete_task s uid z).2).
Proof.
  transitivity (let '(r, s') := complete_task s uid z in (Returns r, s'));
    [reflexivity | now destruct (complete_task s uid z)].
Qed.

Lemma execute_delete_task s uid z :
  execute_tool s uid "delete_task" (dict [("task_id", VInt z)])
  = (Returns (delete_task s uid z).1, (delete_task s uid z).2).
Proof.
  transitivity (let '(r, s') := delete_task s uid z in (Returns r, s'));
    [reflexivity | now destruct (delete_task s uid z)].
Qed.

Lemma execute_update_task s uid z title_ :
  execute_tool s uid "update_task" (dict [("task_id", VInt z); ("title", VStr title_)])
  = (Returns (update_task s uid z (Some title_) None).1,
     (update_task s uid z (Some title_) None).2).
Proof.
  transitivity (let '(r, s') := update_task s uid z (Some title_) None in (Returns r, s'));
    [reflexivity | now destruct (update_task s uid z (Some title_) None)].
Qed.

(** The result of a tool that changes one task: the not-found result,
    or the confirmation with the given status and title. *)
Lemma render_not_found tool_name arguments_ z :
  tool_name = "complete_task" \/ tool_name = "delete_task" \/ tool_name = "update_task" ->
  render tool_name arguments_ (not_found z) = Returns "Task not found".
Proof. intros [->|[->| ->]]; reflexivity. Qed.

Lemma render_completed arguments_ z x :
  render "complete_task" arguments_
    (dict [("task_id", VInt z); ("status", VStr "completed"); ("title", VStr x)])
  = Returns ("Completed task #" +:+ pretty z +:+ ": " +:+ x +:+ ".").
Proof. reflexivity. Qed.

Lemma render_deleted arguments_ z x :
  render "delete_task" arguments_
    (dict [("task_id", VInt z); ("status", VStr "deleted"); ("title", VStr x)])
  = Returns ("Deleted task #" +:+ pretty z +:+ ": " +:+ x +:+ ".").
Proof. reflexivity. Qed.

Lemma render_updated arguments_ z x :
  render "update_task" arguments_
    (dict [("task_id", VInt z); ("status", VStr "updated"); ("title", VStr x)])
  = Returns ("Updated task #" +:+ pretty z +:+ ": " +:+ x +:+ ".").
Proof. reflexivity. Qed.

Lemma render_added title_ z :
  render "add_task" (dict [("title", VStr title_)])
    (dict [("task_id", VInt z); ("status", VStr "created"); ("title", VStr title_)])
  = Returns ("Added task: " +:+ title_ +:+ ".").
Proof. reflexivity. Qed.

End FastPathCalls.

Lemma run_tool_text uid tool_name arguments_ st r s' text :
  execute_tool (session st) uid tool_name arguments_ = (Returns r, s') ->
  render tool_name arguments_ r = Returns text ->
  (run_tool uid tool_name arguments_ None st).1
  = Returns (text, [entry tool_name arguments_ r]).
Proof.
  intros He Hr. unfold run_tool, call_tool. rewrite He. cbn [fst snd].
  rewrite Hr. reflexivity.
Qed.

Lemma run_tool_add_text uid st title_ :
  (run_tool uid "add_task" (dict [("title", VStr title_)]) None st).1
  = Returns ("Added task: " +:+ title_ +:+ ".",
             [entry "add_task" (dict [("title", VStr title_)])
                    (add_task (session st) uid title_ None).1]).
Proof. eapply run_tool_text; [apply execute_add_task | apply render_added]. Qed.

Lemma run_tool_complete_text uid st z :
  (run_tool uid "complete_task" (dict [("task_id", VInt z)]) None st).1
  = Returns (owned_or_not_found (session st) uid z
               (fun t => "Completed task #" +:+ pretty z +:+ ": " +:+ title t +:+ "."),
             [entry "complete_task" (dict [("task_id", VInt z)])
                    (complete_task (session st) uid z).1]).
Proof.
  eapply run_tool_text; [apply execute_complete_task|].
  unfold complete_task, owned_or_not_found.
  destruct (select_task (session st) uid z) as [t|]; cbn [fst].
  - apply render_completed.
  - apply render_not_found. auto.
Qed.

Lemma run_tool_delete_text uid st z :
  (run_tool uid "delete_task" (dict [("task_id", VInt z)]) None st).1
  = Returns (owned_or_not_found (session st) uid z
               (fun t => "Deleted task #" +:+ pretty z +:+ ": " +:+ title t +:+ "."),
             [entry "delete_task" (dict [("task_id", VInt z)])
                    (delete_task (session st) uid z).1]).
Proof.
  eapply run_tool_text; [apply execute_delete_task|].
  unfold delete_task, owned_or_not_found.
  destruct (select_task (session st) uid z) as [t|]; cbn [fst].
  - apply render_deleted.
  - apply render_not_found. auto.
Qed.

Lemma run_tool_update_text uid st z title_ :
  (run_tool uid "update_task"
     (dict [("task_id", VInt z); ("title", VStr title_)]) None st).1
  = Returns (owned_or_not_found (session st) uid z
               (fun _ => "Updated task #" +:+ pretty z +:+ ": " +:+ title_ +:+ "."),
             [entry "update_task" (dict [("task_id", VInt z); ("title", VStr title_)])
                    (update_task (session st) uid z (Some title_) None).1]).
Proof.
  eapply run_tool_text; [apply execute_update_task|].
  unfold update_task, owned_or_not_found.
  destruct (select_task (session st) uid z) as [t|]; cbn [fst].
  - apply render_updated.
  - apply render_not_found. auto.
Qed.

(** X10. The sentences of the fast path. Run for a title, [add_task] answers
    "Added task: <title>."; run for an id, [complete_task], [delete_task]
    and [update_task] answer "Completed / Deleted / Updated task #<id>:
    <title>." when the caller owns the task (the new title for an
    update) and the tool's own "Task not found" when not; the audit
    trail is the one call with the tool's result. *)
Theorem fast_path_sentences (uid : string) (st : Run) (z : Z) (title_ : string) :
  let s := session st in
  (run_tool uid "add_task" (dict [("title", VStr title_)]) None st).1
  = Returns ("Added task: " +:+ title_ +:+ ".",
             [entry "add_task" (dict [("title", VStr title_)])
                    (add_task s uid title_ None).1]) /\
  (run_tool uid "complete_task" (dict [("task_id", VInt z)]) None st).1
  = Returns (owned_or_not_found s uid z
               (fun t => "Completed task #" +:+ pretty z +:+ ": " +:+ title t +:+ "."),
             [entry "complete_task" (dict [("task_id", VInt z)])
                    (complete_task s uid z).1]) /\
  (run_tool uid "delete_task" (dict [("task_id", VInt z)]) None st).1
  = Returns (owned_or_not_found s uid z
               (fun t => "Deleted task #" +:+ pretty z +:+ ": " +:+ title t +:+ "."),
             [entry "delete_task" (dict [("task_id", VInt z)])
                    (delete_task s uid z).1]) /\
  (run_tool uid "update_task"
     (dict [("task_id", VInt z); ("title", VStr title_)]) None st).1
  = Returns (owned_or_not_found s uid z
               (fun _ => "Updated task #" +:+ pretty z +:+ ": " +:+ title_ +:+ "."),
             [entry "update_task" (dict [("task_id", VInt z); ("title", VStr title_)])
                    (update_task s uid z (Some title_) None).1]).
Proof.
  cbv zeta. split; [apply run_tool_add_text|].
  split; [apply run_tool_complete_text|].
  split; [apply run_tool_delete_text | apply run_tool_update_text].
Qed.

Lemma run_tool_list_returns uid status st :
  exists text r,
    (run_tool uid "list_tasks" (dict [("status", VStr status)]) None st).1
    = Returns (text, [entry "list_tasks" (dict [("status", VStr status)]) r]).
Proof.
  destruct (decide (query_tasks (session st) uid (VStr status) = [])) as [E|E].
  - eexists _, _. eapply run_tool_text; [apply execute_list_tasks|].
    cbn [list_tasks fst]. rewrite E. reflexivity.
  - eexists _, _. eapply run_tool_text; [apply execute_list_tasks|].
    cbn [list_tasks fst].
    change (render "list_tasks" ?a ?r) with (render_list r).
    apply (render_list_nonempty _ E).
Qed.

Lemma some_of_returns (r : outcome (string * list ToolCall) * Run) x :
  r.1 = Returns x -> exists y, (some_of r).1 = Returns y.
Proof. unfold some_of. cbn. intros ->. now eexists. Qed.

Lemma fast_path_add_returns uid title_ st :
  exists y, (some_of (run_tool uid "add_task" (dict [("title", VStr title_)]) None st)).1
            = Returns y.
Proof. eapply some_of_returns, run_tool_add_text. Qed.

Lemma fast_path_list_returns uid status st :
  exists y, (some_of (run_tool uid "list_tasks" (dict [("status", VStr status)]) None st)).1
            = Returns y.
Proof.
  destruct (run_tool_list_returns uid status st) as (text & r & E).
  eapply some_of_returns, E.
Qed.

Lemma fast_path_complete_returns uid z st :
  exists y, (some_of (run_tool uid "complete_task" (dict [("task_id", VInt z)]) None st)).1
            = Returns y.
Proof. eapply some_of_returns, run_tool_complete_text. Qed.

Lemma fast_path_delete_returns uid z st :
  exists y, (some_of (run_tool uid "delete_task" (dict [("task_id", VInt z)]) None st)).1
            = Returns y.
Proof. eapply some_of_returns, run_tool_delete_text. Qed.

Lemma fast_path_update_returns uid z title_ st :
  exists y, (some_of (run_tool uid "update_task"
                        (dict [("task_id", VInt z); ("title", VStr title_)]) None st)).1
            = Returns y.
Proof. eapply some_of_returns, run_tool_update_text. Qed.

Lemma lstrip_length s : String.length (PyStr.lstrip s) <= String.length s.
Proof.
  induction s as [|c s IH]; cbn [PyStr.lstrip String.length]; [lia|].
  destruct (PyStr.isspace c); cbn [String.length]; lia.
Qed.

Lemma rstrip_length s : String.length (PyStr.rstrip s) <= String.length s.
Proof.
  induction s as [|c s IH]; cbn [PyStr.rstrip String.length]; [lia|].
  destruct (PyStr.rstrip s) as [|d r]; [destruct (PyStr.isspace c)|];
    cbn [String.length] in *; lia.
Qed.

Lemma strip_length s : String.length (PyStr.strip s) <= String.length s.
Proof.
  unfold PyStr.strip. pose proof (rstrip_length (PyStr.lstrip s)).
  pose proof (lstrip_length s). lia.
Qed.

Lemma lower_length s : String.length (PyStr.lower s) = String.length s.
Proof. induction s as [|c s IH]; cbn [PyStr.lower String.length]; congruence. Qed.

(** The lowered text the patterns are tried on is no longer than the
    message. *)
Lemma lowered_length s :
  String.length (PyStr.strip (PyStr.lower (PyStr.strip s))) <= String.length s.
Proof.
  pose proof (strip_length (PyStr.lower (PyStr.strip s))) as H.
  rewrite lower_length in H. pose proof (strip_length s). lia.
Qed.

Lemma past_digit_limit_le (a b : nat) (e : exception) :
  a <= b -> past_digit_limit a e -> past_digit_limit b e.
Proof. intros Hab (n & -> & Hn). exists n. split; [reflexivity | lia]. Qed.

Lemma fast_path_end_returns latest st st' x : fast_path_end latest st (Returns x, st').
Proof. left. now exists x. Qed.

Lemma fast_path_end_tool latest st (r : outcome (string * list ToolCall) * Run) :
  (exists y, (some_of r).1 = Returns y) -> fast_path_end latest st (some_of r).
Proof. intros H. now left. Qed.

Lemma fast_path_end_int latest_user st m s (e : exception) :
  group_int 1 m = Raises e ->
  (exists z, group_int 1 m = Returns z) \/
  (exists e', group_int 1 m = Raises e' /\ past_digit_limit (String.length s) e') ->
  String.length s <= String.length (content latest_user) ->
  fast_path_end (Some latest_user) st (Raises e, st).
Proof.
  intros He [[z Hz]|(e' & He' & Hl)] Hs; [congruence|].
  right. exists e, latest_user. repeat (split; [reflexivity|]).
  assert (e = e') as -> by congruence.
  now apply (past_digit_limit_le (String.length s)).
Qed.

Lemma fast_path_end_update latest_user st m s (e : exception) :
  (task_id ← group_int 1 m; raw ← group_text 2 m;
   mret (task_id, _strip_wrapping_quotes raw)) = Raises e ->
  (exists x, group_text 2 m = Returns x) /\
  ((exists z, group_int 1 m = Returns z) \/
   (exists e', group_int 1 m = Raises e' /\ past_digit_limit (String.length s) e')) ->
  String.length s <= String.length (content latest_user) ->
  fast_path_end (Some latest_user) st (Raises e, st).
Proof.
  intros He [[x Hx] Hi] Hs.
  apply (fast_path_end_int latest_user st m s e); [|exact Hi | exact Hs].
  rewrite Hx in He. unfold mbind, outcome_bind, mret, outcome_ret in He.
  destruct (group_int 1 m) as [z|e'|]; cbn [Py.bind] in He; congruence.
Qed.

(** What the groups of a match hold, put in place of the match. *)
Ltac use_pattern_groups :=
  repeat match goal with
         | H : Re.match_ true Patterns.add_task _ = Some _ |- _ =>
             apply add_task_pattern_group in H as [? ?]
         | H : Re.match_ true Patterns.remember _ = Some _ |- _ =>
             apply remember_pattern_group in H as [? ?]
         | H : Re.search false Patterns.complete_task _ = Some _ |- _ =>
             apply complete_task_pattern_group in H as [[? ?]|(? & ? & ? & ? & ?)]
         | H : Re.search false Patterns.delete_task _ = Some _ |- _ =>
             apply delete_task_pattern_group in H as [[? ?]|(? & ? & ? & ? & ?)]
         | H : Re.search true Patterns.update_task _ = Some _ |- _ =>
             apply update_task_pattern_groups
               in H as [[? ?] [[? ?]|(? & ? & ? & ? & ?)]]
         end;
  repeat match goal with
         | H : group_int ?n ?m = _, H' : context [group_int ?n ?m] |- _ =>
             rewrite H in H'
         | H : group_text ?n ?m = Returns _, H' : context [group_text ?n ?m] |- _ =>
             rewrite H in H'
         end.

(** The exit of the fast path on a group that did not give its value:
    the number past the digit limit, and no other case. *)
Ltac fast_path_raise :=
  lazymatch goal with
  | Hs : Re.search false Patterns.complete_task ?s = Some ?m,
    He : group_int 1 ?m = Raises ?e |- fast_path_end (Some ?l) _ (Raises ?e, _) =>
      apply (fast_path_end_int l _ m s e He (complete_task_pattern_group s m Hs)),
            lowered_length
  | Hs : Re.search false Patterns.delete_task ?s = Some ?m,
    He : group_int 1 ?m = Raises ?e |- fast_path_end (Some ?l) _ (Raises ?e, _) =>
      apply (fast_path_end_int l _ m s e He (delete_task_pattern_group s m Hs)),
            lowered_length
  | Hs : Re.search true Patterns.update_task ?s = Some ?m,
    He : _ = Raises ?e |- fast_path_end (Some ?l) _ (Raises ?e, _) =>
      apply (fast_path_end_update l _ m s e He (update_task_pattern_groups s m Hs)),
            strip_length
  | |- _ =>
      exfalso; simplify_eq; use_pattern_groups;
      unfold mbind, outcome_bind, mret, outcome_ret in *; cbn [Py.bind] in *;
      congruence
  end.

Lemma fast_path_ends (uid : string) (messages : list Message) (st : Run) :
  fast_path_end (latest_user_message messages) st
                (_fast_path_command uid messages st).
Proof.
  unfold _fast_path_command.
  destruct (latest_user_message messages) as [latest_user|];
    [|apply fast_path_end_returns].
  repeat case_match; subst;
    lazymatch goal with
    | |- fast_path_end _ _ (Returns _, _) => apply fast_path_end_returns
    | |- fast_path_end _ _ (some_of (run_tool _ "add_task" _ _ _)) =>
        apply fast_path_end_tool, fast_path_add_returns
    | |- fast_path_end _ _ (some_of (run_tool _ "list_tasks" _ _ _)) =>
        apply fast_path_end_tool, fast_path_list_returns
    | |- fast_path_end _ _ (some_of (run_tool _ "complete_task" _ _ _)) =>
        apply fast_path_end_tool, fast_path_complete_returns
    | |- fast_path_end _ _ (some_of (run_tool _ "delete_task" _ _ _)) =>
        apply fast_path_end_tool, fast_path_delete_returns
    | |- fast_path_end _ _ (some_of (run_tool _ "update_task" _ _ _)) =>
        apply fast_path_end_tool, fast_path_update_returns
    | |- _ => fast_path_raise
    end.
Qed.

(** X11. The fast path raises on a number past the digit limit, and on
    nothing else. For every caller, history and session,
    [_fast_path_command] either returns (it declines, or hands back a
    sentence and its audit trail), or raises the ValueError of [int] on
    a task number of more than 4300 digits written in the latest user
    message; it then has called no tool and leaves the run as it was.
    So a message of at most 4300 characters is always answered or
    declined, and no text makes a pattern, a group other than such a
    number, the call of the tool or the rendering of its result fail. *)
Theorem fast_path_raises_only_past_the_digit_limit
        (uid : string) (messages : list Message) (st : Run) :
  let r := _fast_path_command uid messages st in
  (exists x, r.1 = Returns x) \/
  (exists digits latest_user,
     r.1 = Raises (ValueError (TooManyDigits digits)) /\
     r.2 = st /\
     latest_user_message messages = Some latest_user /\
     PyStr.INT_MAX_STR_DIGITS < digits <= String.length (content latest_user)).
Proof.
  cbn zeta.
  destruct (fast_path_ends uid messages st)
    as [H|(e & latest_user & He & Hst & Hl & digits & -> & Hd)]; [now left|].
  right. now exists digits, latest_user.
Qed.

(** The limit at its edge: [int] converts a run of 4300 digits and
    refuses one of 4301, zeros included; and the fast path on a task
    number of 4301 digits. *)
Example int_of_at_the_limit :
  PyStr.int_of (String.concat "" (replicate 4300 "1"))
  = PyStr.IntValue (PyStr.digits_value 0 (String.concat "" (replicate 4300 "1"))) /\
  PyStr.int_of (String.concat "" (replicate 4301 "1")) = PyStr.ExceedsLimit 4301 /\
  PyStr.int_of (String.concat "" (replicate 4301 "0")) = PyStr.ExceedsLimit 4301.
Proof. repeat split; vm_compute; reflexivity. Qed.

Example fast_path_number_past_the_limit :
  _fast_path_command "alice"
    [Sample.user_msg ("complete task " +:+ String.concat "" (replicate 4301 "1"))]
    (start Sample.three)
  = (Raises (ValueError (TooManyDigits 4301)), start Sample.three).
Proof. vm_compute. reflexivity. Qed.

(** ** The fast path calls the catalog *)

Section FastPathCatalog.

Lemma run_tool_entry uid tool_name arguments_ st text audit :
  (some_of (run_tool uid tool_name arguments_ None st)).1
  = Returns (Some (text, audit)) ->
  exists r,
    audit = [entry tool_name arguments_ r] /\
    execute_tool (session st) uid tool_name arguments_
    = (Returns r, session (some_of (run_tool uid tool_name arguments_ None st)).2).
Proof.
  unfold some_of, run_tool, call_tool.
  destruct (execute_tool (session st) uid tool_name arguments_) as [[v|e|] s'];
    cbn; try discriminate.
  destruct (render tool_name arguments_ v) as [x| |]; cbn; try discriminate.
  intros [= <- <-]. now exists v.
Qed.

Lemma conforms_one td k v :
  (exists p, p ∈ td_properties td /\ p_name p = k /\ has_schema_type p v) ->
  (forall r, r ∈ td_required td -> r = k) ->
  conforms td (list_to_map [(k, v)]).
Proof.
  intros Hp Hr. split.
  - intros k' v' H. cbn in H. rewrite lookup_insert in H.
    destruct (decide (k = k')) as [<-|_]; [|discriminate H].
    now injection H as <-.
  - intros r Hin. rewrite (Hr r Hin). cbn. rewrite lookup_insert_eq. now eexists.
Qed.

Lemma conforms_two td k1 v1 k2 v2 :
  (exists p, p ∈ td_properties td /\ p_name p = k1 /\ has_schema_type p v1) ->
  (exists p, p ∈ td_properties td /\ p_name p = k2 /\ has_schema_type p v2) ->
  (forall r, r ∈ td_required td -> r = k1) ->
  conforms td (list_to_map [(k1, v1); (k2, v2)]).
Proof.
  intros Hp1 Hp2 Hr. split.
  - intros k' v' H. cbn in H. rewrite lookup_insert in H.
    destruct (decide (k1 = k')) as [<-|_]; [now injection H as <-|].
    rewrite lookup_insert in H.
    destruct (decide (k2 = k')) as [<-|_]; [now injection H as <-|discriminate H].
  - intros r Hin. rewrite (Hr r Hin). cbn. rewrite lookup_insert_eq. now eexists.
Qed.

Lemma string_schema_type p x :
  p_type p = "string" -> p_enum p = None -> has_schema_type p (VStr x).
Proof. intros Ht He. left. split; [exact Ht|]. exists x. now rewrite He. Qed.

Lemma integer_schema_type p z : p_type p = "integer" -> has_schema_type p (VInt z).
Proof. intros Ht. right. split; [exact Ht | now exists z]. Qed.

(** The member of the catalog at each place. *)
Tactic Notation "catalog_member" integer(n) :=
  unfold TOOL_DEFINITIONS; do n apply list_elem_of_further; apply list_elem_of_here.

Tactic Notation "property_member" integer(n) :=
  eexists; split; [do n apply list_elem_of_further; apply list_elem_of_here|];
  split; [reflexivity|].

Ltac only_required :=
  let r := fresh "r" in let H := fresh "H" in
  intros r H; cbn in H; each_member H; reflexivity.

Lemma single_title (e : ToolCall) k v :
  (forall m, arguments e = VDict m -> m = list_to_map [(k, v)]) ->
  (k = "title" -> exists t, v = VStr t /\ t <> "") ->
  title_not_empty e.
Proof.
  intros Hm Ht m v' Ha Hl. rewrite (Hm m Ha) in Hl. cbn in Hl.
  rewrite lookup_insert in Hl. destruct (decide (k = "title")) as [->|_].
  - injection Hl as <-. now apply Ht.
  - discriminate Hl.
Qed.

Variable uid : string.
Variable st : Run.

Lemma fast_path_match_add title_ :
  String.eqb title_ "" = false ->
  fast_path_match uid st
    (some_of (run_tool uid "add_task" (dict [("title", VStr title_)]) None st)).
Proof.
  intros Hne text audit H. apply run_tool_entry in H as (r & -> & He).
  eexists. split; [reflexivity|]. split.
  - eexists _, (list_to_map [("title", VStr title_)]).
    split; [catalog_member 0|]. split; [reflexivity|]. split; [reflexivity|].
    split.
    + apply conforms_one; [|only_required].
      property_member 0. now apply string_schema_type.
    + eapply execute_tool_runs_as; [|exact He]; now eexists.
  - apply (single_title _ "title" (VStr title_)).
    + intros m [= <-]. reflexivity.
    + intros _. exists title_. split; [reflexivity|].
      intros ->. discriminate Hne.
Qed.

Lemma fast_path_match_list status :
  status ∈ ["all"; "pending"; "completed"] ->
  fast_path_match uid st
    (some_of (run_tool uid "list_tasks" (dict [("status", VStr status)]) None st)).
Proof.
  intros Hs text audit H. apply run_tool_entry in H as (r & -> & He).
  eexists. split; [reflexivity|]. split.
  - eexists _, (list_to_map [("status", VStr status)]).
    split; [catalog_member 1|]. split; [reflexivity|]. split; [reflexivity|].
    split.
    + apply conforms_one; [|only_required].
      property_member 0. left. split; [reflexivity|].
      exists status. split; [reflexivity | exact Hs].
    + eapply execute_tool_runs_as; [|exact He]; now eexists.
  - apply (single_title _ "status" (VStr status)).
    + intros m [= <-]. reflexivity.
    + discriminate.
Qed.

Lemma fast_path_match_complete z :
  fast_path_match uid st
    (some_of (run_tool uid "complete_task" (dict [("task_id", VInt z)]) None st)).
Proof.
  intros text audit H. apply run_tool_entry in H as (r & -> & He).
  eexists. split; [reflexivity|]. split.
  - eexists _, (list_to_map [("task_id", VInt z)]).
    split; [catalog_member 2|]. split; [reflexivity|]. split; [reflexivity|].
    split.
    + apply conforms_one; [|only_required].
      property_member 0. now apply integer_schema_type.
    + eapply execute_tool_runs_as; [|exact He]; now eexists.
  - apply (single_title _ "task_id" (VInt z)).
    + intros m [= <-]. reflexivity.
    + discriminate.
Qed.

Lemma fast_path_match_delete z :
  fast_path_match uid st
    (some_of (run_tool uid "delete_task" (dict [("task_id", VInt z)]) None st)).
Proof.
  intros text audit H. apply run_tool_entry in H as (r & -> & He).
  eexists. split; [reflexivity|]. split.
  - eexists _, (list_to_map [("task_id", VInt z)]).
    split; [catalog_member 3|]. split; [reflexivity|]. split; [reflexivity|].
    split.
    + apply conforms_one; [|only_required].
      property_member 0. now apply integer_schema_type.
    + eapply execute_tool_runs_as; [|exact He]; now eexists.
  - apply (single_title _ "task_id" (VInt z)).
    + intros m [= <-]. reflexivity.
    + discriminate.
Qed.

Lemma fast_path_match_update z title_ :
  String.eqb title_ "" = false ->
  fast_path_match uid st
    (some_of (run_tool uid "update_task"
                (dict [("task_id", VInt z); ("title", VStr title_)]) None st)).
Proof.
  intros Hne text audit H. apply run_tool_entry in H as (r & -> & He).
  eexists. split; [reflexivity|]. split.
  - eexists _, (list_to_map [("task_id", VInt z); ("title", VStr title_)]).
    split; [catalog_member 4|]. split; [reflexivity|]. split; [reflexivity|].
    split.
    + apply conforms_two; [| |only_required].
      * property_member 0. now apply integer_schema_type.
      * property_member 1. now apply string_schema_type.
    + eapply execute_tool_runs_as; [|exact He]; now eexists.
  - intros m v [= <-] Hl. cbn in Hl.
    rewrite lookup_insert_ne, lookup_insert_eq in Hl by discriminate.
    injection Hl as <-. exists title_. split; [reflexivity|].
    intros ->. discriminate Hne.
Qed.

Lemma fast_path_match_other (o : outcome (option (string * list ToolCall))) st' :
  (forall x, o <> Returns (Some x)) -> fast_path_match uid st (o, st').
Proof. intros H text audit E. cbn in E. now destruct (H _ E). Qed.

End FastPathCatalog.


(** ** How a run ends *)

Section RunEnds.

Variable llm : list ChatMessage -> outcome AssistantMessage.
Variable json_loads : string -> option pyval.
Variable json_dumps : pyval -> string.

Local Abbreviation execute_tool_calls := (execute_tool_calls json_loads json_dumps).
Local Abbreviation agent_loop := (agent_loop llm json_loads json_dumps).
Local Abbreviation run_agent := (run_agent llm json_loads json_dumps).

(** X13. A matched command costs no request to the model. When the fast
    path matches, the run returns its sentence and audit trail as they
    are, whatever the model would have answered, and no request was sent. *)
Theorem matched_command_skips_the_model (uid : string) (messages : list Message)
        (s : Session) (x : string * list ToolCall) (st' : Run) :
  _fast_path_command uid messages (start s) = (Returns (Some x), st') ->
  run_agent uid messages (start s) = (Returns x, st') /\ asked st' = [].
Proof.
  intros H. unfold run_agent. rewrite H. split; [reflexivity|].
  pose proof (fast_path_exits uid messages (start s)) as [Ha _].
  now rewrite H in Ha.
Qed.

Lemma agent_loop_plain rounds uid messages made st am :
  llm messages = Returns am ->
  am_tool_calls am = None \/ am_tool_calls am = Some [] ->
  agent_loop (S rounds) uid messages made st
  = (Returns (match am_content am with
              | None | Some "" => NOT_SURE
              | Some text => text
              end, made),
     {| session := session st; executed := executed st;
        asked := asked st ++ [messages] |}).
Proof. intros Hl [Ht|Ht]; cbn; now rewrite Hl, Ht. Qed.

(** X14. A plain answer ends the run at once. When the fast path declines
    and the model answers the first request without tool invocations,
    the run returns the model's text (the "not sure" sentence when the
    text is missing or empty) with an empty audit trail, after that one
    request, the trimmed history behind the system prompt, and with the
    session untouched. *)
Theorem plain_answer_is_final (uid : string) (messages : list Message)
        (s : Session) (am : AssistantMessage) :
  (_fast_path_command uid messages (start s)).1 = Returns None ->
  llm (_recent_openai_messages messages) = Returns am ->
  am_tool_calls am = None \/ am_tool_calls am = Some [] ->
  let r := run_agent uid messages (start s) in
  r.1 = Returns (match am_content am with
                 | None | Some "" => NOT_SURE
                 | Some text => text
                 end, []) /\
  session r.2 = s /\
  executed r.2 = [] /\
  asked r.2 = [_recent_openai_messages messages].
Proof.
  intros Hf Hl Ht r. subst r. unfold run_agent.
  pose proof (fast_path_exits uid messages (start s)) as (_ & _ & Hn & _).
  specialize (Hn Hf).
  destruct (_fast_path_command uid messages (start s)) as [o st'].
  cbn [fst snd] in Hf, Hn. subst o st'.
  change MAX_TOOL_ITERATIONS with (S 3).
  rewrite (agent_loop_plain _ _ _ _ _ am Hl Ht). now repeat split.
Qed.

Lemma call_tool_raises uid tool_name arguments_ st e :
  (call_tool uid tool_name arguments_ st).1 = Raises e -> exists why, e = TypeError why.
Proof.
  unfold call_tool.
  pose proof (execute_tool_raises (session st) uid tool_name arguments_ e) as H.
  destruct (execute_tool (session st) uid tool_name arguments_) as [[v|e'|] s'];
    cbn in *; try discriminate.
  intros [= ->]. now apply H.
Qed.

Lemma execute_tool_calls_raises uid tool_calls :
  forall messages made st e,
    (execute_tool_calls uid tool_calls messages made st).1 = Raises e ->
    exists why, e = TypeError why.
Proof.
  induction tool_calls as [|tc rest IH]; intros messages made st e; cbn; [discriminate|].
  pose proof (call_tool_raises uid (tc_name tc)
                (parse_arguments json_loads (tc_arguments tc)) st) as Hc.
  destruct (call_tool uid (tc_name tc) _ st) as [[v|e'|] st1]; cbn in *.
  - apply IH.
  - intros [= ->]. now apply Hc.
  - discriminate.
Qed.

Lemma agent_loop_raises uid rounds :
  forall messages made st e,
    let r := agent_loop rounds uid messages made st in
    r.1 = Raises e ->
    (exists why, e = TypeError why) \/
    (exists request, last (asked r.2) = Some request /\ llm request = Raises e).
Proof.
  induction rounds as [|rounds IH]; intros messages made st e; cbn; [discriminate|].
  destruct (llm messages) as [am|e'|] eqn:El; cbn; [| |discriminate].
  - destruct (am_tool_calls am) as [[|tc tcs]|]; [discriminate| |discriminate].
    match goal with
    | |- context [execute_tool_calls uid ?tcs ?ms ?md ?st1] =>
        pose proof (execute_tool_calls_raises uid tcs ms md st1) as Hc;
        destruct (execute_tool_calls uid tcs ms md st1) as [[[ms' md']|e'|] st2]
    end; cbn in *.
    + apply IH.
    + intros [= ->]. left. now apply Hc.
    + discriminate.
  - intros [= ->]. right. exists messages. now rewrite last_snoc.
Qed.

(** X15. Where the exceptions of a run come from. A run that raises
    either raises the TypeError of a tool call the model asked for (its
    arguments did not bind), or raises what the model client raised on
    the last request sent, or raises the ValueError of the fast path on
    a task number of more than 4300 digits in the latest user message,
    before any request and any tool call, with the run as it was. The
    patterns, the other groups and the rendering of results raise
    nothing. *)
Theorem run_exceptions_have_three_sources (uid : string) (messages : list Message)
        (s : Session) (e : exception) :
  let r := run_agent uid messages (start s) in
  r.1 = Raises e ->
  (exists why, e = TypeError why) \/
  (exists request, last (asked r.2) = Some request /\ llm request = Raises e) \/
  (exists digits latest_user,
     e = ValueError (TooManyDigits digits) /\
     r.2 = start s /\
     latest_user_message messages = Some latest_user /\
     PyStr.INT_MAX_STR_DIGITS < digits <= String.length (content latest_user)).
Proof.
  cbn zeta. unfold run_agent.
  destruct (fast_path_ends uid messages (start s))
    as [[x Hx]|(e' & latest_user & He & Hst & Hl & digits & -> & Hd)].
  - destruct (_fast_path_command uid messages (start s)) as [o st'].
    cbn [fst] in Hx. subst o. destruct x as [fast|]; [discriminate|].
    intros H. apply agent_loop_raises in H as [H|H]; [now left | right; now left].
  - destruct (_fast_path_command uid messages (start s)) as [o st'].
    cbn [fst snd] in He, Hst. subst o st'. cbn [fst snd].
    intros [= <-]. right. right. now exists digits, latest_user.
Qed.

End RunEnds.

(** ** The requests of a run *)

Section Requests.

Variable llm : list ChatMessage -> outcome AssistantMessage.
Variable json_loads : string -> option pyval.
Variable json_dumps : pyval -> string.

Local Abbreviation continues := (continues llm json_dumps).

Lemma chained_one {A} (R : relation A) (a : A) : chained R [a].
Proof. intros i x y _ H. discriminate. Qed.

Lemma chained_cons {A} (R : relation A) (a : A) (l : list A) :
  (forall b, head l = Some b -> R a b) -> chained R l -> chained R (a :: l).
Proof.
  intros Hh Hl [|i] x y Hx Hy; cbn in Hx, Hy.
  - injection Hx as <-. apply Hh. now rewrite head_lookup.
  - exact (Hl i x y Hx Hy).
Qed.

(** The messages the inner loop appends: one tool message per
    invocation, in the order of the invocations. *)
Lemma execute_tool_calls_messages uid tool_calls :
  forall messages made st messages' made',
    (execute_tool_calls json_loads json_dumps uid tool_calls messages made st).1
    = Returns (messages', made') ->
    exists results,
      List.length results = List.length tool_calls /\
      messages' = messages ++ zip_with (tool_message json_dumps) tool_calls results.
Proof.
  induction tool_calls as [|tc rest IH]; intros messages made st messages' made'; cbn.
  - intros [= <- _]. exists []. now rewrite app_nil_r.
  - destruct (call_tool uid (tc_name tc) _ st) as [[v|e|] st1]; cbn;
      [|discriminate..].
    intros H. apply IH in H as (results & Hlen & ->).
    exists (v :: results). cbn. rewrite Hlen, <- app_assoc. now split.
Qed.

Lemma agent_loop_requests uid rounds :
  forall messages made st,
    let r := agent_loop llm json_loads json_dumps rounds uid messages made st in
    exists requests,
      asked r.2 = asked st ++ requests /\
      (requests = [] \/ head requests = Some messages) /\
      chained continues requests.
Proof.
  induction rounds as [|rounds IH]; intros messages made st; cbn.
  - exists []. rewrite app_nil_r. split; [reflexivity|]. split; [now left|].
    intros i a b H. discriminate.
  - destruct (llm messages) as [am|e|] eqn:El;
      [|exists [messages]; split; [reflexivity|]; split;
        [now right | apply chained_one]..].
    destruct (am_tool_calls am) as [[|tc tcs]|] eqn:Et.
    1,3: exists [messages]; split; [reflexivity|]; split;
         [now right | apply chained_one].
    match goal with
    | |- context [execute_tool_calls _ _ uid ?tcs ?ms ?md ?st1] =>
        pose proof (execute_tool_calls_log json_loads json_dumps uid tcs ms md st1)
          as [Ha _];
        pose proof (execute_tool_calls_messages uid tcs ms md st1) as Hm;
        destruct (execute_tool_calls json_loads json_dumps uid tcs ms md st1)
          as [[[ms' md']|e|] st2]
    end; cbn [fst snd asked] in Ha, Hm |- *.
    2,3: exists [messages]; split; [now rewrite Ha|]; split;
         [now right | apply chained_one].
    destruct (IH ms' md' st2) as (requests & Hr & Hh & Hc).
    exists (messages :: requests). split; [|split; [now right|]].
    + rewrite Hr, Ha. now rewrite <- app_assoc.
    + apply chained_cons; [|exact Hc].
      intros b Hb. destruct Hh as [->|Hh]; [discriminate|].
      rewrite Hh in Hb. injection Hb as <-.
      destruct (Hm ms' md' eq_refl) as (results & Hlen & ->).
      exists am, (tc :: tcs), results.
      split; [exact El|]. split; [exact Et|]. split; [discriminate|].
      split; [exact Hlen|]. unfold next_request. now rewrite <- app_assoc.
Qed.


End Requests.

(** ** The chat endpoint *)

Section ChatEndpoint.

Variable llm : list ChatMessage -> outcome AssistantMessage.
Variable json_loads : string -> option pyval.
Variable json_dumps : pyval -> string.

Local Abbreviation endpoint := (chat llm json_loads json_dumps).
Local Abbreviation agent := (run_agent llm json_loads json_dumps).

Lemma next_key_fresh {A} (m : gmap Z A) : m !! next_key m = None.
Proof.
  destruct (m !! next_key m) as [x|] eqn:E; [|reflexivity].
  assert (next_key m ∈ (fst <$> map_to_list m)) as Hin.
  { apply list_elem_of_fmap. exists (next_key m, x). split; [reflexivity|].
    now apply elem_of_map_to_list. }
  apply le_foldr_max in Hin. unfold next_key in Hin at 1. lia.
Qed.

Lemma store_message_spec db uid cid role_ content_ :
  store_message db uid cid role_ content_
  = {| store := (utcnow (store db)).2;
       conversations := conversations db;
       chat_messages :=
         <[next_key (chat_messages db) := stored_message db uid cid role_ content_]>
           (chat_messages db) |}.
Proof. reflexivity. Qed.

(** What opening a conversation leaves: the messages and the tasks as
    they were, the conversation under the key it returns, owned by the
    caller, and every other conversation as it was. *)
Lemma open_conversation_spec db uid request cid db1 :
  open_conversation db uid request = Some (cid, db1) ->
  chat_messages db1 = chat_messages db /\
  tasks (store db1) = tasks (store db) /\
  (exists c, conversations db1 !! cid = Some c /\ conv_user_id c = uid) /\
  (forall k, k <> cid -> conversations db1 !! k = conversations db !! k) /\
  (forall c0, conversations db !! cid = Some c0 -> conv_user_id c0 = uid).
Proof.
  assert (forall p, new_conversation db uid = p ->
            chat_messages p.2 = chat_messages db /\
            tasks (store p.2) = tasks (store db) /\
            (exists c, conversations p.2 !! p.1 = Some c /\ conv_user_id c = uid) /\
            (forall k, k <> p.1 -> conversations p.2 !! k = conversations db !! k) /\
            (forall c0, conversations db !! p.1 = Some c0 -> conv_user_id c0 = uid))
    as Hnew.
  { intros p <-. cbn. split; [reflexivity|]. split; [reflexivity|]. split; [|split].
    - eexists. split; [apply lookup_insert_eq | reflexivity].
    - intros k Hk. now apply lookup_insert_ne.
    - intros c0 H. now rewrite next_key_fresh in H. }
  unfold open_conversation.
  destruct (req_conversation_id request) as [c|];
    [|intros E; apply (Hnew (cid, db1)); congruence].
  destruct (negb (c =? 0)%Z); [|intros E; apply (Hnew (cid, db1)); congruence].
  destruct (conversations db !! c) as [conv|] eqn:Ec; [|discriminate].
  destruct (String.eqb_spec (conv_user_id conv) uid) as [Hu|Hu]; [|discriminate].
  intros [= <- <-]. cbn. split; [reflexivity|]. split; [reflexivity|].
  split; [|split].
  - eexists. split; [apply lookup_insert_eq | exact Hu].
  - intros k Hk. now apply lookup_insert_ne.
  - intros c0 H. congruence.
Qed.

(** The endpoint once the conversation is open: the user's message is
    stored, the agent runs on the conversation's history, and what is
    stored and answered follows from how the run ended. *)
Lemma chat_run uid request db cid db1 :
  open_conversation db uid request = Some (cid, db1) ->
  let db2 := store_message db1 uid cid "user" (req_message request) in
  let r := agent uid (conversation_history db2 cid) (start (store db2)) in
  endpoint uid request db uid
  = match r.1 with
    | Returns (text, calls) =>
        (if forallb valid_tool_call calls
         then Responds {| resp_conversation_id := cid; resp_response := text;
                          resp_tool_calls := calls |}
         else ValidationError,
         store_message (with_store db2 (session r.2)) uid cid "assistant" text)
    | Raises e => (Fails e, with_store db2 (session r.2))
    | Unmodelled => (ChatUnmodelled, with_store db2 (session r.2))
    end.
Proof.
  intros Ho db2 r. unfold chat. rewrite String.eqb_refl, Ho. cbn [negb].
  fold db2. fold r. destruct r as [[[text calls]|e|] st]; cbn [fst snd];
    [now destruct (forallb valid_tool_call calls) | reflexivity | reflexivity].
Qed.

Lemma chat_authorized uid request db auth o db' :
  endpoint uid request db auth = (o, db') ->
  (forall status detail, o <> HTTPException status detail) ->
  auth = uid /\ exists cid db1, open_conversation db uid request = Some (cid, db1).
Proof.
  unfold chat. destruct (String.eqb_spec uid auth) as [->|Hne]; cbn [negb].
  - destruct (open_conversation db auth request) as [[cid db1]|].
    + intros _ _. split; [reflexivity | now eexists _, _].
    + intros [= <- _] H. exfalso. exact (H _ _ eq_refl).
  - intros [= <- _] H. exfalso. exact (H _ _ eq_refl).
Qed.

(** X17. When the endpoint refuses. It raises the 403 exactly when the path's
    user is not the authenticated one, and the 404 exactly when the
    request names a conversation (an id other than 0) that does not
    exist or belongs to someone else; these are its only HTTP errors,
    and a refused request leaves the database as it was: no
    conversation, no message, no task is written. *)
Theorem chat_refusals (uid auth_user_id : string) (request : ChatRequest)
        (db : Database) :
  let r := endpoint uid request db auth_user_id in
  let unknown cid :=
    cid <> 0%Z /\ forall c, conversations db !! cid = Some c -> conv_user_id c <> uid in
  (r.1 = HTTPException 403 "Not authorized to access this user's chat"
   <-> uid <> auth_user_id) /\
  (r.1 = HTTPException 404 "Conversation not found"
   <-> uid = auth_user_id /\
       exists cid, req_conversation_id request = Some cid /\ unknown cid) /\
  (forall status detail,
     r.1 = HTTPException status detail ->
     r.2 = db /\
     ((status, detail) = (403%Z, "Not authorized to access this user's chat") \/
      (status, detail) = (404%Z, "Conversation not found"))).
Proof.
  cbn zeta. unfold chat.
  destruct (String.eqb_spec uid auth_user_id) as [<-|Hne]; cbn [negb].
  2:{ cbn [fst snd]. split; [tauto|]. split; [split; [discriminate | tauto]|].
      intros status detail [= <- <-]. split; [reflexivity | now left]. }
  unfold open_conversation.
  destruct (req_conversation_id request) as [cid|] eqn:Er.
  2:{ destruct (new_conversation db uid) as [cid db1].
      destruct (agent uid _ _) as [[[text calls]|e|] st]; cbn [fst snd];
        try destruct (forallb valid_tool_call calls);
        (split; [split; [discriminate | tauto]|]);
        (split; [split; [discriminate | now intros (_ & ? & ? & _)]|]);
        discriminate. }
  destruct (Z.eqb_spec cid 0) as [->|Hz]; cbn [negb].
  { destruct (new_conversation db uid) as [cid db1].
    destruct (agent uid _ _) as [[[text calls]|e|] st]; cbn [fst snd];
      try destruct (forallb valid_tool_call calls);
      (split; [split; [discriminate | tauto]|]);
      (split; [split; [discriminate | intros (_ & ? & [= <-] & ? & _); tauto]|]);
      discriminate. }
  destruct (conversations db !! cid) as [conv|] eqn:Ec.
  2:{ cbn [fst snd]. split; [split; [discriminate | tauto]|].
      split; [split; [|reflexivity]|].
      - intros _. split; [reflexivity|]. exists cid.
        split; [reflexivity|]. split; [exact Hz | intros c Hc; congruence].
      - intros status detail [= <- <-]. split; [reflexivity | now right]. }
  destruct (String.eqb_spec (conv_user_id conv) uid) as [Hu|Hu].
  - destruct (db_utcnow db) as [now db1].
    destruct (agent uid _ _) as [[[text calls]|e|] st]; cbn [fst snd];
      try destruct (forallb valid_tool_call calls);
      (split; [split; [discriminate | tauto]|]);
      (split; [split; [discriminate |
                       intros (_ & ? & [= <-] & _ & Hc); now destruct (Hc _ Ec)]|]);
      discriminate.
  - cbn [fst snd]. split; [split; [discriminate | tauto]|].
    split; [split; [|reflexivity]|].
    + intros _. split; [reflexivity|]. exists cid.
      split; [reflexivity|]. split; [exact Hz|]. intros c Hc. congruence.
    + intros status detail [= <- <-]. split; [reflexivity | now right].
Qed.

(** X18. A request that is answered leaves the exchange in the dialogue.
    When the endpoint responds, the table of messages has exactly two
    new rows under two new keys: the request's message with role
    "user" and the response's text with role "assistant", both of the
    caller and of the conversation the response names, which exists and
    is the caller's. No other message is added, changed or removed. *)
Theorem chat_stores_the_exchange (uid auth_user_id : string) (request : ChatRequest)
        (db db' : Database) (r : ChatResponse) :
  endpoint uid request db auth_user_id = (Responds r, db') ->
  exists k1 m1 k2 m2,
    chat_messages db !! k1 = None /\ chat_messages db !! k2 = None /\ k1 <> k2 /\
    chat_messages db' = <[k2 := m2]> (<[k1 := m1]> (chat_messages db)) /\
    columns m1 = (uid, resp_conversation_id r, "user", req_message request) /\
    columns m2 = (uid, resp_conversation_id r, "assistant", resp_response r) /\
    exists c, conversations db' !! resp_conversation_id r = Some c /\
              conv_user_id c = uid.
Proof.
  intros H.
  destruct (chat_authorized _ _ _ _ _ _ H) as (-> & cid & db1 & Ho); [discriminate|].
  rewrite (chat_run _ _ _ _ _ Ho) in H.
  destruct (open_conversation_spec _ _ _ _ _ Ho) as (Hm & _ & (c & Hc & Hu) & _).
  destruct (agent uid _ _) as [[[text calls]|e|] st]; cbn [fst snd] in H;
    [|discriminate..].
  destruct (forallb valid_tool_call calls); [|discriminate].
  injection H as <- <-. cbn [resp_conversation_id resp_response].
  rewrite !store_message_spec. cbn [chat_messages conversations with_store].
  rewrite Hm.
  eexists _, _, _, _.
  split; [apply next_key_fresh|].
  split; [|split; [|split; [reflexivity|]]].
  - pose proof (next_key_fresh
                  (<[next_key (chat_messages db) :=
                       stored_message db1 uid cid "user" (req_message request)]>
                     (chat_messages db))) as Hf.
    apply lookup_insert_None in Hf as [Hf _]. exact Hf.
  - pose proof (next_key_fresh
                  (<[next_key (chat_messages db) :=
                       stored_message db1 uid cid "user" (req_message request)]>
                     (chat_messages db))) as Hf.
    apply lookup_insert_None in Hf as [_ Hf]. exact Hf.
  - split; [reflexivity|]. split; [reflexivity|]. now exists c.
Qed.

(** X19. A run that raises leaves the question without an answer. When the
    agent's run ends in an exception, the request's message is already
    stored: the table of messages has exactly one new row, under a new
    key, with role "user", in a conversation of the caller; no
    assistant message is written. *)
Theorem chat_failure_keeps_the_question (uid auth_user_id : string)
        (request : ChatRequest) (db db' : Database) (e : exception) :
  endpoint uid request db auth_user_id = (Fails e, db') ->
  exists k m,
    chat_messages db !! k = None /\
    chat_messages db' = <[k := m]> (chat_messages db) /\
    (msg_user_id m, role m, content m) = (uid, "user", req_message request) /\
    exists c, conversations db' !! conversation_id m = Some c /\ conv_user_id c = uid.
Proof.
  intros H.
  destruct (chat_authorized _ _ _ _ _ _ H) as (-> & cid & db1 & Ho); [discriminate|].
  rewrite (chat_run _ _ _ _ _ Ho) in H.
  destruct (open_conversation_spec _ _ _ _ _ Ho) as (Hm & _ & (c & Hc & Hu) & _).
  destruct (agent uid _ _) as [[[text calls]|e'|] st]; cbn [fst snd] in H;
    [destruct (forallb valid_tool_call calls); discriminate| |discriminate].
  injection H as <- <-.
  rewrite !store_message_spec. cbn [chat_messages conversations with_store].
  rewrite Hm. eexists _, _.
  split; [apply next_key_fresh|]. split; [reflexivity|]. split; [reflexivity|].
  now exists c.
Qed.

(** Writing a row of [uid] over none or over a row of [uid] changes no
    row of another owner. *)
Lemma insert_own_row {A} (owner : A -> string) (uid : string) (M : gmap Z A)
      (k : Z) (v : A) :
  owner v = uid ->
  (forall x, M !! k = Some x -> owner x = uid) ->
  forall k0 x, owner x <> uid -> <[k := v]> M !! k0 = Some x <-> M !! k0 = Some x.
Proof.
  intros Hv Hold k0 x Hx. destruct (decide (k0 = k)) as [->|Hk].
  - rewrite lookup_insert_eq. split.
    + intros [= <-]. contradiction.
    + intros H. now apply Hold in H.
  - now rewrite lookup_insert_ne.
Qed.

Lemma store_message_foreign db uid cid role_ content_ k m :
  msg_user_id m <> uid ->
  chat_messages (store_message db uid cid role_ content_) !! k = Some m
  <-> chat_messages db !! k = Some m.
Proof.
  intros Hm. rewrite store_message_spec. cbn [chat_messages].
  apply (insert_own_row msg_user_id uid); [reflexivity| |exact Hm].
  intros x Hx. now rewrite next_key_fresh in Hx.
Qed.

Lemma agent_others_untouched uid messages s0 s :
  others_untouched uid s0 s ->
  others_untouched uid s0 (session (agent uid messages (start s)).2).
Proof.
  intros H.
  apply (run_agent_keeps llm json_loads json_dumps uid (others_untouched uid s0));
    [|exact H].
  intros s1 tool_name arguments_ H1.
  eapply others_untouched_trans; [exact H1 | apply execute_tool_others_untouched].
Qed.

(** X20. The endpoint writes for the caller only. However a request ends
    (a response, a refusal, an exception of the run), the tasks, the
    messages and the conversations of every other user are the same
    after it as before: none created, changed or deleted. *)
Theorem chat_touches_only_the_caller (uid auth_user_id : string)
        (request : ChatRequest) (db : Database) :
  let db' := (endpoint uid request db auth_user_id).2 in
  others_untouched uid (store db) (store db') /\
  dialogue_of_others_untouched uid db db'.
Proof.
  cbn zeta.
  assert (others_untouched uid (store db) (store db) /\
          dialogue_of_others_untouched uid db db) as Hsame
      by (split; [apply others_untouched_refl | now split]).
  destruct (decide (uid = auth_user_id)) as [<-|Hne].
  2:{ unfold chat. destruct (String.eqb_spec uid auth_user_id); [contradiction|].
      exact Hsame. }
  destruct (open_conversation db uid request) as [[cid db1]|] eqn:Ho.
  2:{ unfold chat. rewrite String.eqb_refl, Ho. exact Hsame. }
  rewrite (chat_run _ _ _ _ _ Ho).
  destruct (open_conversation_spec _ _ _ _ _ Ho)
    as (Hm & Ht & (c & Hc & Hu) & Hother & Hold).
  set (db2 := store_message db1 uid cid "user" (req_message request)).
  assert (others_untouched uid (store db) (store db2)) as H2
      by (intros k t _; cbn; now rewrite Ht).
  pose proof (agent_others_untouched uid (conversation_history db2 cid) _ _ H2) as Hr.
  assert (forall k m, msg_user_id m <> uid ->
            chat_messages db2 !! k = Some m <-> chat_messages db !! k = Some m) as Hmsg.
  { intros k m Hf. unfold db2. rewrite store_message_foreign by exact Hf.
    now rewrite Hm. }
  assert (forall k c0, conv_user_id c0 <> uid ->
            conversations db1 !! k = Some c0 <-> conversations db !! k = Some c0) as Hconv.
  { intros k c0 Hf. destruct (decide (k = cid)) as [->|Hk].
    - split.
      + intros H. rewrite Hc in H. injection H as <-. contradiction.
      + intros H. now apply Hold in H.
    - now rewrite Hother. }
  destruct (agent uid _ _) as [[[text calls]|e|] st]; cbn [fst snd] in Hr |- *.
  - split; [exact Hr|]. split; [|exact Hconv].
    intros k m Hf. rewrite store_message_foreign by exact Hf. now apply Hmsg.
  - split; [exact Hr|]. now split.
  - split; [exact Hr|]. now split.
Qed.

Lemma NoDup_only {A} (a : A) (l : list A) :
  NoDup l -> a ∈ l -> (forall x, x ∈ l -> x = a) -> l = [a].
Proof.
  intros Hd Ha Hall. destruct l as [|x l]; [inversion Ha|].
  assert (x = a) as -> by (apply Hall; left).
  f_equal. destruct l as [|y l]; [reflexivity|].
  assert (y = a) as -> by (apply Hall; right; left).
  apply NoDup_cons in Hd as [Hd _]. exfalso. apply Hd. left.
Qed.

(** The history of a conversation none of the stored messages belongs
    to, once a first message is stored in it. *)
Lemma history_of_first_message db uid cid role_ content_ :
  (forall k m, chat_messages db !! k = Some m -> conversation_id m <> cid) ->
  conversation_history (store_message db uid cid role_ content_) cid
  = [stored_message db uid cid role_ content_].
Proof.
  intros Hnone. unfold conversation_history. rewrite store_message_spec.
  cbn [chat_messages].
  set (k := next_key (chat_messages db)).
  set (m := stored_message db uid cid role_ content_).
  rewrite (NoDup_only (k, m)
             (List.filter (fun row : Z * Message => (conversation_id row.2 =? cid)%Z)
                          (map_to_list (<[k := m]> (chat_messages db))))).
  - reflexivity.
  - apply NoDup_ListNoDup, List.NoDup_filter, NoDup_ListNoDup, NoDup_map_to_list.
  - apply list_elem_of_In, List.filter_In. split.
    + apply list_elem_of_In, elem_of_map_to_list, lookup_insert_eq.
    + cbn. apply Z.eqb_refl.
  - intros [k0 m0] Hin. apply list_elem_of_In, List.filter_In in Hin as [Hin Hc].
    apply list_elem_of_In, elem_of_map_to_list in Hin. cbn in Hc.
    apply Z.eqb_eq in Hc.
    apply lookup_insert_Some in Hin as [[<- <-]|[_ Hin]]; [reflexivity|].
    now apply Hnone in Hin.
Qed.

(** X21. A request without a conversation id starts from a blank history.
    On a database whose messages all belong to existing conversations,
    a request that names no conversation (or the id 0) is answered under
    a conversation id not used before, and the agent runs on one
    message only, the request's: nothing said in other conversations
    reaches the agent. The tasks the run starts from are the stored
    ones. *)
Theorem chat_new_conversation_starts_blank (uid : string) (request : ChatRequest)
        (db : Database) :
  references_ok db ->
  req_conversation_id request = None \/ req_conversation_id request = Some 0%Z ->
  exists cid m s,
    conversations db !! cid = None /\
    columns m = (uid, cid, "user", req_message request) /\
    tasks s = tasks (store db) /\
    (endpoint uid request db uid).1 = answers cid (agent uid [m] (start s)).1.
Proof.
  intros Hrefs Hreq.
  assert (open_conversation db uid request = Some (new_conversation db uid)) as Ho
      by (unfold open_conversation; now destruct Hreq as [-> | ->]).
  destruct (new_conversation db uid) as [cid db1] eqn:En.
  assert (cid = next_key (conversations db) /\ chat_messages db1 = chat_messages db /\
          tasks (store db1) = tasks (store db)) as (-> & Hm & Ht)
      by (injection En as <- <-; now repeat split).
  rewrite (chat_run _ _ _ _ _ Ho).
  rewrite history_of_first_message.
  2:{ intros k m Hk Hc. rewrite Hm in Hk. apply Hrefs in Hk as [c Hk].
      rewrite Hc, next_key_fresh in Hk. discriminate. }
  exists (next_key (conversations db)),
         (stored_message db1 uid (next_key (conversations db)) "user"
            (req_message request)),
         (store (store_message db1 uid (next_key (conversations db)) "user"
                   (req_message request))).
  split; [apply next_key_fresh|]. split; [reflexivity|]. split; [exact Ht|].
  unfold answers. now destruct (agent uid _ _) as [[[text calls]|e|] st].
Qed.

End ChatEndpoint.

(** ** The history of a conversation *)

Global Instance older_first_total : Total older_first.
Proof.
  intros a b. unfold older_first.
  destruct (dt_leb (msg_created_at a.2) (msg_created_at b.2)) eqn:E; [now left|right].
  unfold dt_leb in *. rewrite dt_compare_antisym.
  now destruct (dt_compare (msg_created_at a.2) (msg_created_at b.2)).
Qed.

Global Instance older_first_trans : Transitive older_first.
Proof.
  intros a b c. unfold older_first. rewrite !dt_leb_le_cmp.
  intros H1 H2. eapply dt_compare_trans; eassumption.
Qed.

(** The rows behind [conversation_history]. *)
Lemma conversation_rows (db : Database) (cid : Z) :
  exists rows,
    conversation_history db cid = rows.*2 /\
    NoDup rows /\
    (forall k m, (k, m) ∈ rows <->
                 chat_messages db !! k = Some m /\ conversation_id m = cid) /\
    StronglySorted older_first rows.
Proof.
  eexists. split; [reflexivity|]. split; [|split].
  - rewrite merge_sort_Permutation.
    apply NoDup_ListNoDup, List.NoDup_filter, NoDup_ListNoDup, NoDup_map_to_list.
  - intros k m. rewrite merge_sort_Permutation.
    rewrite list_elem_of_In, filter_In, <- list_elem_of_In, elem_of_map_to_list.
    cbn. now rewrite Z.eqb_eq.
  - apply StronglySorted_merge_sort; apply _.
Qed.

Lemma rows_keys_NoDup {A} (M : gmap Z A) (rows : list (Z * A)) :
  NoDup rows -> (forall k x, (k, x) ∈ rows -> M !! k = Some x) -> NoDup rows.*1.
Proof.
  intros Hd Hin. apply NoDup_fmap_2_strong; [|exact Hd].
  intros [k1 x1] [k2 x2] H1 H2 E. cbn in E. subst k2.
  apply Hin in H1, H2. congruence.
Qed.

Lemma StronglySorted_lookup {A} (R : relation A) (l : list A) :
  StronglySorted R l ->
  forall i j a b, i < j -> l !! i = Some a -> l !! j = Some b -> R a b.
Proof.
  induction 1 as [|x l Hs IH Hall]; intros i j a b Hij Ha Hb; [discriminate|].
  destruct j as [|j]; [lia|]. cbn in Hb. destruct i as [|i]; cbn in Ha.
  - injection Ha as <-. rewrite Forall_forall in Hall.
    apply Hall. now apply list_elem_of_lookup_2 in Hb.
  - apply (IH i j); [lia | exact Ha | exact Hb].
Qed.

(** X22. The history of a conversation is its messages, oldest first.
    [conversation_history] returns the stored messages whose
    conversation is the given one, each row once and no other row, in
    an order in which no message comes after one created later. *)
Theorem conversation_history_exact_and_ordered (db : Database) (cid : Z) :
  exists rows,
    conversation_history db cid = rows.*2 /\
    NoDup rows.*1 /\
    (forall k m, (k, m) ∈ rows <->
                 chat_messages db !! k = Some m /\ conversation_id m = cid) /\
    (forall i j a b, i <= j -> rows.*2 !! i = Some a -> rows.*2 !! j = Some b ->
                     dt_leb (msg_created_at a) (msg_created_at b) = true).
Proof.
  destruct (conversation_rows db cid) as (rows & E & Hd & Hin & Hs).
  exists rows. split; [exact E|]. split; [|split; [exact Hin|]].
  - apply (rows_keys_NoDup (chat_messages db)); [exact Hd|].
    intros k x H. now apply Hin in H.
  - intros i j a b Hij Ha Hb.
    rewrite list_lookup_fmap in Ha, Hb.
    destruct (rows !! i) as [ra|] eqn:Ea; [|discriminate].
    destruct (rows !! j) as [rb|] eqn:Eb; [|discriminate].
    cbn in Ha, Hb. injection Ha as <-. injection Hb as <-.
    destruct (decide (i = j)) as [->|Hne].
    + assert (ra = rb) as -> by congruence.
      destruct (older_first_total rb rb) as [H|H]; exact H.
    + apply (StronglySorted_lookup older_first rows Hs i j ra rb); [lia|..];
        assumption.
Qed.

Lemma last_of_sorted (rows : list (Z * Message)) (x : Z * Message) :
  StronglySorted older_first rows -> NoDup rows -> x ∈ rows ->
  (forall y, y ∈ rows -> y <> x -> sent_before y.2 x.2) ->
  exists earlier, rows = earlier ++ [x].
Proof.
  intros Hs Hd Hx Hlt. apply list_elem_of_split in Hx as (l1 & l2 & ->).
  exists l1. f_equal. f_equal. destruct l2 as [|y l2]; [reflexivity|]. exfalso.
  apply NoDup_app in Hd as (_ & _ & Hd). apply NoDup_cons in Hd as [Hxy _].
  assert (y <> x) as Hne by (intros ->; apply Hxy; left).
  specialize (Hlt y). rewrite !elem_of_app, !elem_of_cons in Hlt.
  specialize (Hlt ltac:(tauto) Hne).
  apply StronglySorted_app_1_r, StronglySorted_inv in Hs as [_ Hall].
  apply Forall_cons in Hall as [Hall _].
  unfold older_first, dt_leb in Hall. unfold sent_before in Hlt.
  rewrite dt_compare_antisym, Hlt in Hall. discriminate.
Qed.

(** X23. The message just stored closes the history. When every message of
    the conversation was created strictly before the clock reading that
    [store_message] takes, the history read back is the earlier
    history, in some order of its ties, followed by the new message: the
    message the agent takes for the latest one is the one just sent. *)
Theorem stored_message_is_latest (db : Database) (uid : string) (cid : Z)
        (role_ content_ : string) :
  (forall k m, chat_messages db !! k = Some m -> conversation_id m = cid ->
               sent_before m (stored_message db uid cid role_ content_)) ->
  exists earlier,
    conversation_history (store_message db uid cid role_ content_) cid
    = earlier ++ [stored_message db uid cid role_ content_] /\
    earlier ≡ₚ conversation_history db cid.
Proof.
  intros Hold.
  set (k := next_key (chat_messages db)).
  set (m := stored_message db uid cid role_ content_) in *.
  destruct (conversation_rows (store_message db uid cid role_ content_) cid)
    as (rows' & E' & Hd' & Hin' & Hs').
  destruct (conversation_rows db cid) as (rows & E & Hd & Hin & _).
  assert (forall k0 m0, (k0, m0) ∈ rows' <->
                        (k0, m0) = (k, m) \/ (k0, m0) ∈ rows) as Hrows.
  { intros k0 m0. rewrite Hin', Hin, store_message_spec. cbn [chat_messages].
    fold k m. rewrite lookup_insert_Some. split.
    - intros [[[<- <-]|[Hk Hl]] Hc]; [now left | now right].
    - intros [[= -> ->]|[Hl Hc]].
      + split; [now left | reflexivity].
      + split; [|exact Hc]. right. split; [|exact Hl].
        intros <-. unfold k in Hl. now rewrite next_key_fresh in Hl. }
  assert ((k, m) ∉ rows) as Hfresh.
  { intros H. apply Hin in H as [H _]. unfold k in H.
    now rewrite next_key_fresh in H. }
  destruct (last_of_sorted rows' (k, m) Hs' Hd') as [earlier Ee].
  - apply Hrows. now left.
  - intros [k0 m0] Hy Hne. apply Hrows in Hy as [Hy|Hy]; [contradiction|].
    apply Hin in Hy as [Hl Hc]. exact (Hold k0 m0 Hl Hc).
  - exists earlier.*2. rewrite E', Ee, fmap_app. split; [reflexivity|].
    rewrite E. apply fmap_Permutation.
    rewrite Ee in Hd'. apply NoDup_app in Hd' as (Hde & Hdisj & _).
    apply NoDup_Permutation; [exact Hde | exact Hd|].
    intros [k0 m0]. split.
    + intros H. assert ((k0, m0) ∈ rows') as H' by (rewrite Ee, elem_of_app; now left).
      apply Hrows in H' as [H'|H']; [|exact H'].
      exfalso. apply (Hdisj _ H). rewrite H'. left.
    + intros H. assert ((k0, m0) ∈ rows') as H' by (apply Hrows; now right).
      rewrite Ee, elem_of_app, list_elem_of_singleton in H'.
      destruct H' as [H'|H']; [exact H'|]. congruence.
Qed.

(** ** The agent and the endpoint on sample inputs *)


Lemma matched_command_skips_the_model_witness :
  exists x st',
    run_agent Sample.is_down Sample.json_loads Sample.json_dumps
      "alice" [Sample.user_msg "show my tasks"] (start Sample.three)
    = (Returns x, st') /\ asked st' = [].
Proof.
  eexists _, _.
  apply (matched_command_skips_the_model Sample.is_down Sample.json_loads
           Sample.json_dumps "alice" [Sample.user_msg "show my tasks"]
           Sample.three).
  vm_compute. reflexivity.
Defined.

Lemma plain_answer_is_final_witness :
  let r := run_agent Sample.says_hello Sample.json_loads Sample.json_dumps
             "alice" [Sample.user_msg "hello"] (start Sample.three) in
  r.1 = Returns ("Hello!", []) /\
  session r.2 = Sample.three /\
  executed r.2 = [] /\
  asked r.2 = [_recent_openai_messages [Sample.user_msg "hello"]].
Proof.
  apply (plain_answer_is_final Sample.says_hello Sample.json_loads
           Sample.json_dumps "alice" [Sample.user_msg "hello"] Sample.three
           {| am_content := Some "Hello!"; am_tool_calls := None |}).
  - vm_compute. reflexivity.
  - reflexivity.
  - left. reflexivity.
Defined.

Lemma run_exceptions_have_three_sources_witness :
  let r := run_agent Sample.is_down Sample.json_loads Sample.json_dumps
             "alice" [Sample.user_msg "hello"] (start Sample.three) in
  exists request,
    last (asked r.2) = Some request /\
    Sample.is_down request = Raises (APIError "connection refused").
Proof.
  intros r.
  destruct (run_exceptions_have_three_sources Sample.is_down Sample.json_loads
              Sample.json_dumps "alice" [Sample.user_msg "hello"] Sample.three
              (APIError "connection refused"))
    as [[why H]|[H|(digits & latest_user & H & _)]].
  - vm_compute. reflexivity.
  - discriminate H.
  - exact H.
  - discriminate H.
Defined.

Lemma chat_stores_the_exchange_witness :
  let request := {| req_conversation_id := None; req_message := "hello" |} in
  exists r db',
    chat Sample.says_hello Sample.json_loads Sample.json_dumps
      "alice" request Sample.db0 "alice" = (Responds r, db') /\
    exists k1 m1 k2 m2,
      chat_messages Sample.db0 !! k1 = None /\
      chat_messages Sample.db0 !! k2 = None /\ k1 <> k2 /\
      chat_messages db' = <[k2 := m2]> (<[k1 := m1]> (chat_messages Sample.db0)) /\
      columns m1 = ("alice", resp_conversation_id r, "user", "hello") /\
      columns m2 = ("alice", resp_conversation_id r, "assistant", resp_response r) /\
      exists c, conversations db' !! resp_conversation_id r = Some c /\
                conv_user_id c = "alice".
Proof.
  intros request.
  assert (exists r db',
            chat Sample.says_hello Sample.json_loads Sample.json_dumps
              "alice" request Sample.db0 "alice" = (Responds r, db'))
    as (r & db' & E) by (eexists _, _; vm_compute; reflexivity).
  exists r, db'. split; [exact E|].
  exact (chat_stores_the_exchange Sample.says_hello Sample.json_loads
           Sample.json_dumps "alice" "alice" request Sample.db0 db' r E).
Defined.

Lemma chat_failure_keeps_the_question_witness :
  let request := {| req_conversation_id := None; req_message := "hello" |} in
  exists db',
    chat Sample.is_down Sample.json_loads Sample.json_dumps
      "alice" request Sample.db0 "alice"
    = (Fails (APIError "connection refused"), db') /\
    exists k m,
      chat_messages Sample.db0 !! k = None /\
      chat_messages db' = <[k := m]> (chat_messages Sample.db0) /\
      (msg_user_id m, role m, content m) = ("alice", "user", "hello") /\
      exists c, conversations db' !! conversation_id m = Some c /\
                conv_user_id c = "alice".
Proof.
  intros request.
  assert (exists db',
            chat Sample.is_down Sample.json_loads Sample.json_dumps
              "alice" request Sample.db0 "alice"
            = (Fails (APIError "connection refused"), db'))
    as (db' & E) by (eexists; vm_compute; reflexivity).
  exists db'. split; [exact E|].
  exact (chat_failure_keeps_the_question Sample.is_down Sample.json_loads
           Sample.json_dumps "alice" "alice" request Sample.db0 db' _ E).
Defined.

Lemma chat_new_conversation_starts_blank_witness :
  let request := {| req_conversation_id := None; req_message := "show my tasks" |} in
  exists cid m s,
    conversations Sample.talked !! cid = None /\
    columns m = ("alice", cid, "user", "show my tasks") /\
    tasks s = tasks (store Sample.talked) /\
    (chat Sample.says_hello Sample.json_loads Sample.json_dumps
       "alice" request Sample.talked "alice").1
    = answers cid (run_agent Sample.says_hello Sample.json_loads Sample.json_dumps
                     "alice" [m] (start s)).1.
Proof.
  intros request.
  apply (chat_new_conversation_starts_blank Sample.says_hello Sample.json_loads
           Sample.json_dumps "alice" request Sample.talked).
  - intros k m Hk.
    assert (k ∈ (map_to_list (chat_messages Sample.talked)).*1) as Hin.
    { apply list_elem_of_fmap. exists (k, m). split; [reflexivity|].
      now apply elem_of_map_to_list. }
    vm_compute in Hin.
    repeat (apply elem_of_cons in Hin as [->|Hin];
            [vm_compute in Hk; injection Hk as <-; vm_compute; eexists; reflexivity|]).
    inversion Hin.
  - left. reflexivity.
Defined.

Lemma stored_message_is_latest_witness :
  exists earlier,
    conversation_history (store_message Sample.talked "alice" 1 "assistant" "Hello!") 1
    = earlier ++ [stored_message Sample.talked "alice" 1 "assistant" "Hello!"] /\
    earlier ≡ₚ conversation_history Sample.talked 1.
Proof.
  apply (stored_message_is_latest Sample.talked "alice" 1 "assistant" "Hello!").
  intros k m Hk _.
  assert (k ∈ (map_to_list (chat_messages Sample.talked)).*1) as Hin.
  { apply list_elem_of_fmap. exists (k, m). split; [reflexivity|].
    now apply elem_of_map_to_list. }
  vm_compute in Hin.
  repeat (apply elem_of_cons in Hin as [->|Hin];
          [vm_compute in Hk; injection Hk as <-; reflexivity|]).
  inversion Hin.
Defined.
